(** * Teachers-App: the live schedule-state engine

    A shallow embedding of the schedule logic of [TeacherTimetableApp]
    (Teachers App.py): the period table, [get_current_period],
    [get_current_class], [get_next_class], [update_current_status], the
    batch edit [save_timings], and the three Tk timers (status refresh,
    highlight refresh, blink toggle) together with the blink colours. *)

From Stdlib Require Import ZArith Lia Ascii.
From stdpp Require Import base option list sorting gmap strings pretty.

Open Scope Z_scope.

(** ** Time of day *)

Module TimeOfDay.

(** A naive [datetime.time]: hour, minute, second, microsecond. *)
Record time := mk_time {
  hour : Z;
  minute : Z;
  second : Z;
  microsecond : Z
}.

(** [datetime.time(h, m)] *)
Definition hm (h m : Z) : time := mk_time h m 0 0.

(** The ranges [datetime.time] enforces on construction. *)
Definition wf_time (t : time) : Prop :=
  0 <= hour t < 24 /\ 0 <= minute t < 60 /\
  0 <= second t < 60 /\ 0 <= microsecond t < 1000000.

(** Microseconds since midnight. *)
Definition time_us (t : time) : Z :=
  ((hour t * 60 + minute t) * 60 + second t) * 1000000 + microsecond t.

(** Python orders two naive times as the tuples
    (hour, minute, second, microsecond). *)
Definition time_compare (a b : time) : comparison :=
  match hour a ?= hour b with
  | Eq => match minute a ?= minute b with
          | Eq => match second a ?= second b with
                  | Eq => microsecond a ?= microsecond b
                  | c => c
                  end
          | c => c
          end
  | c => c
  end.

(** [a < b] and [a <= b] on times, through the microsecond count (shown
    below to agree with the tuple order on well-formed times). *)
Definition time_ltb (a b : time) : bool := time_us a <? time_us b.
Definition time_leb (a b : time) : bool := time_us a <=? time_us b.

(** [max(0, int((end_dt - now_dt).total_seconds() // 60))], both datetimes
    on the same date.  The timedelta is an exact microsecond count below
    86400e6, its [total_seconds()] is that count over 1e6 as a double, and
    the float floor division by 60 is exact at this magnitude, so the
    result is the integer floor of the microsecond count over 60e6. *)
Definition minutes_until (end_ now : time) : Z :=
  Z.max 0 ((time_us end_ - time_us now) / 60000000).

End TimeOfDay.

Export TimeOfDay.

(** ** The period table and the phase computation *)

Module Engine.

(** [status]: 'before' | 'during' | 'between' | 'after'. *)
Inductive status := before | during | between | after.

Global Instance status_eq_dec : EqDecision status.
Proof. solve_decision. Defined.

(** A window: the pair (start, end) stored per period number. *)
Abbreviation window := (time * time)%type.

(** [sorted(self.period_times.items())]: the keys of a dict are distinct,
    so the tuple order on items is the order of the period numbers. *)
Definition items_le (x y : Z * window) : Prop := x.1 <= y.1.

Global Instance items_le_dec x y : Decision (items_le x y).
Proof. unfold items_le. apply _. Defined.

Definition periods_sorted (period_times : gmap Z window) : list (Z * window) :=
  merge_sort items_le (map_to_list period_times).

(** Items in strictly increasing order of their period numbers. *)
Definition key_lt (x y : Z * window) : Prop := x.1 < y.1.

(** The first loop of [get_current_period]: the window holding [now]. *)
Fixpoint scan_during (now : time) (l : list (Z * window)) : option (Z * Z) :=
  match l with
  | [] => None
  | (pnum, (start, end_)) :: l' =>
      if time_leb start now && time_ltb now end_
      then Some (pnum, minutes_until end_ now)
      else scan_during now l'
  end.

(** The second loop: the first period that starts after [now]. *)
Fixpoint scan_between (now : time) (l : list (Z * window)) : option Z :=
  match l with
  | [] => None
  | (pnum, (start, _)) :: l' =>
      if time_ltb now start then Some pnum else scan_between now l'
  end.

(** [get_current_period]: (status, period_number, minutes_remaining), with
    the clock reading [now] passed in. *)
Definition get_current_period (period_times : gmap Z window) (now : time)
  : status * option Z * option Z :=
  let ps := periods_sorted period_times in
  match ps, last ps with
  | (_, (first_start, _)) :: _, Some (_, (_, last_end)) =>
      if time_ltb now first_start then (before, Some 1, None)
      else if time_leb last_end now then (after, None, None)
      else match scan_during now ps with
           | Some (pnum, minutes) => (during, Some pnum, Some minutes)
           | None =>
               match scan_between now ps with
               | Some pnum => (between, Some pnum, None)
               | None => (after, None, None)
               end
           end
  | _, _ => (after, None, None)
  end.

(** The default table of [__init__]. *)
Definition default_period_times : gmap Z window :=
  list_to_map
    [ (1, (hm 8 30, hm 9 15)); (2, (hm 9 15, hm 10 0));
      (3, (hm 10 0, hm 10 45)); (4, (hm 10 45, hm 11 30));
      (5, (hm 11 30, hm 12 15)); (6, (hm 12 15, hm 13 0));
      (7, (hm 13 0, hm 13 45)); (8, (hm 13 45, hm 14 30)) ].


(** The invariants of a period table: every window has its start before
    its end (what [save_timings] checks per period), and the windows
    ascend in time with their numbers without overlapping (what the
    default table has, and what no code path checks). *)
Definition valid_windows (period_times : gmap Z window) : Prop :=
  map_Forall (fun _ (w : window) => time_us w.1 < time_us w.2) period_times.

Definition ascending (period_times : gmap Z window) : Prop :=
  map_Forall (fun p (wp : window) =>
    map_Forall (fun q (wq : window) => p < q -> time_us wp.2 <= time_us wq.1)
      period_times) period_times.

Global Instance valid_windows_dec pt : Decision (valid_windows pt).
Proof. unfold valid_windows. apply _. Defined.

Global Instance ascending_dec pt : Decision (ascending pt).
Proof. unfold ascending. apply _. Defined.

(** [now] lies in the half-open window [start, end). *)
Definition in_window (now : time) (w : window) : Prop :=
  time_us w.1 <= time_us now < time_us w.2.

(** *** The timetable table and its two readers *)

(** A row of table [timetable]. *)
Record row := mk_row {
  row_id : Z;
  row_teacher_id : Z;
  row_day_of_week : string;
  row_period_number : Z;
  row_class_name : string;
  row_subject : string
}.

(** The dict that [get_current_class] and [get_next_class] return. *)
Record entry := mk_entry {
  id : Z;
  class_name : string;
  subject : string;
  period_number : Z
}.

Definition entry_of_row (r : row) : entry :=
  mk_entry (row_id r) (row_class_name r) (row_subject r) (row_period_number r).

(** [WHERE teacher_id = ? AND day_of_week = ? AND period_number = ?] *)
Definition matches (teacher_id : Z) (today : string) (p : Z) (r : row) : bool :=
  bool_decide (row_teacher_id r = teacher_id)
  && bool_decide (row_day_of_week r = today)
  && bool_decide (row_period_number r = p).

(** The SELECT followed by [cursor.fetchone()]: the first matching row in
    table order, if any. *)
Definition fetchone (timetable : list row) (teacher_id : Z) (today : string)
    (p : Z) : option row :=
  head (filter (fun r => matches teacher_id today p r = true) timetable).

(** [get_current_class]: today's entry for the running period, or None. *)
Definition get_current_class (period_times : gmap Z window)
    (timetable : list row) (teacher_id : Z) (now : time) (today : string)
  : option entry :=
  match get_current_period period_times now with
  | (during, Some period_num, _) =>
      if bool_decide (period_num = 0) then None
      else entry_of_row <$> fetchone timetable teacher_id today period_num
  | _ => None
  end.

(** [self.periods = list(range(1, 9))], never reassigned. *)
Definition periods : list Z := [1; 2; 3; 4; 5; 6; 7; 8].

(** [ordered_periods.index(x)]: the first position of [x]; None stands
    for the ValueError. *)
Definition index (x : Z) (l : list Z) : option nat :=
  fst <$> list_find (fun y => y = x) l.

(** The loop of [get_next_class] over [ordered_periods[start_index:]]. *)
Fixpoint scan_entries (timetable : list row) (teacher_id : Z) (today : string)
    (ps : list Z) : option entry :=
  match ps with
  | [] => None
  | p :: ps' =>
      match fetchone timetable teacher_id today p with
      | Some r => Some (entry_of_row r)
      | None => scan_entries timetable teacher_id today ps'
      end
  end.

(** Where [get_next_class] starts its search in [ordered_periods]. *)
Definition start_index (now_status : status) (current_period : option Z)
    (ordered_periods : list Z) : nat :=
  match now_status, current_period with
  | before, _ => 0%nat
  | (during | between), Some p =>
      if bool_decide (p = 0) then length ordered_periods
      else match index p ordered_periods with
           | Some i => S i
           | None => 0%nat
           end
  | _, _ => length ordered_periods
  end.

(** [get_next_class]: the next entry today after the current time, or
    None. *)
Definition get_next_class (period_times : gmap Z window)
    (timetable : list row) (teacher_id : Z) (now : time) (today : string)
  : option entry :=
  let '(now_status, current_period, _) := get_current_period period_times now in
  let ordered_periods := merge_sort Z.le periods in
  scan_entries timetable teacher_id today
    (drop (start_index now_status current_period ordered_periods)
       ordered_periods).

(** The period numbers [get_next_class] looks at, in terms of the phase:
    all of them when BEFORE, those strictly above the current period when
    DURING or BETWEEN, none when AFTER. *)
Definition scanned (st : status) (cur : option Z) : list Z :=
  match st, cur with
  | before, _ => periods
  | (during | between), Some p => filter (fun q => p < q) periods
  | _, _ => []
  end.

End Engine.

Export Engine.

(** ** The application object *)

Module App.

(** What [datetime.datetime.now()] gives a callback: [now_time] and
    [weekday] are the time of day and the weekday name ([strftime('%A')])
    of the reading at hand, [later] holds the readings that follow it. *)
Record clock := mk_readings {
  now_time : time;
  weekday : string;
  later : list (time * string)
}.

(** The clock that reads the same time and weekday every time. *)
Definition mk_clock (t : time) (d : string) : clock := mk_readings t d [].

(** The clock once the reading at hand has been taken: the next reading
    comes up (a clock without later readings stands still). *)
Definition tick (clk : clock) : clock :=
  match later clk with
  | [] => clk
  | (t, d) :: rest => mk_readings t d rest
  end.

(** A grid cell: its background and the [_orig_bg] attribute the blink
    code attaches to the widget (None: attribute absent). *)
Record button := mk_button {
  bg : string;
  _orig_bg : option string
}.

(** The three callbacks ever handed to [self.after]. *)
Inductive callback :=
  | cb_start_auto_update_status
  | cb_start_auto_update_highlight
  | cb_blink_highlight.

Global Instance callback_eq_dec : EqDecision callback.
Proof. solve_decision. Defined.

Global Instance button_eq_dec : EqDecision button.
Proof. solve_decision. Defined.

(** The fields of [TeacherTimetableApp] the schedule logic reads or
    writes, the two tables of school.db it touches, and Tk's table of
    pending [after] callbacks (delay in ms, callback) with its id counter.
    [current_highlight_btn] refers to a widget of [grid_buttons]: it is
    kept as the key of that widget, so both names reach the same cell. *)
Record app := mk_app {
  period_times : gmap Z window;
  db_period_times : gmap Z (string * string);
  db_timetable : list row;
  current_teacher_id : option Z;
  status_var : string;
  next_var : string;
  remaining_var : string;
  default_btn_bg : string;
  grid_buttons : gmap (string * Z) button;
  current_highlight_btn : option (string * Z);
  blink_state : bool;
  _status_after_id : option nat;
  _highlight_after_id : option nat;
  _blink_after_id : option nat;
  tk_pending : gmap nat (Z * callback);
  tk_next_id : nat
}.

Definition highlight_color : string := "#00FF84".
Definition blink_interval : Z := 500.

(** Field updates. *)
Definition set_period_times v a :=
  mk_app v (db_period_times a) (db_timetable a) (current_teacher_id a)
    (status_var a) (next_var a) (remaining_var a) (default_btn_bg a)
    (grid_buttons a) (current_highlight_btn a) (blink_state a)
    (_status_after_id a) (_highlight_after_id a) (_blink_after_id a)
    (tk_pending a) (tk_next_id a).
Definition set_db_period_times v a :=
  mk_app (period_times a) v (db_timetable a) (current_teacher_id a)
    (status_var a) (next_var a) (remaining_var a) (default_btn_bg a)
    (grid_buttons a) (current_highlight_btn a) (blink_state a)
    (_status_after_id a) (_highlight_after_id a) (_blink_after_id a)
    (tk_pending a) (tk_next_id a).
Definition set_db_timetable v a :=
  mk_app (period_times a) (db_period_times a) v (current_teacher_id a)
    (status_var a) (next_var a) (remaining_var a) (default_btn_bg a)
    (grid_buttons a) (current_highlight_btn a) (blink_state a)
    (_status_after_id a) (_highlight_after_id a) (_blink_after_id a)
    (tk_pending a) (tk_next_id a).
Definition set_current_teacher_id v a :=
  mk_app (period_times a) (db_period_times a) (db_timetable a) v
    (status_var a) (next_var a) (remaining_var a) (default_btn_bg a)
    (grid_buttons a) (current_highlight_btn a) (blink_state a)
    (_status_after_id a) (_highlight_after_id a) (_blink_after_id a)
    (tk_pending a) (tk_next_id a).
Definition set_status_vars (s n r : string) a :=
  mk_app (period_times a) (db_period_times a) (db_timetable a)
    (current_teacher_id a) s n r (default_btn_bg a)
    (grid_buttons a) (current_highlight_btn a) (blink_state a)
    (_status_after_id a) (_highlight_after_id a) (_blink_after_id a)
    (tk_pending a) (tk_next_id a).
Definition set_grid_buttons v a :=
  mk_app (period_times a) (db_period_times a) (db_timetable a)
    (current_teacher_id a) (status_var a) (next_var a) (remaining_var a)
    (default_btn_bg a) v (current_highlight_btn a) (blink_state a)
    (_status_after_id a) (_highlight_after_id a) (_blink_after_id a)
    (tk_pending a) (tk_next_id a).
Definition set_current_highlight_btn v a :=
  mk_app (period_times a) (db_period_times a) (db_timetable a)
    (current_teacher_id a) (status_var a) (next_var a) (remaining_var a)
    (default_btn_bg a) (grid_buttons a) v (blink_state a)
    (_status_after_id a) (_highlight_after_id a) (_blink_after_id a)
    (tk_pending a) (tk_next_id a).
Definition set_blink_state v a :=
  mk_app (period_times a) (db_period_times a) (db_timetable a)
    (current_teacher_id a) (status_var a) (next_var a) (remaining_var a)
    (default_btn_bg a) (grid_buttons a) (current_highlight_btn a) v
    (_status_after_id a) (_highlight_after_id a) (_blink_after_id a)
    (tk_pending a) (tk_next_id a).
Definition set_status_after_id v a :=
  mk_app (period_times a) (db_period_times a) (db_timetable a)
    (current_teacher_id a) (status_var a) (next_var a) (remaining_var a)
    (default_btn_bg a) (grid_buttons a) (current_highlight_btn a)
    (blink_state a) v (_highlight_after_id a) (_blink_after_id a)
    (tk_pending a) (tk_next_id a).
Definition set_highlight_after_id v a :=
  mk_app (period_times a) (db_period_times a) (db_timetable a)
    (current_teacher_id a) (status_var a) (next_var a) (remaining_var a)
    (default_btn_bg a) (grid_buttons a) (current_highlight_btn a)
    (blink_state a) (_status_after_id a) v (_blink_after_id a)
    (tk_pending a) (tk_next_id a).
Definition set_blink_after_id v a :=
  mk_app (period_times a) (db_period_times a) (db_timetable a)
    (current_teacher_id a) (status_var a) (next_var a) (remaining_var a)
    (default_btn_bg a) (grid_buttons a) (current_highlight_btn a)
    (blink_state a) (_status_after_id a) (_highlight_after_id a) v
    (tk_pending a) (tk_next_id a).
Definition set_tk v n a :=
  mk_app (period_times a) (db_period_times a) (db_timetable a)
    (current_teacher_id a) (status_var a) (next_var a) (remaining_var a)
    (default_btn_bg a) (grid_buttons a) (current_highlight_btn a)
    (blink_state a) (_status_after_id a) (_highlight_after_id a)
    (_blink_after_id a) v n.

(** *** The status area *)

(** [f"{x}"] for an int or None. *)
Definition str_opt (o : option Z) : string :=
  match o with Some z => pretty z | None => "None" end.

(** The text written to [next_var] in the three branches that look for a
    next class. *)
Definition next_text (nxt : option entry) : string :=
  match nxt with
  | Some e =>
      "Next: " +:+ class_name e +:+ " (Period " +:+ pretty (period_number e) +:+ ")"
  | None => "No more classes today."
  end.

(** [update_current_status]; the clock label [current_time_var] is display
    only and left out.  [get_current_period] reads the clock, and so do
    [get_current_class] and [get_next_class] when they are called after
    it, each anew. *)
Definition update_current_status (clk : clock) (a : app) : app :=
  match current_teacher_id a with
  | None => set_status_vars "No teacher selected" "" "" a
  | Some teacher_id =>
      match get_current_period (period_times a) (now_time clk) with
      | (before, _, _) =>
          let clk := tick clk in
          let nxt := get_next_class (period_times a) (db_timetable a) teacher_id
                       (now_time clk) (weekday clk) in
          set_status_vars "School has not started yet." (next_text nxt) "" a
      | (after, _, _) =>
          set_status_vars "School is over for today." "No more classes today." "" a
      | (during, period_num, minutes) =>
          let clk := tick clk in
          let current := get_current_class (period_times a) (db_timetable a)
                           teacher_id (now_time clk) (weekday clk) in
          let clk := tick clk in
          let nxt := get_next_class (period_times a) (db_timetable a) teacher_id
                       (now_time clk) (weekday clk) in
          set_status_vars
            match current with
            | Some c =>
                "Currently teaching: " +:+ class_name c
                  +:+ " (Period " +:+ pretty (period_number c) +:+ ")"
            | None =>
                "Teacher is FREE right now (Period " +:+ str_opt period_num +:+ ")"
            end
            (next_text nxt)
            match minutes with
            | Some m => pretty m +:+ " min remaining in this period"
            | None => ""
            end
            a
      | (between, period_num, _) =>
          let clk := tick clk in
          let nxt := get_next_class (period_times a) (db_timetable a) teacher_id
                       (now_time clk) (weekday clk) in
          set_status_vars
            ("Teacher is FREE right now (Before Period " +:+ str_opt period_num +:+ ")")
            (next_text nxt) "" a
      end
  end.

(** *** Editing the period timings *)

(** What the dialog shows when [save_timings] returns. *)
Inductive messagebox :=
  | showerror (title message : string)
  | showinfo (title message : string).

(** [t.strftime('%H:%M')] *)
Definition pad2 (n : Z) : string :=
  if n <? 10 then "0" +:+ pretty n else pretty n.
Definition strftime_HM (t : time) : string :=
  pad2 (hour t) +:+ ":" +:+ pad2 (minute t).

(** What [datetime.time.fromisoformat] returns: the fields of the time
    and, when the text carries a UTC offset, the [utcoffset()] of the
    time, in microseconds. *)
Record ptime := mk_ptime {
  wall : time;
  utcoffset : option Z
}.

Definition pwindow : Type := ptime * ptime.

(** A time without offset, and the window of the fields of two times. *)
Definition naive (t : time) : ptime := mk_ptime t None.
Definition wall_window (w : pwindow) : window := (wall w.1, wall w.2).

(** [x >= y] on [datetime.time] objects, as CPython's [time_richcompare]
    decides it; None: TypeError (can't compare offset-naive and
    offset-aware times).  Two naive times, or two times with the same
    offset, compare by their fields; two times with different offsets
    compare by the seconds since midnight less the whole seconds of the
    offset, then by the microsecond field. *)
Definition offsecs (t : time) (offset : Z) : Z :=
  hour t * 3600 + minute t * 60 + second t - offset / 1000000.

Definition time_ge (x y : ptime) : option bool :=
  match utcoffset x, utcoffset y with
  | None, None => Some (time_leb (wall y) (wall x))
  | Some ox, Some oy =>
      if bool_decide (ox = oy) then Some (time_leb (wall y) (wall x))
      else
        let diff := offsecs (wall x) ox - offsecs (wall y) oy in
        let diff :=
          if bool_decide (diff = 0)
          then microsecond (wall x) - microsecond (wall y) else diff in
        Some (0 <=? diff)
  | _, _ => None
  end.

Definition wall_windows (new_map : list (Z * pwindow)) : list (Z * window) :=
  (fun x : Z * pwindow => (x.1, wall_window x.2)) <$> new_map.

(** The windows of a batch when none of its times carries an offset. *)
Definition naive_window (w : pwindow) : option window :=
  match utcoffset w.1, utcoffset w.2 with
  | None, None => Some (wall_window w)
  | _, _ => None
  end.

Fixpoint naive_windows (new_map : list (Z * pwindow)) : option (list (Z * window)) :=
  match new_map with
  | [] => Some []
  | (pnum, w) :: rest =>
      match naive_window w, naive_windows rest with
      | Some w, Some rest => Some ((pnum, w) :: rest)
      | _, _ => None
      end
  end.

(** How the validation loop of [save_timings] ends: with an error box,
    with the TypeError of [s_t >= e_t] (which no handler catches), or with
    [new_map] filled. *)
Inductive verdict :=
  | refuse (err : messagebox)
  | type_error
  | accept (new_map : list (Z * pwindow)).

(** How [save_timings] ends.  A refusal and a TypeError leave the
    application as it was.  An accepted batch is written to the table and
    to the schedule; [stored] gives the application afterwards when the
    schedule still holds times without offset, which is what the schedule
    engine is defined on, and [stored_aware] gives the table and the
    accepted [new_map] when an offset-aware time has entered the
    schedule. *)
Inductive saved :=
  | refused (err : messagebox)
  | raised_TypeError
  | stored (a : app) (msg : messagebox)
  | stored_aware (db : gmap Z (string * string))
      (new_map : list (Z * pwindow)) (msg : messagebox).

Section save_timings.

(** [str.strip] and [datetime.time.fromisoformat] (None: it raises) are
    the Python library's. *)
Variable strip : string -> string.
Variable fromisoformat : string -> option ptime.

(** The validation loop: it fills [new_map] in dict order and returns at
    the first period whose texts do not parse or whose start is not before
    its end. *)
Fixpoint validate (entries : list (Z * (string * string)))
    (new_map : list (Z * pwindow)) : verdict :=
  match entries with
  | [] => accept new_map
  | (pnum, (s_e, e_e)) :: rest =>
      match fromisoformat (strip s_e), fromisoformat (strip e_e) with
      | Some s_t, Some e_t =>
          match time_ge s_t e_t with
          | None => type_error
          | Some true =>
              refuse (showerror "Validation Error"
                        ("Start time must be before end time for period "
                           +:+ pretty pnum +:+ "."))
          | Some false => validate rest (new_map ++ [(pnum, (s_t, e_t))])
          end
      | _, _ =>
          refuse (showerror "Validation Error"
                    ("Invalid time format for period " +:+ pretty pnum
                       +:+ ". Use HH:MM (24-hour)."))
      end
  end.

(** A row of the batch that does not pass the loop: a text that does not
    parse, or a comparison that does not answer that the start is before
    the end. *)
Definition invalid_entry (x : Z * (string * string)) : Prop :=
  match fromisoformat (strip x.2.1), fromisoformat (strip x.2.2) with
  | Some s_t, Some e_t => time_ge s_t e_t <> Some false
  | _, _ => True
  end.

(** [INSERT OR REPLACE INTO period_times] for every item of [new_map];
    [strftime('%H:%M')] writes the hour and minute fields. *)
Definition persist (new_map : list (Z * window))
    (db : gmap Z (string * string)) : gmap Z (string * string) :=
  fold_left (fun db '(pnum, (s_t, e_t)) =>
               <[pnum := (strftime_HM s_t, strftime_HM e_t)]> db) new_map db.

(** [self.period_times.update(new_map)] *)
Definition update (new_map : list (Z * window))
    (period_times : gmap Z window) : gmap Z window :=
  fold_left (fun m '(pnum, w) => <[pnum := w]> m) new_map period_times.

(** [save_timings], the Save button of the dialog; [entries] holds the
    texts of the entry widgets per period number. *)
Definition save_timings (entries : list (Z * (string * string)))
    (clk : clock) (a : app) : saved :=
  match validate entries [] with
  | refuse err => refused err
  | type_error => raised_TypeError
  | accept new_map =>
      let db := persist (wall_windows new_map) (db_period_times a) in
      match naive_windows new_map with
      | Some windows =>
          let a := set_db_period_times db a in
          let a := set_period_times (update windows (period_times a)) a in
          let a := update_current_status clk a in
          stored a (showinfo "Success" "Period timings updated.")
      | None =>
          stored_aware db new_map (showinfo "Success" "Period timings updated.")
      end
  end.

End save_timings.

(** [str.strip] on ASCII text, and the HH:MM fragment of [fromisoformat]:
    enough to run the dialog on concrete texts. *)

Definition is_space (c : Ascii.ascii) : bool :=
  let n := Z.of_N (Ascii.N_of_ascii c) in
  ((9 <=? n) && (n <=? 13)) || ((28 <=? n) && (n <=? 32)).

Fixpoint lstrip (s : string) : string :=
  match s with
  | String c s' => if is_space c then lstrip s' else s
  | EmptyString => s
  end.

Definition strip_ascii (s : string) : string :=
  String.rev (lstrip (String.rev (lstrip s))).

Definition digit (c : Ascii.ascii) : option Z :=
  let n := Z.of_N (Ascii.N_of_ascii c) in
  if (48 <=? n) && (n <=? 57) then Some (n - 48) else None.

Definition parse_hhmm (s : string) : option time :=
  match s with
  | String h1 (String h2 (String ":"%char (String m1 (String m2 EmptyString)))) =>
      match digit h1, digit h2, digit m1, digit m2 with
      | Some a, Some b, Some c, Some d =>
          let h := 10 * a + b in
          let m := 10 * c + d in
          if (h <? 24) && (m <? 60) then Some (hm h m) else None
      | _, _, _, _ => None
      end
  | _ => None
  end.

(** The HH:MM, HH:MM+HH:MM and HH:MM-HH:MM fragments of [fromisoformat]:
    a text of the first form gives a naive time, one with an offset a time
    whose [utcoffset()] is that offset. *)
Definition parse_iso (s : string) : option ptime :=
  match s with
  | String h1 (String h2 (String c (String m1 (String m2 rest)))) =>
      match parse_hhmm (String h1 (String h2 (String c (String m1 (String m2 ""))))) with
      | Some t =>
          match rest with
          | EmptyString => Some (naive t)
          | String sign off =>
              match parse_hhmm off with
              | Some o =>
                  let us := (hour o * 3600 + minute o * 60) * 1000000 in
                  if Ascii.eqb sign "+"%char then Some (mk_ptime t (Some us))
                  else if Ascii.eqb sign "-"%char then Some (mk_ptime t (Some (- us)))
                  else None
              | None => None
              end
          end
      | None => None
      end
  | _ => None
  end.

(** *** Tk's [after] and [after_cancel] *)

(** [self.after(ms, cb)] registers the callback under a fresh id and
    returns the id; [self.after_cancel(id)] forgets it (a no-op on an id
    that already ran or was cancelled). *)
Module Tk.

Definition after (ms : Z) (cb : callback) (a : app) : nat * app :=
  (tk_next_id a,
   set_tk (<[tk_next_id a := (ms, cb)]> (tk_pending a)) (S (tk_next_id a)) a).

Definition after_cancel (i : nat) (a : app) : app :=
  set_tk (delete i (tk_pending a)) (tk_next_id a) a.

End Tk.

(** *** The status timer *)

Definition stop_auto_update_status (a : app) : app :=
  match _status_after_id a with
  | Some i => set_status_after_id None (Tk.after_cancel i a)
  | None => a
  end.

Definition start_auto_update_status (clk : clock) (a : app) : app :=
  let a := stop_auto_update_status a in
  let a := update_current_status clk a in
  let '(i, a) := Tk.after 60000 cb_start_auto_update_status a in
  set_status_after_id (Some i) a.

(** *** The blink animation *)

(** Python truth of [getattr(btn, '_orig_bg', None)]. *)
Definition truthy (o : option string) : bool :=
  match o with
  | Some s => negb (bool_decide (s = ""))
  | None => false
  end.

(** [btn.config(bg=c, fg="#000000")] *)
Definition config_bg (c : string) (btn : button) : button :=
  mk_button c (_orig_bg btn).

(** The restore of [stop_blink_animation] on the target widget. *)
Definition restore_orig (btn : button) : button :=
  match _orig_bg btn with
  | Some orig => if truthy (Some orig) then mk_button orig None else btn
  | None => btn
  end.

(** The capture of [start_blink_animation] on the target widget. *)
Definition capture_orig (btn : button) : button :=
  if truthy (_orig_bg btn) then btn else mk_button (bg btn) (Some (bg btn)).

(** One toggle of [blink_highlight] on the target widget, [st] being the
    new [blink_state]. *)
Definition toggle (st : bool) (btn : button) : button :=
  let orig := default (bg btn) (_orig_bg btn) in
  if st then config_bg highlight_color btn else config_bg orig btn.

(** Apply [f] to the widget [current_highlight_btn] refers to, if any. *)
Definition on_highlight_btn (f : button -> button) (a : app) : app :=
  match current_highlight_btn a with
  | Some k => set_grid_buttons (alter f k (grid_buttons a)) a
  | None => a
  end.

Definition stop_blink_animation (a : app) : app :=
  let a := match _blink_after_id a with
           | Some i => set_blink_after_id None (Tk.after_cancel i a)
           | None => a
           end in
  on_highlight_btn restore_orig a.

Definition start_blink_animation (a : app) : app :=
  let a := stop_blink_animation a in
  let a := set_blink_state false a in
  let a := on_highlight_btn capture_orig a in
  let '(i, a) := Tk.after blink_interval cb_blink_highlight a in
  set_blink_after_id (Some i) a.

Definition blink_highlight (a : app) : app :=
  match current_highlight_btn a with
  | None => a
  | Some _ =>
      let st := negb (blink_state a) in
      let a := set_blink_state st a in
      let a := on_highlight_btn (toggle st) a in
      let '(i, a) := Tk.after blink_interval cb_blink_highlight a in
      set_blink_after_id (Some i) a
  end.

(** *** The highlight timer *)

Definition update_highlight (clk : clock) (a : app) : app :=
  let a := set_grid_buttons (config_bg (default_btn_bg a) <$> grid_buttons a) a in
  match current_teacher_id a with
  | None => a
  | Some teacher_id =>
      match get_current_period (period_times a) (now_time clk) with
      | (during, Some period_num, _) =>
          if bool_decide (period_num = 0) then a
          else
            let today := weekday clk in
            match fetchone (db_timetable a) teacher_id today period_num with
            | Some _ =>
                match grid_buttons a !! (today, period_num) with
                | Some _ =>
                    start_blink_animation
                      (set_current_highlight_btn (Some (today, period_num)) a)
                | None => a
                end
            | None => stop_blink_animation a
            end
      | _ => a
      end
  end.

Definition stop_auto_update_highlight (a : app) : app :=
  let a := match _highlight_after_id a with
           | Some i => set_highlight_after_id None (Tk.after_cancel i a)
           | None => a
           end in
  stop_blink_animation a.

Definition start_auto_update_highlight (clk : clock) (a : app) : app :=
  let a := stop_auto_update_highlight a in
  let a := update_highlight clk a in
  let '(i, a) := Tk.after 5000 cb_start_auto_update_highlight a in
  set_highlight_after_id (Some i) a.

(** *** The event loop *)

(** What can happen to the application between two observations: the
    rest of the program calls one of the operations it calls (the two
    blink operations are only ever called by the highlight code itself),
    Tk runs a pending callback, or selection, CRUD, grid repopulation and
    timing edits change the data the engine reads. *)
Inductive event :=
  | ev_start_auto_update_status (clk : clock)
  | ev_stop_auto_update_status
  | ev_start_auto_update_highlight (clk : clock)
  | ev_stop_auto_update_highlight
  | ev_update_highlight (clk : clock)
  | ev_update_current_status (clk : clock)
  | ev_fire (i : nat) (clk : clock)
  | ev_select (teacher : option Z)
  | ev_timetable (rows : list row)
  | ev_period_times (pt : gmap Z window)
  | ev_paint (k : string * Z) (color : string).

(** Tk's main loop running the pending callback [i]: it leaves the table
    and is called. *)
Definition fire (i : nat) (clk : clock) (a : app) : app :=
  match tk_pending a !! i with
  | None => a
  | Some (_, cb) =>
      let a := set_tk (delete i (tk_pending a)) (tk_next_id a) a in
      match cb with
      | cb_start_auto_update_status => start_auto_update_status clk a
      | cb_start_auto_update_highlight => start_auto_update_highlight clk a
      | cb_blink_highlight => blink_highlight a
      end
  end.

Definition run (e : event) (a : app) : app :=
  match e with
  | ev_start_auto_update_status clk => start_auto_update_status clk a
  | ev_stop_auto_update_status => stop_auto_update_status a
  | ev_start_auto_update_highlight clk => start_auto_update_highlight clk a
  | ev_stop_auto_update_highlight => stop_auto_update_highlight a
  | ev_update_highlight clk => update_highlight clk a
  | ev_update_current_status clk => update_current_status clk a
  | ev_fire i clk => fire i clk a
  | ev_select teacher => set_current_teacher_id teacher a
  | ev_timetable rows => set_db_timetable rows a
  | ev_period_times pt => set_period_times pt a
  | ev_paint k color => set_grid_buttons (alter (config_bg color) k (grid_buttons a)) a
  end.

Definition run_all (es : list event) (a : app) : app :=
  fold_left (fun a e => run e a) es a.

(** The application right after the grid is built: no timer armed, no
    blink target, every cell at the default colour. *)
Definition initial (a : app) : Prop :=
  _status_after_id a = None /\ _highlight_after_id a = None /\
  _blink_after_id a = None /\ tk_pending a = ∅ /\
  current_highlight_btn a = None /\
  default_btn_bg a <> "" /\
  map_Forall (fun _ b => b = mk_button (default_btn_bg a) None) (grid_buttons a).

Inductive reachable : app -> Prop :=
  | reachable_initial a : initial a -> reachable a
  | reachable_run e a : reachable a -> reachable (run e a).

(** [self.days] and the grid [finish_setup] builds. *)
Definition days : list string :=
  ["Monday"; "Tuesday"; "Wednesday"; "Thursday"; "Friday"; "Saturday"].

Definition init_app (default_bg : string) (rows : list row) : app :=
  mk_app default_period_times ∅ rows None "" "" "" default_bg
    (list_to_map
       (day ← days; period ← periods; [((day, period), mk_button default_bg None)]))
    None true None None None ∅ 0.

(** The pending callbacks of one timer. *)
Definition live (cb : callback) (a : app) : gmap nat (Z * callback) :=
  filter (fun kv => kv.2.2 = cb) (tk_pending a).

(** The handle field that tracks a timer. *)
Definition handle (cb : callback) (a : app) : option nat :=
  match cb with
  | cb_start_auto_update_status => _status_after_id a
  | cb_start_auto_update_highlight => _highlight_after_id a
  | cb_blink_highlight => _blink_after_id a
  end.

(** The delay each timer is armed with. *)
Definition delay (cb : callback) : Z :=
  match cb with
  | cb_start_auto_update_status => 60000
  | cb_start_auto_update_highlight => 5000
  | cb_blink_highlight => 500
  end.

(** The start and stop operation of each timer. *)
Definition start (cb : callback) (clk : clock) (a : app) : app :=
  match cb with
  | cb_start_auto_update_status => start_auto_update_status clk a
  | cb_start_auto_update_highlight => start_auto_update_highlight clk a
  | cb_blink_highlight => start_blink_animation a
  end.

Definition stop (cb : callback) (a : app) : app :=
  match cb with
  | cb_start_auto_update_status => stop_auto_update_status a
  | cb_start_auto_update_highlight => stop_auto_update_highlight a
  | cb_blink_highlight => stop_blink_animation a
  end.

Definition set_handle (cb : callback) (v : option nat) (a : app) : app :=
  match cb with
  | cb_start_auto_update_status => set_status_after_id v a
  | cb_start_auto_update_highlight => set_highlight_after_id v a
  | cb_blink_highlight => set_blink_after_id v a
  end.

(** A start or a stop of one of the three timers, and a sequence of
    them. *)
Inductive timer_op :=
  | op_start (cb : callback) (clk : clock)
  | op_stop (cb : callback).

Definition apply_op (o : timer_op) (a : app) : app :=
  match o with
  | op_start cb clk => start cb clk a
  | op_stop cb => stop cb a
  end.

Definition apply_ops (os : list timer_op) (a : app) : app :=
  fold_left (fun a o => apply_op o a) os a.

(** The part of the application the timers live in. *)
Definition timers (a : app) :=
  (tk_pending a, tk_next_id a,
   _status_after_id a, _highlight_after_id a, _blink_after_id a).

(** The cancellation discipline: every pending callback is the one its
    timer's handle field names, carries that timer's delay, and has an id
    Tk has already handed out. *)
Definition tracked (a : app) : Prop :=
  (forall i d cb, tk_pending a !! i = Some (d, cb) ->
     handle cb a = Some i /\ d = delay cb) /\
  (forall cb i, handle cb a = Some i -> (i < tk_next_id a)%nat).

(** No callback of this timer is pending. *)
Definition no_live (cb : callback) (a : app) : Prop :=
  forall i d, tk_pending a !! i <> Some (d, cb).

(** The part of the application the cell colours live in. *)
Definition cells (a : app) :=
  (default_btn_bg a, grid_buttons a, current_highlight_btn a).

(** A recorded [_orig_bg], if any, is the colour [d]. *)
Definition orig_ok (d : string) (b : button) : Prop :=
  _orig_bg b = None \/ _orig_bg b = Some d.

(** The colour discipline of the grid: the default colour is a colour
    name, a recorded [_orig_bg] is the default colour, and the blink
    target is a cell of the grid. *)
Definition resting (a : app) : Prop :=
  default_btn_bg a <> "" /\
  (forall k b, grid_buttons a !! k = Some b -> orig_ok (default_btn_bg a) b) /\
  (forall k, current_highlight_btn a = Some k -> is_Some (grid_buttons a !! k)).

End App.

Export App.

(** ** The rest of the timing code *)

Module Timings.

(** The persisted form of a window: start and end as HH:MM texts. *)
Definition fmt_window (w : window) : string * string :=
  (strftime_HM w.1, strftime_HM w.2).

(** What the validation loop of [save_timings] builds from a row whose
    texts carry no UTC offset, when it accepts the row. *)
Definition parsed (strip : string -> string)
    (fromisoformat : string -> option ptime)
    (x : Z * (string * string)) (y : Z * window) : Prop :=
  y.1 = x.1 /\ fromisoformat (strip x.2.1) = Some (naive y.2.1) /\
  fromisoformat (strip x.2.2) = Some (naive y.2.2) /\ time_us y.2.1 < time_us y.2.2.

(** The items of [new_map] for windows of times without offset. *)
Definition naive_entries (result : list (Z * window)) : list (Z * pwindow) :=
  (fun y : Z * window => (y.1, (naive y.2.1, naive y.2.2))) <$> result.

Global Instance time_eq_dec : EqDecision time.
Proof. solve_decision. Defined.

(** *** Loading the persisted timings *)

(** [SELECT period_number, start, end FROM period_times ORDER BY
    period_number]: the primary key makes the numbers distinct. *)
Definition db_rows_le (x y : Z * (string * string)) : Prop := x.1 <= y.1.

Global Instance db_rows_le_dec x y : Decision (db_rows_le x y).
Proof. unfold db_rows_le. apply _. Defined.

Definition db_rows (db : gmap Z (string * string)) : list (Z * (string * string)) :=
  merge_sort db_rows_le (map_to_list db).

Section load_period_times.

(** [datetime.time.fromisoformat] (None: it raises), on the texts of table
    [period_times]: they are written by [strftime('%H:%M')] and carry no
    UTC offset. *)
Variable fromisoformat : string -> option time.

(** One turn of the loading loop: the parsed window, or on a parse
    failure the window the period has in memory, or nothing. *)
Definition load_row (period_times new_map : gmap Z window)
    (r : Z * (string * string)) : gmap Z window :=
  let '(pnum, (start_s, end_s)) := r in
  match fromisoformat start_s, fromisoformat end_s with
  | Some start_t, Some end_t => <[pnum := (start_t, end_t)]> new_map
  | _, _ =>
      match period_times !! pnum with
      | Some w => <[pnum := w]> new_map
      | None => new_map
      end
  end.

(** [load_period_times]: an empty persisted table is first filled from
    the schedule in memory; then the schedule is replaced by what the
    persisted rows give, unless they give nothing. *)
Definition load_period_times (a : app) : app :=
  let db := db_period_times a in
  let db := if bool_decide (size db = 0%nat)
               && negb (bool_decide (period_times a = ∅))
            then persist (periods_sorted (period_times a)) db
            else db in
  let new_map := fold_left (load_row (period_times a)) (db_rows db) ∅ in
  let a := set_db_period_times db a in
  if bool_decide (new_map = ∅) then a else set_period_times new_map a.

(** What a persisted row stands for when it is loaded. *)
Definition loaded_window (period_times : gmap Z window) (pnum : Z)
    (r : string * string) : option window :=
  match fromisoformat r.1, fromisoformat r.2 with
  | Some start_t, Some end_t => Some (start_t, end_t)
  | _, _ => period_times !! pnum
  end.

(** The times that survive being written as HH:MM and read back. *)
Definition round_trips (period_times : gmap Z window) : Prop :=
  map_Forall (fun _ (w : window) =>
    fromisoformat (strftime_HM w.1) = Some w.1 /\
    fromisoformat (strftime_HM w.2) = Some w.2) period_times.

End load_period_times.

End Timings.

Export Timings.

(** ** The blink loop and its target *)

Module Loops.

(** A blink callback is pending only while the animator has a target
    cell. *)
Definition blink_has_target (a : app) : Prop :=
  no_live cb_blink_highlight a \/ is_Some (current_highlight_btn a).

End Loops.

Export Loops.

(** ** The subject colours and the import headers *)

Module Colours.

(** [self.color_palette] *)
Definition color_palette : list string :=
  [ "#4CC562"; "#AED6F1"; "#F5B7B1"; "#D2B4DE"; "#ABEBC6"; "#FADBD8";
    "#D6EAF8"; "#F9EBEA"; "#E8DAEF"; "#FDEBD0" ].

(** [self.subject_colors] and [self.next_color_idx]. *)
Record colors := mk_colors {
  subject_colors : gmap string string;
  next_color_idx : nat
}.

(** The two fields as [__init__] leaves them. *)
Definition no_colors : colors := mk_colors ∅ 0.

(** [str.lower] and [str.upper] on ASCII text. *)
Definition lower_char (c : Ascii.ascii) : Ascii.ascii :=
  let n := Ascii.N_of_ascii c in
  if ((65 <=? n) && (n <=? 90))%N then Ascii.ascii_of_N (n + 32) else c.

Definition upper_char (c : Ascii.ascii) : Ascii.ascii :=
  let n := Ascii.N_of_ascii c in
  if ((97 <=? n) && (n <=? 122))%N then Ascii.ascii_of_N (n - 32) else c.

Fixpoint map_string (f : Ascii.ascii -> Ascii.ascii) (s : string) : string :=
  match s with
  | EmptyString => EmptyString
  | String c s' => String (f c) (map_string f s')
  end.

Definition lower_ascii : string -> string := map_string lower_char.
Definition upper_ascii : string -> string := map_string upper_char.

Section with_str.

(** [str.strip] and [str.lower] are the Python library's. *)
Variable strip : string -> string.
Variable lower : string -> string.

(** [get_subject_color]: the colour and the two fields after the call. *)
Definition get_subject_color (default_btn_bg : string) (subj : string)
    (st : colors) : string * colors :=
  if bool_decide (subj = "") then (default_btn_bg, st)
  else
    let key := lower (strip subj) in
    match subject_colors st !! key with
    | Some color => (color, st)
    | None =>
        let color :=
          default "" (color_palette
                        !! (next_color_idx st mod length color_palette)%nat) in
        (color, mk_colors (<[key := color]> (subject_colors st))
                  (S (next_color_idx st)))
    end.

(** A run of calls, one per subject, keeping the state only. *)
Definition color_all (default_btn_bg : string) (subjects : list string)
    (st : colors) : colors :=
  fold_left (fun st subj => (get_subject_color default_btn_bg subj st).2)
    subjects st.

(** [find_col] of [import_timetable_from_excel]: the inner loop over the
    columns of the file, and the outer loop over the accepted names. *)
Fixpoint find_in_cols (cand : string) (cols : list string) : option string :=
  match cols with
  | [] => None
  | c :: cols' =>
      if bool_decide (lower (strip c) = lower (strip cand)) then Some c
      else find_in_cols cand cols'
  end.

Fixpoint find_col (cols candidates : list string) : option string :=
  match candidates with
  | [] => None
  | cand :: rest =>
      match find_in_cols cand cols with
      | Some c => Some c
      | None => find_col cols rest
      end
  end.

End with_str.

End Colours.

Export Colours.

(** ** The timetable grid and the timetable table *)

Module Gui.

(** A row of table [teachers]. *)
Record teacher := mk_teacher {
  t_id : Z;
  t_name : string;
  t_degree : option string;
  t_main_subject : option string;
  t_subjects : option string
}.

(** The application with the fields and tables the timetable code needs
    on top of the schedule engine: the subject colours, table [teachers],
    the AUTOINCREMENT counter of table [timetable] (the largest id ever
    given), and [selected_teacher_id]. *)
Record gui := mk_gui {
  core : app;
  palette : colors;
  timetable_seq : Z;
  db_teachers : list teacher;
  selected_teacher_id : option Z
}.

Definition set_core v g :=
  mk_gui v (palette g) (timetable_seq g) (db_teachers g) (selected_teacher_id g).
Definition set_palette v g :=
  mk_gui (core g) v (timetable_seq g) (db_teachers g) (selected_teacher_id g).
Definition set_timetable_seq v g :=
  mk_gui (core g) (palette g) v (db_teachers g) (selected_teacher_id g).
Definition set_db_teachers v g :=
  mk_gui (core g) (palette g) (timetable_seq g) v (selected_teacher_id g).
Definition set_selected_teacher_id v g :=
  mk_gui (core g) (palette g) (timetable_seq g) (db_teachers g) v.

(** How a callback ends: with a message box, with nothing, or with an
    exception that leaves it (sqlite3.IntegrityError). *)
Inductive outcome :=
  | shown (m : messagebox)
  | silent
  | raised.

(** The slot a row fills: teacher, day and period. *)
Definition slot (r : row) : Z * string * Z :=
  (row_teacher_id r, row_day_of_week r, row_period_number r).

(** [CASE day_of_week WHEN 'Monday' THEN 1 ... WHEN 'Saturday' THEN 6
    END]; any other day gives NULL, which sorts first (0 here). *)
Definition day_rank (day : string) : Z :=
  if bool_decide (day = "Monday") then 1
  else if bool_decide (day = "Tuesday") then 2
  else if bool_decide (day = "Wednesday") then 3
  else if bool_decide (day = "Thursday") then 4
  else if bool_decide (day = "Friday") then 5
  else if bool_decide (day = "Saturday") then 6
  else 0.

(** [ORDER BY CASE ... END, period_number] *)
Definition entries_le (x y : row) : Prop :=
  day_rank (row_day_of_week x) < day_rank (row_day_of_week y) \/
  (day_rank (row_day_of_week x) = day_rank (row_day_of_week y) /\
   row_period_number x <= row_period_number y).

Global Instance entries_le_dec x y : Decision (entries_le x y).
Proof. unfold entries_le. apply _. Defined.

(** The SELECT of [load_timetable_for_teacher]. *)
Definition teacher_entries (rows : list row) (teacher_id : Z) : list row :=
  merge_sort entries_le
    (filter (fun r => row_teacher_id r = teacher_id) rows).

(** The id SQLite gives to a new row of an AUTOINCREMENT table: one more
    than the largest id the table has ever held. *)
Definition next_rowid (rows : list row) (seq : Z) : Z :=
  Z.max seq (foldr Z.max 0 (row_id <$> rows)) + 1.

(** [INSERT INTO timetable (teacher_id, day_of_week, period_number,
    class_name, subject) VALUES (?, ?, ?, ?, ?)] *)
Definition insert_row (teacher_id : Z) (day : string) (period : Z)
    (cls subj : string) (g : gui) : gui :=
  let rows := db_timetable (core g) in
  let i := next_rowid rows (timetable_seq g) in
  set_timetable_seq i
    (set_core (set_db_timetable
                 (rows ++ [mk_row i teacher_id day period cls subj]) (core g)) g).

Section with_str.

(** [str.strip], [str.lower], [str.upper] and [int] (None: ValueError)
    are the Python library's. *)
Variable strip : string -> string.
Variable lower : string -> string.
Variable upper : string -> string.
Variable int_of_str : string -> option Z.

(** One turn of the populate loop of [load_timetable_for_teacher]: a row
    whose (day, period) is a cell of the grid paints the cell with the
    colour of its subject; the cell text and the attached entry id are
    outside the colour model. *)
Definition populate_cell (default_btn_bg : string)
    (acc : gmap (string * Z) button * colors) (r : row)
  : gmap (string * Z) button * colors :=
  let key := (row_day_of_week r, row_period_number r) in
  match acc.1 !! key with
  | Some _ =>
      let '(color, st) :=
        get_subject_color strip lower default_btn_bg (row_subject r) acc.2 in
      (alter (config_bg color) key acc.1, st)
  | None => acc
  end.

(** [load_timetable_for_teacher]: clear the grid, populate it, then
    refresh the highlight. *)
Definition load_timetable_for_teacher (clk : clock) (g : gui) : gui :=
  match current_teacher_id (core g) with
  | None => g
  | Some teacher_id =>
      let a := core g in
      let entries := teacher_entries (db_timetable a) teacher_id in
      let cleared := config_bg (default_btn_bg a) <$> grid_buttons a in
      let '(grid, st) :=
        fold_left (populate_cell (default_btn_bg a)) entries (cleared, palette g) in
      set_palette st (set_core (update_highlight clk (set_grid_buttons grid a)) g)
  end.

(** [save] of [add_period_dialog], on the texts of the four widgets. *)
Definition add_period_save (day_raw period_raw class_raw subject_raw : string)
    (clk : clock) (g : gui) : gui * outcome :=
  let day := strip day_raw in
  let period_str := strip period_raw in
  let class_name := strip class_raw in
  let subj := strip subject_raw in
  if bool_decide (day = "") || bool_decide (period_str = "")
     || bool_decide (class_name = "")
     || (negb (bool_decide (upper (strip class_name) = "FREE"))
         && bool_decide (subj = ""))
  then (g, shown (showerror "Validation Error" "All fields are required!"))
  else
    match int_of_str period_str with
    | None =>
        (g, shown (showerror "Validation Error" "Period number must be an integer!"))
    | Some period =>
        match current_teacher_id (core g) with
        | None => (g, raised)
        | Some teacher_id =>
            match fetchone (db_timetable (core g)) teacher_id day period with
            | Some _ =>
                (g, shown (showerror "Validation Error"
                     "A period already exists for this day and period! Use Edit instead."))
            | None =>
                let subj :=
                  if bool_decide (upper (strip class_name) = "FREE") then ""
                  else subj in
                let g := insert_row teacher_id day period class_name subj g in
                (load_timetable_for_teacher clk g,
                 shown (showinfo "Success" "Period added successfully!"))
            end
        end
    end.

(** [delete_period]; [answer] is what the user answers to the
    confirmation. *)
Definition delete_period (day : option string) (period : option Z)
    (period_id : option Z) (answer : bool) (clk : clock) (g : gui)
  : gui * outcome :=
  match current_teacher_id (core g) with
  | None => (g, shown (showerror "Error" "Please select a teacher first!"))
  | Some teacher_id =>
      let resolved : messagebox + Z :=
        match period_id with
        | Some i => inr i
        | None =>
            match day, period with
            | Some d, Some p =>
                match fetchone (db_timetable (core g)) teacher_id d p with
                | Some r => inr (row_id r)
                | None =>
                    inl (showerror "Error" "No period exists for that day and period.")
                end
            | _, _ =>
                inl (showerror "Error"
                       "Please click a timetable cell to delete, or pass a day/period.")
            end
        end in
      match resolved with
      | inl err => (g, shown err)
      | inr i =>
          if answer then
            let rows := filter (fun r => row_id r <> i) (db_timetable (core g)) in
            (load_timetable_for_teacher clk
               (set_core (set_db_timetable rows (core g)) g),
             shown (showinfo "Success" "Period deleted successfully!"))
          else (g, silent)
      end
  end.

(** [delete_teacher]; the teachers list and the detail labels are display
    only. *)
Definition delete_teacher (answer : bool) (g : gui) : gui * outcome :=
  match current_teacher_id (core g) with
  | None => (g, shown (showerror "Error" "Please select a teacher to delete!"))
  | Some teacher_id =>
      if answer then
        let a := core g in
        let a := set_db_timetable
                   (filter (fun r => row_teacher_id r <> teacher_id) (db_timetable a)) a in
        let a := set_current_teacher_id None a in
        let a := stop_auto_update_status a in
        let a := stop_auto_update_highlight a in
        let a := set_grid_buttons (config_bg (default_btn_bg a) <$> grid_buttons a) a in
        (set_db_teachers (filter (fun t => t_id t <> teacher_id) (db_teachers g))
           (set_core a g),
         shown (showinfo "Success" "Teacher deleted successfully!"))
      else (g, silent)
  end.

(** [load_teacher_details]: the labels are display only; the status area
    is refreshed when the teacher is found. *)
Definition load_teacher_details (clk : clock) (g : gui) : gui :=
  match current_teacher_id (core g) with
  | None => g
  | Some teacher_id =>
      match filter (fun t => t_id t = teacher_id) (db_teachers g) with
      | _ :: _ => set_core (update_current_status clk (core g)) g
      | [] => g
      end
  end.

(** [on_teacher_selected]; [selection] is what the tree reports. *)
Definition on_teacher_selected (selection : list Z) (clk : clock) (g : gui) : gui :=
  match selection with
  | teacher_id :: _ =>
      let g := set_core (set_current_teacher_id (Some teacher_id) (core g)) g in
      let g := set_selected_teacher_id (Some teacher_id) g in
      let g := load_teacher_details clk g in
      let g := load_timetable_for_teacher clk g in
      let g := set_core (start_auto_update_highlight clk (core g)) g in
      set_core (start_auto_update_status clk (core g)) g
  | [] =>
      set_selected_teacher_id None
        (set_core (set_current_teacher_id None (core g)) g)
  end.

End with_str.

(** No two rows fill the same slot. *)
Definition unique_slots (rows : list row) : Prop := NoDup (slot <$> rows).

(** Python's [int] on a non-empty run of ASCII decimal digits. *)
Fixpoint digits_value (acc : Z) (s : string) : option Z :=
  match s with
  | EmptyString => Some acc
  | String c rest =>
      match digit c with
      | Some d => digits_value (10 * acc + d) rest
      | None => None
      end
  end.

Definition int_ascii (s : string) : option Z :=
  match s with
  | EmptyString => None
  | _ => digits_value 0 s
  end.

End Gui.

Export Gui.

(** ** Editing a period and importing a timetable *)

Module Editing.

(** [UPDATE timetable SET day_of_week = ?, period_number = ?,
    class_name = ?, subject = ? WHERE id = ?] on one row. *)
Definition update_row (period_id : Z) (day : string) (period : Z)
    (cls subj : string) (r : row) : row :=
  if bool_decide (row_id r = period_id)
  then mk_row (row_id r) (row_teacher_id r) day period cls subj
  else r.

(** [UPDATE timetable SET class_name = ?, subject = ? WHERE teacher_id = ?
    AND day_of_week = ? AND period_number = ?] on one row. *)
Definition set_class (teacher_id : Z) (day : string) (period : Z)
    (cls subj : string) (r : row) : row :=
  if matches teacher_id day period r
  then mk_row (row_id r) (row_teacher_id r) (row_day_of_week r)
         (row_period_number r) cls subj
  else r.

(** A record of the data frame: the text of each column.  The file is
    read with dtype=str; a column without a key is a NaN cell. *)
Definition record := gmap string string.

Record sheet := mk_sheet {
  columns : list string;
  records : list record
}.

(** What the file dialog and pandas give: no file chosen, a file that
    cannot be read (with the text of the exception), or a data frame. *)
Inductive picked :=
  | cancelled
  | unreadable (e : string)
  | frame (sh : sheet).

(** The counters of the import loop. *)
Record tally := mk_tally {
  inserted : nat;
  updated : nat;
  skipped : nat
}.

(** The tables the import loop writes to: the rows of [timetable] and its
    AUTOINCREMENT counter. *)
Record table := mk_table {
  tb_rows : list row;
  tb_seq : Z
}.

Section with_str.

Variable strip : string -> string.
Variable lower : string -> string.
Variable upper : string -> string.
Variable int_of_str : string -> option Z.

(** [int(float(s))]; None when either raises. *)
Variable int_of_float_str : string -> option Z.

(** [update] of [edit_period_dialog], on the texts of the four widgets;
    [period_id] is the id the dialog was opened for. *)
Definition edit_period_update (period_id : Z)
    (day_raw period_raw class_raw subject_raw : string)
    (clk : clock) (g : gui) : gui * outcome :=
  let new_day := strip day_raw in
  let new_period_str := strip period_raw in
  let new_class := strip class_raw in
  let new_subject := strip subject_raw in
  if bool_decide (new_day = "") || bool_decide (new_period_str = "")
     || bool_decide (new_class = "")
     || (negb (bool_decide (upper (strip new_class) = "FREE"))
         && bool_decide (new_subject = ""))
  then (g, shown (showerror "Validation Error" "All fields are required!"))
  else
    match int_of_str new_period_str with
    | None =>
        (g, shown (showerror "Validation Error" "Period number must be an integer!"))
    | Some new_period =>
        let new_subject :=
          if bool_decide (upper (strip new_class) = "FREE") then ""
          else new_subject in
        let rows :=
          update_row period_id new_day new_period new_class new_subject
            <$> db_timetable (core g) in
        (load_timetable_for_teacher strip lower clk
           (set_core (set_db_timetable rows (core g)) g),
         shown (showinfo "Success" "Period updated successfully!"))
    end.

(** [row.get(col)] when the loop wants a text: None for a NaN cell and for
    a cell that is blank once stripped, else the stripped text. *)
Definition cell (col : string) (rec : record) : option string :=
  match rec !! col with
  | Some s => if bool_decide (strip s = "") then None else Some (strip s)
  | None => None
  end.

(** The period of a record: NaN raises, as does a text that is no
    number. *)
Definition period_of (col : string) (rec : record) : option Z :=
  match rec !! col with
  | Some s => int_of_float_str (strip s)
  | None => None
  end.

(** One turn of the import loop. *)
Definition import_record (day_col period_col class_col : string)
    (subject_col : option string) (teacher_id : Z)
    (acc : table * tally) (rec : record) : table * tally :=
  let '(tb, t) := acc in
  match cell day_col rec with
  | None => (tb, mk_tally (inserted t) (updated t) (S (skipped t)))
  | Some day_val =>
      match period_of period_col rec with
      | None => (tb, mk_tally (inserted t) (updated t) (S (skipped t)))
      | Some period_num =>
          let class_name := default "" (cell class_col rec) in
          let subj :=
            match subject_col with
            | Some c =>
                if bool_decide (c = "") then "" else default "" (cell c rec)
            | None => ""
            end in
          let rowcount :=
            length (filter (fun r => matches teacher_id day_val period_num r = true)
                      (tb_rows tb)) in
          let rows :=
            set_class teacher_id day_val period_num class_name subj <$> tb_rows tb in
          if bool_decide (rowcount = 0%nat) then
            let i := next_rowid rows (tb_seq tb) in
            (mk_table
               (rows ++ [mk_row i teacher_id day_val period_num class_name subj]) i,
             mk_tally (S (inserted t)) (updated t) (skipped t))
          else
            (mk_table rows (tb_seq tb),
             mk_tally (inserted t) (S (updated t)) (skipped t))
      end
  end.

(** The import loop over the records of the data frame. *)
Definition import_rows (day_col period_col class_col : string)
    (subject_col : option string) (teacher_id : Z)
    (recs : list record) (tb : table) : table * tally :=
  fold_left (import_record day_col period_col class_col subject_col teacher_id)
    recs (tb, mk_tally 0 0 0).

(** [import_timetable_from_excel].  Nothing in the loop can raise on a
    data frame of texts, so the rollback branch is not reached. *)
Definition import_timetable_from_excel (file : picked) (clk : clock) (g : gui)
  : gui * outcome :=
  match selected_teacher_id g with
  | None => (g, shown (showerror "Import Error" "Please select a teacher first."))
  | Some teacher_id =>
      if bool_decide (teacher_id = 0)
      then (g, shown (showerror "Import Error" "Please select a teacher first."))
      else
        match file with
        | cancelled => (g, silent)
        | unreadable e =>
            (g, shown (showerror "Import Error"
                         ("Failed to read file:" +:+ String "010"%char e)))
        | frame sh =>
            let cols := columns sh in
            let day_col :=
              find_col strip lower cols [ "day"; "day of week"; "day_of_week" ] in
            let period_col :=
              find_col strip lower cols [ "period"; "period number"; "period_number" ] in
            let class_col :=
              find_col strip lower cols [ "class"; "class name"; "class_name" ] in
            let subject_col := find_col strip lower cols [ "subject"; "subjects" ] in
            match day_col, period_col, class_col with
            | Some day_col, Some period_col, Some class_col =>
                let '(tb, t) :=
                  import_rows day_col period_col class_col subject_col teacher_id
                    (records sh)
                    (mk_table (db_timetable (core g)) (timetable_seq g)) in
                let g :=
                  set_timetable_seq (tb_seq tb)
                    (set_core (set_db_timetable (tb_rows tb) (core g)) g) in
                (load_timetable_for_teacher strip lower clk g,
                 shown (showinfo "Import Complete"
                          ("Imported " +:+ pretty (inserted t)
                           +:+ " timetable rows for this teacher.")))
            | _, _, _ =>
                (g, shown (showerror "Import Error"
                     "Required columns missing. File must include Day, Period and Class columns."))
            end
        end
  end.

End with_str.

End Editing.

Export Editing.

(** * Properties *)

(** ** Times *)

Module TimeOfDayFacts.

Lemma time_compare_us a b :
  wf_time a -> wf_time b -> time_compare a b = (time_us a ?= time_us b).
Proof.
  unfold wf_time, time_compare, time_us. intros Ha Hb.
  destruct (Z.compare_spec (hour a) (hour b)) as [Hh|Hh|Hh];
    [destruct (Z.compare_spec (minute a) (minute b)) as [Hm|Hm|Hm];
      [destruct (Z.compare_spec (second a) (second b)) as [Hs|Hs|Hs];
        [destruct (Z.compare_spec (microsecond a) (microsecond b))|..]|..]|..];
    symmetry;
    first [ apply Z.compare_eq_iff; lia
          | apply Z.compare_lt_iff; lia
          | apply Z.compare_gt_iff; lia ].
Qed.

Lemma time_ltb_lt a b : time_ltb a b = true <-> time_us a < time_us b.
Proof. unfold time_ltb. apply Z.ltb_lt. Qed.

Lemma time_leb_le a b : time_leb a b = true <-> time_us a <= time_us b.
Proof. unfold time_leb. apply Z.leb_le. Qed.

Lemma time_ltb_ge a b : time_ltb a b = false <-> time_us b <= time_us a.
Proof. unfold time_ltb. apply Z.ltb_ge. Qed.

Lemma time_leb_gt a b : time_leb a b = false <-> time_us b < time_us a.
Proof. unfold time_leb. apply Z.leb_gt. Qed.

(** [minutes_until] is the floor of the remaining seconds over 60, and is
    never negative. *)
Lemma minutes_until_floor end_ now :
  time_us now <= time_us end_ ->
  0 <= minutes_until end_ now /\
  60000000 * minutes_until end_ now <= time_us end_ - time_us now
    < 60000000 * (minutes_until end_ now + 1).
Proof.
  intros Hle. unfold minutes_until.
  assert (0 <= (time_us end_ - time_us now) / 60000000) by (apply Z.div_pos; lia).
  rewrite Z.max_r by lia.
  pose proof (Z.mul_div_le (time_us end_ - time_us now) 60000000 ltac:(lia)).
  pose proof (Z.mul_succ_div_gt (time_us end_ - time_us now) 60000000 ltac:(lia)).
  lia.
Qed.

Lemma minutes_until_nonneg end_ now : 0 <= minutes_until end_ now.
Proof. unfold minutes_until. lia. Qed.

End TimeOfDayFacts.

Export TimeOfDayFacts.

(** ** The period table in number order *)

Module SortedFacts.

Global Instance items_le_trans : Transitive items_le.
Proof. unfold items_le. intros x y z. lia. Qed.

Global Instance items_le_total : Total items_le.
Proof. unfold items_le. intros x y. lia. Qed.

Lemma periods_sorted_perm (pt : gmap Z window) :
  periods_sorted pt ≡ₚ map_to_list pt.
Proof. apply merge_sort_Permutation. Qed.

Lemma elem_of_periods_sorted (pt : gmap Z window) p w :
  (p, w) ∈ periods_sorted pt <-> pt !! p = Some w.
Proof. rewrite periods_sorted_perm. apply elem_of_map_to_list. Qed.

Lemma periods_sorted_nil (pt : gmap Z window) :
  periods_sorted pt = [] <-> pt = ∅.
Proof.
  rewrite <- map_to_list_empty_iff. split; intros H.
  - apply Permutation_nil_r. rewrite <- H. symmetry. apply periods_sorted_perm.
  - apply Permutation_nil_r. rewrite <- H. apply periods_sorted_perm.
Qed.

Lemma le_NoDup_strict (l : list (Z * window)) :
  StronglySorted items_le l -> NoDup (l.*1) -> StronglySorted key_lt l.
Proof.
  induction 1 as [|x l Hl IH Hx]; intros Hnd; [constructor|].
  rewrite fmap_cons in Hnd. apply NoDup_cons in Hnd as [Hnotin Hnd].
  constructor; [auto|].
  rewrite Forall_forall in Hx |- *. intros y Hy.
  specialize (Hx y Hy). unfold items_le in Hx. unfold key_lt.
  assert (x.1 <> y.1).
  { intros Heq. apply Hnotin. rewrite Heq. apply list_elem_of_fmap. eauto. }
  lia.
Qed.

Lemma periods_sorted_strict (pt : gmap Z window) :
  StronglySorted key_lt (periods_sorted pt).
Proof.
  apply le_NoDup_strict.
  - apply StronglySorted_merge_sort; apply _.
  - rewrite periods_sorted_perm. apply NoDup_fst_map_to_list.
Qed.

Lemma strict_head_min x (l : list (Z * window)) y :
  StronglySorted key_lt (x :: l) -> y ∈ x :: l -> x.1 <= y.1.
Proof.
  intros Hs Hy. apply StronglySorted_inv in Hs as [_ Hx].
  apply elem_of_cons in Hy as [->|Hy]; [lia|].
  rewrite Forall_forall in Hx. specialize (Hx y Hy). unfold key_lt in Hx. lia.
Qed.

Lemma strict_last_max (l : list (Z * window)) z y :
  StronglySorted key_lt l -> last l = Some z -> y ∈ l -> y.1 <= z.1.
Proof.
  intros Hs Hz Hy. apply last_Some in Hz as [l' ->].
  apply elem_of_app in Hy as [Hy|Hy].
  - pose proof (StronglySorted_app_1_elem_of _ _ _ _ _ Hs Hy
                  ltac:(apply list_elem_of_singleton; reflexivity)) as Hlt.
    unfold key_lt in Hlt. lia.
  - apply list_elem_of_singleton in Hy as ->. lia.
Qed.

(** A non-empty table, sorted: its first item is the lowest-numbered
    period, its last item the highest-numbered one. *)
Lemma periods_sorted_ends (pt : gmap Z window) :
  pt <> ∅ ->
  exists p0 s0 e0 l pl sl el,
    periods_sorted pt = (p0, (s0, e0)) :: l /\
    last (periods_sorted pt) = Some (pl, (sl, el)) /\
    pt !! p0 = Some (s0, e0) /\ pt !! pl = Some (sl, el) /\
    forall q w, pt !! q = Some w -> p0 <= q <= pl.
Proof.
  intros Hne. pose proof (periods_sorted_strict pt) as Hs.
  destruct (periods_sorted pt) as [|[p0 [s0 e0]] l] eqn:Hps.
  { apply periods_sorted_nil in Hps. contradiction. }
  destruct (last ((p0, (s0, e0)) :: l)) as [[pl [sl el]]|] eqn:Hlast.
  2:{ apply last_None in Hlast. discriminate. }
  exists p0, s0, e0, l, pl, sl, el. split; [reflexivity|]. split; [reflexivity|].
  split; [|split].
  - apply elem_of_periods_sorted. rewrite Hps. left.
  - apply elem_of_periods_sorted. rewrite Hps. eapply last_Some_elem_of; eauto.
  - intros q w Hq. apply elem_of_periods_sorted in Hq. rewrite Hps in Hq.
    pose proof (strict_head_min _ _ _ Hs Hq).
    pose proof (strict_last_max _ _ _ Hs Hlast Hq). simpl in *. lia.
Qed.

End SortedFacts.

(** ** The phase computation *)

Module EngineFacts.

Import SortedFacts.

(** Decide a closed decidable proposition by evaluation. *)
Ltac by_decide := apply (bool_decide_unpack _); vm_compute; exact I.

Lemma valid_windows_lookup pt p s e :
  valid_windows pt -> pt !! p = Some (s, e) -> time_us s < time_us e.
Proof. intros Hv Hp. exact (Hv p (s, e) Hp). Qed.

Lemma ascending_lookup pt p q wp wq :
  ascending pt -> pt !! p = Some wp -> pt !! q = Some wq -> p < q ->
  time_us wp.2 <= time_us wq.1.
Proof. intros Ha Hp Hq Hlt. exact (Ha p wp Hp q wq Hq Hlt). Qed.

Lemma get_current_period_eq pt now p0 s0 e0 l pl sl el :
  periods_sorted pt = (p0, (s0, e0)) :: l ->
  last (periods_sorted pt) = Some (pl, (sl, el)) ->
  get_current_period pt now =
    if time_ltb now s0 then (before, Some 1, None)
    else if time_leb el now then (after, None, None)
    else match scan_during now (periods_sorted pt) with
         | Some (pnum, minutes) => (during, Some pnum, Some minutes)
         | None =>
             match scan_between now (periods_sorted pt) with
             | Some pnum => (between, Some pnum, None)
             | None => (after, None, None)
             end
         end.
Proof.
  intros Hps Hlast. unfold get_current_period. cbv zeta.
  rewrite Hps in Hlast |- *. rewrite Hlast. reflexivity.
Qed.

Lemma in_window_test now s e :
  time_leb s now && time_ltb now e = true <-> in_window now (s, e).
Proof.
  unfold in_window. simpl.
  rewrite andb_true_iff, time_leb_le, time_ltb_lt. reflexivity.
Qed.

(** The first loop stops at the lowest-numbered window holding [now]. *)
Lemma scan_during_first l now p s e :
  StronglySorted key_lt l ->
  (p, (s, e)) ∈ l -> in_window now (s, e) ->
  (forall q w, (q, w) ∈ l -> q < p -> ~ in_window now w) ->
  scan_during now l = Some (p, minutes_until e now).
Proof.
  induction l as [|[p0 [s0 e0]] l IH]; intros Hs Hin Hw Hlow.
  { apply elem_of_nil in Hin. contradiction. }
  simpl. apply elem_of_cons in Hin as [Heq|Hin].
  - inversion Heq; subst. apply in_window_test in Hw. rewrite Hw. reflexivity.
  - apply StronglySorted_inv in Hs as [Hs Hx].
    rewrite Forall_forall in Hx. pose proof (Hx _ Hin) as Hlt.
    unfold key_lt in Hlt. simpl in Hlt.
    destruct (time_leb s0 now && time_ltb now e0) eqn:Htest.
    + apply in_window_test in Htest.
      exfalso. apply (Hlow p0 (s0, e0)); [left|lia|assumption].
    + apply IH; auto. intros q w Hq. apply Hlow. right. exact Hq.
Qed.

Lemma scan_during_Some l now p m :
  scan_during now l = Some (p, m) ->
  exists s e, (p, (s, e)) ∈ l /\ in_window now (s, e) /\ m = minutes_until e now.
Proof.
  induction l as [|[p0 [s0 e0]] l IH]; simpl; [discriminate|].
  destruct (time_leb s0 now && time_ltb now e0) eqn:Htest.
  - intros [= <- <-]. exists s0, e0. split; [left|].
    split; [apply in_window_test; exact Htest|reflexivity].
  - intros H. destruct (IH H) as (s & e & Hin & Hw & Hm).
    exists s, e. split; [right; exact Hin|auto].
Qed.

Lemma scan_during_None l now :
  scan_during now l = None -> forall p w, (p, w) ∈ l -> ~ in_window now w.
Proof.
  induction l as [|[p0 [s0 e0]] l IH]; simpl; intros H p w Hin.
  { apply elem_of_nil in Hin. contradiction. }
  destruct (time_leb s0 now && time_ltb now e0) eqn:Htest; [discriminate|].
  apply elem_of_cons in Hin as [Heq|Hin].
  - inversion Heq; subst. intros Hw. apply in_window_test in Hw. congruence.
  - eapply IH; eauto.
Qed.

(** The second loop stops at the lowest-numbered period that starts after
    [now]. *)
Lemma scan_between_Some l now p :
  scan_between now l = Some p ->
  exists l1 w l2, l = l1 ++ (p, w) :: l2 /\ time_us now < time_us w.1 /\
    forall q wq, (q, wq) ∈ l1 -> time_us wq.1 <= time_us now.
Proof.
  induction l as [|[p0 [s0 e0]] l IH]; simpl; [discriminate|].
  destruct (time_ltb now s0) eqn:Htest.
  - intros [= <-]. exists [], (s0, e0), l. split; [reflexivity|].
    split; [apply time_ltb_lt; exact Htest|].
    intros q wq Hq. apply elem_of_nil in Hq. contradiction.
  - intros H. destruct (IH H) as (l1 & w & l2 & -> & Hlt & Hbefore).
    exists ((p0, (s0, e0)) :: l1), w, l2. split; [reflexivity|]. split; [exact Hlt|].
    intros q wq Hq. apply elem_of_cons in Hq as [Heq|Hq]; [|eauto].
    inversion Heq; subst. simpl. apply time_ltb_ge. exact Htest.
Qed.

(** In a table whose windows ascend with their numbers, the window that
    holds [now] is flanked by the first start and the last end, and no
    lower-numbered window holds [now] too. *)
Lemma ascending_bounds pt now p s e p0 s0 e0 pl sl el :
  valid_windows pt -> ascending pt ->
  pt !! p = Some (s, e) -> in_window now (s, e) ->
  pt !! p0 = Some (s0, e0) -> pt !! pl = Some (sl, el) ->
  p0 <= p <= pl ->
  time_us s0 <= time_us now < time_us el /\
  forall q w, pt !! q = Some w -> q < p -> ~ in_window now w.
Proof.
  intros Hv Ha Hp [Hs He] Hp0 Hpl [Hlo Hhi]. simpl in Hs, He.
  repeat split.
  - destruct (decide (p0 = p)) as [->|Hne].
    + rewrite Hp in Hp0. inversion Hp0; subst. exact Hs.
    + pose proof (valid_windows_lookup _ _ _ _ Hv Hp0).
      pose proof (ascending_lookup _ _ _ _ _ Ha Hp0 Hp ltac:(lia)) as H1.
      simpl in H1. lia.
  - destruct (decide (pl = p)) as [->|Hne].
    + rewrite Hp in Hpl. inversion Hpl; subst. exact He.
    + pose proof (valid_windows_lookup _ _ _ _ Hv Hpl).
      pose proof (ascending_lookup _ _ _ _ _ Ha Hp Hpl ltac:(lia)) as H1.
      simpl in H1. lia.
  - intros q [sq eq] Hq Hlt [_ Hw]. simpl in Hw.
    pose proof (ascending_lookup _ _ _ _ _ Ha Hq Hp Hlt) as H1.
    simpl in H1. lia.
Qed.

(** The engine reports DURING [p] exactly under these three conditions on
    the table in number order. *)
Lemma get_current_period_during pt now p s e :
  pt !! p = Some (s, e) -> in_window now (s, e) ->
  (forall p0 s0 e0 pl sl el,
      pt !! p0 = Some (s0, e0) -> pt !! pl = Some (sl, el) ->
      (forall q w, pt !! q = Some w -> p0 <= q <= pl) ->
      time_us s0 <= time_us now < time_us el) ->
  (forall q w, pt !! q = Some w -> q < p -> ~ in_window now w) ->
  get_current_period pt now = (during, Some p, Some (minutes_until e now)).
Proof.
  intros Hp Hw Hends Hlow.
  assert (pt <> ∅) as Hne by (intros ->; rewrite lookup_empty in Hp; discriminate).
  destruct (periods_sorted_ends pt Hne)
    as (p0 & s0 & e0 & l & pl & sl & el & Hps & Hlast & Hp0 & Hpl & Hrange).
  rewrite (get_current_period_eq _ _ _ _ _ _ _ _ _ Hps Hlast).
  destruct (Hends _ _ _ _ _ _ Hp0 Hpl Hrange) as [Hfirst Hend].
  replace (time_ltb now s0) with false by (symmetry; apply time_ltb_ge; lia).
  replace (time_leb el now) with false by (symmetry; apply time_leb_gt; lia).
  rewrite (scan_during_first (periods_sorted pt) now p s e); [reflexivity|..].
  - apply periods_sorted_strict.
  - apply elem_of_periods_sorted. exact Hp.
  - exact Hw.
  - intros q w Hq. apply elem_of_periods_sorted in Hq. eauto.
Qed.

(** The shared core of C1 and C3. *)
Lemma ascending_table_during pt now p s e :
  valid_windows pt -> ascending pt ->
  pt !! p = Some (s, e) ->
  time_us s <= time_us now < time_us e ->
  get_current_period pt now = (during, Some p, Some (minutes_until e now)).
Proof.
  intros Hv Ha Hp Hw.
  apply (get_current_period_during pt now p s e Hp Hw).
  - intros p0 s0 e0 pl sl el Hp0 Hpl Hrange.
    eapply (ascending_bounds pt now p s e p0 s0 e0 pl sl el); eauto.
  - intros q w Hq Hlt.
    destruct (periods_sorted_ends pt) as (p0 & s0 & e0 & l & pl & sl & el & _ & _ & Hp0 & Hpl & Hrange).
    { intros ->. rewrite lookup_empty in Hp. discriminate. }
    eapply (ascending_bounds pt now p s e p0 s0 e0 pl sl el); eauto.
Qed.

(** C1 (as amended): in a period table whose windows ascend in time with
    their numbers without overlapping, whenever [now] lies inside the
    window [start, end) of period [p], the engine reports DURING with [p]
    active and minutes_remaining the floor of the seconds from [now] to
    [end] over 60, which is never negative. *)
Theorem during_window_of_ascending_table pt now p s e :
  valid_windows pt -> ascending pt ->
  pt !! p = Some (s, e) ->
  time_us s <= time_us now < time_us e ->
  get_current_period pt now = (during, Some p, Some (minutes_until e now)) /\
  0 <= minutes_until e now /\
  60000000 * minutes_until e now <= time_us e - time_us now
    < 60000000 * (minutes_until e now + 1).
Proof.
  intros Hv Ha Hp Hw. split; [|apply minutes_until_floor; lia].
  apply (ascending_table_during pt now p s e); assumption.
Qed.

(** Example 1 of the specification, on the default table: at 08:30:00 the
    engine reports DURING, period 1, 45 minutes remaining. *)
Lemma during_window_of_ascending_table_witness :
  get_current_period default_period_times (hm 8 30) = (during, Some 1, Some 45).
Proof.
  refine (proj1 (during_window_of_ascending_table default_period_times
                   (hm 8 30) 1 (hm 8 30) (hm 9 15) _ _ _ _)).
  - by_decide.
  - by_decide.
  - reflexivity.
  - unfold in_window, time_us; simpl; lia.
Defined.

(** C1 as stated fails on a table whose numbers do not follow the clock:
    08:30 lies inside the window of period 2, yet the phase is BEFORE,
    because the first start is taken from the lowest-numbered period. *)
Lemma out_of_order_table_reports_before :
  let pt : gmap Z window :=
    list_to_map [ (1, (hm 10 0, hm 11 0)); (2, (hm 8 0, hm 9 0)) ] in
  pt <> ∅ /\ valid_windows pt /\
  pt !! 2 = Some (hm 8 0, hm 9 0) /\
  in_window (hm 8 30) (hm 8 0, hm 9 0) /\
  get_current_period pt (hm 8 30) = (before, Some 1, None).
Proof.
  cbv zeta. split; [|split; [|split; [|split]]].
  - intros H. apply (f_equal (fun m => m !! 1)) in H. vm_compute in H. discriminate.
  - by_decide.
  - reflexivity.
  - unfold in_window, time_us; simpl; lia.
  - vm_compute. reflexivity.
Qed.

Lemma get_current_period_empty now :
  get_current_period ∅ now = (after, None, None).
Proof. reflexivity. Qed.

(** C10: on an empty period table the phase computation returns AFTER
    with no period number and no minutes remaining, whatever the time. *)
Theorem empty_table_is_after now :
  get_current_period ∅ now = (after, None, None) /\
  forall p m, get_current_period ∅ now <> (before, p, m) /\
              get_current_period ∅ now <> (during, p, m) /\
              get_current_period ∅ now <> (between, p, m).
Proof.
  split; [apply get_current_period_empty|].
  intros p m. rewrite get_current_period_empty. repeat split; discriminate.
Qed.

(** C2 (as amended): on a non-empty period table in which every window
    has its start before its end, a [now] strictly before every
    configured start gives phase BEFORE, and a [now] at or after every
    configured end, the latest end itself included, gives phase AFTER with
    no active entry and no next entry. *)
Theorem before_first_start_after_last_end pt timetable teacher_id now today :
  pt <> ∅ -> valid_windows pt ->
  ((forall p s e, pt !! p = Some (s, e) -> time_us now < time_us s) ->
     (get_current_period pt now).1.1 = before /\
     get_current_class pt timetable teacher_id now today = None) /\
  ((forall p s e, pt !! p = Some (s, e) -> time_us e <= time_us now) ->
     get_current_period pt now = (after, None, None) /\
     get_current_class pt timetable teacher_id now today = None /\
     get_next_class pt timetable teacher_id now today = None).
Proof.
  intros Hne Hv.
  destruct (periods_sorted_ends pt Hne)
    as (p0 & s0 & e0 & l & pl & sl & el & Hps & Hlast & Hp0 & Hpl & Hrange).
  pose proof (get_current_period_eq _ now _ _ _ _ _ _ _ Hps Hlast) as Heq.
  split.
  - intros Hbefore. pose proof (Hbefore _ _ _ Hp0) as H0.
    apply time_ltb_lt in H0. rewrite H0 in Heq.
    unfold get_current_class. rewrite Heq. split; reflexivity.
  - intros Hafter.
    pose proof (Hafter _ _ _ Hp0) as H0. pose proof (Hafter _ _ _ Hpl) as Hl.
    pose proof (valid_windows_lookup _ _ _ _ Hv Hp0) as Hv0.
    replace (time_ltb now s0) with false in Heq
      by (symmetry; apply time_ltb_ge; lia).
    apply time_leb_le in Hl. rewrite Hl in Heq.
    unfold get_current_class, get_next_class. rewrite Heq.
    repeat split; reflexivity.
Qed.

(** Examples 2 and 3 of the specification on the default table: at
    08:29:59 the phase is BEFORE, and at 14:30:00, the end of the last
    window, it is AFTER with no next entry. *)
Lemma before_first_start_after_last_end_witness :
  (get_current_period default_period_times (mk_time 8 29 59 0)).1.1 = before /\
  get_current_period default_period_times (hm 14 30) = (after, None, None) /\
  get_next_class default_period_times
    [ mk_row 1 1 "Monday" 8 "10A" "Maths" ] 1 (hm 14 30) "Monday" = None.
Proof.
  assert (default_period_times <> ∅) as Hne.
  { intros H. apply (f_equal (fun m => m !! 1)) in H. vm_compute in H. discriminate. }
  assert (valid_windows default_period_times) as Hv by by_decide.
  split.
  - refine (proj1 (proj1 (before_first_start_after_last_end default_period_times
                            [] 1 (mk_time 8 29 59 0) "Monday" Hne Hv) _)).
    intros p s e Hp.
    assert (map_Forall (fun _ (w : window) =>
                          time_us (mk_time 8 29 59 0) < time_us w.1)
              default_period_times) as Hall by by_decide.
    exact (Hall p (s, e) Hp).
  - assert (forall p s e, default_period_times !! p = Some (s, e) ->
                          time_us e <= time_us (hm 14 30)) as Hafter.
    { intros p s e Hp.
      assert (map_Forall (fun _ (w : window) => time_us w.2 <= time_us (hm 14 30))
                default_period_times) as Hall by by_decide.
      exact (Hall p (s, e) Hp). }
    pose proof (proj2 (before_first_start_after_last_end default_period_times
                         [ mk_row 1 1 "Monday" 8 "10A" "Maths" ] 1 (hm 14 30)
                         "Monday" Hne Hv) Hafter) as (H1 & _ & H3).
    split; [exact H1|exact H3].
Defined.

(** C2 as stated fails on the code.  The table holds the single window
    10:00-09:00 for period 1, whose end is before its start.  At 09:30
    the clock is at or after the latest configured end, and the phase is
    BEFORE, not AFTER: the test against the first start comes first. *)
Lemma inverted_window_reports_before_after_its_end :
  let pt : gmap Z window := {[ 1 := (hm 10 0, hm 9 0) ]} in
  pt !! 1 = Some (hm 10 0, hm 9 0) /\
  time_us (hm 9 0) <= time_us (hm 9 30) /\
  get_current_period pt (hm 9 30) = (before, Some 1, None).
Proof. cbv zeta. repeat split; vm_compute; congruence. Qed.

(** C3 (as amended): in a period table whose windows ascend in time with
    their numbers without overlapping, a [now] equal to the start of the
    window of period [q] is DURING period [q]; a window that ends at that
    instant is another period's, and it is not the one reported. *)
Theorem start_instant_belongs_to_its_window pt now q s e :
  valid_windows pt -> ascending pt ->
  pt !! q = Some (s, e) -> time_us now = time_us s ->
  get_current_period pt now = (during, Some q, Some (minutes_until e now)) /\
  forall p sp ep, pt !! p = Some (sp, ep) -> time_us ep = time_us now ->
    p <> q /\ (get_current_period pt now).1.2 <> Some p.
Proof.
  intros Hv Ha Hq Hnow.
  pose proof (valid_windows_lookup _ _ _ _ Hv Hq) as Hse.
  pose proof (ascending_table_during pt now q s e Hv Ha Hq
                ltac:(lia)) as Hduring.
  split; [exact Hduring|].
  intros p sp ep Hp Hep.
  assert (p <> q) as Hne.
  { intros ->. rewrite Hq in Hp. inversion Hp; subst. lia. }
  split; [exact Hne|]. rewrite Hduring. simpl. congruence.
Qed.

(** Windows 2 and 3 of the default table meet at 10:00:00, and that
    instant is DURING period 3. *)
Lemma start_instant_belongs_to_its_window_witness :
  get_current_period default_period_times (hm 10 0) = (during, Some 3, Some 45).
Proof.
  refine (proj1 (start_instant_belongs_to_its_window default_period_times
                   (hm 10 0) 3 (hm 10 0) (hm 10 45) _ _ _ _)).
  - by_decide.
  - by_decide.
  - reflexivity.
  - reflexivity.
Defined.

(** C3 as stated fails on a table whose numbers do not follow the clock:
    window 2 ends where window 3 starts, at 09:15, yet at 09:15:00 the
    phase is BEFORE, because period 1 starts at 10:00. *)
Lemma out_of_order_table_misses_start_instant :
  let pt : gmap Z window :=
    list_to_map [ (1, (hm 10 0, hm 10 45)); (2, (hm 8 30, hm 9 15));
                  (3, (hm 9 15, hm 10 0)) ] in
  valid_windows pt /\
  pt !! 2 = Some (hm 8 30, hm 9 15) /\ pt !! 3 = Some (hm 9 15, hm 10 0) /\
  get_current_period pt (hm 9 15) = (before, Some 1, None).
Proof.
  cbv zeta. split; [|split; [|split]].
  - by_decide.
  - reflexivity.
  - reflexivity.
  - vm_compute. reflexivity.
Qed.

(** What each result of [get_current_period] says about the table. *)
Lemma get_current_period_inv pt now st cur m :
  get_current_period pt now = (st, cur, m) ->
  match st with
  | before => cur = Some 1 /\ m = None
  | after => cur = None /\ m = None
  | during =>
      exists p s e, cur = Some p /\ pt !! p = Some (s, e) /\
        in_window now (s, e) /\ m = Some (minutes_until e now)
  | between =>
      exists p w, cur = Some p /\ pt !! p = Some w /\
        time_us now < time_us w.1 /\ m = None /\
        forall q wq, pt !! q = Some wq -> ~ in_window now wq
  end.
Proof.
  destruct (decide (pt = ∅)) as [->|Hne].
  { rewrite get_current_period_empty. intros [= <- <- <-]. split; reflexivity. }
  destruct (periods_sorted_ends pt Hne)
    as (p0 & s0 & e0 & l & pl & sl & el & Hps & Hlast & Hp0 & Hpl & Hrange).
  rewrite (get_current_period_eq _ now _ _ _ _ _ _ _ Hps Hlast).
  destruct (time_ltb now s0); [intros [= <- <- <-]; split; reflexivity|].
  destruct (time_leb el now); [intros [= <- <- <-]; split; reflexivity|].
  destruct (scan_during now (periods_sorted pt)) as [[p mm]|] eqn:Hscan.
  { intros [= <- <- <-]. apply scan_during_Some in Hscan as (s & e & Hin & Hw & ->).
    exists p, s, e. apply elem_of_periods_sorted in Hin. auto. }
  destruct (scan_between now (periods_sorted pt)) as [p|] eqn:Hbetween;
    [|intros [= <- <- <-]; split; reflexivity].
  intros [= <- <- <-].
  apply scan_between_Some in Hbetween as (l1 & w & l2 & Hl & Hlt & _).
  exists p, w. split; [reflexivity|]. split.
  { apply elem_of_periods_sorted. rewrite Hl. apply elem_of_app. right. left. }
  split; [exact Hlt|]. split; [reflexivity|].
  intros q wq Hq. apply (scan_during_None _ _ Hscan q).
  apply elem_of_periods_sorted. exact Hq.
Qed.

(** *** The two timetable readers *)

Lemma matches_true teacher_id today p r :
  matches teacher_id today p r = true <->
  row_teacher_id r = teacher_id /\ row_day_of_week r = today /\
  row_period_number r = p.
Proof.
  unfold matches. rewrite !andb_true_iff, !bool_decide_eq_true. tauto.
Qed.

Lemma fetchone_Some timetable teacher_id today p r :
  fetchone timetable teacher_id today p = Some r ->
  r ∈ timetable /\ row_teacher_id r = teacher_id /\
  row_day_of_week r = today /\ row_period_number r = p.
Proof.
  unfold fetchone. intros H. apply head_Some_elem_of in H.
  apply list_elem_of_filter in H as [Hm Hin]. apply matches_true in Hm. tauto.
Qed.

Lemma fetchone_None timetable teacher_id today p :
  fetchone timetable teacher_id today p = None <->
  forall r, r ∈ timetable -> matches teacher_id today p r = false.
Proof.
  unfold fetchone. rewrite head_None. split.
  - intros Hnil r Hin. destruct (matches teacher_id today p r) eqn:Hm; [|reflexivity].
    assert (r ∈ filter (fun r => matches teacher_id today p r = true) timetable) as Hf
      by (apply list_elem_of_filter; auto).
    rewrite Hnil in Hf. apply elem_of_nil in Hf. contradiction.
  - intros Hall. induction timetable as [|r0 rows IH]; [reflexivity|].
    rewrite filter_cons. rewrite (Hall r0) by left.
    destruct (decide (false = true)); [discriminate|].
    apply IH. intros r Hin. apply Hall. right. exact Hin.
Qed.

Lemma scan_entries_Some timetable teacher_id today ps e :
  scan_entries timetable teacher_id today ps = Some e ->
  exists ps1 q ps2 r, ps = ps1 ++ q :: ps2 /\
    fetchone timetable teacher_id today q = Some r /\ e = entry_of_row r /\
    forall q', q' ∈ ps1 -> fetchone timetable teacher_id today q' = None.
Proof.
  induction ps as [|p ps IH]; simpl; [discriminate|].
  destruct (fetchone timetable teacher_id today p) as [r|] eqn:Hf.
  - intros [= <-]. exists [], p, ps, r. repeat split; auto.
    intros q' Hq'. apply elem_of_nil in Hq'. contradiction.
  - intros H. destruct (IH H) as (ps1 & q & ps2 & r & -> & Hq & He & Hnone).
    exists (p :: ps1), q, ps2, r. repeat split; auto.
    intros q' Hq'. apply elem_of_cons in Hq' as [->|Hq']; auto.
Qed.

Lemma scan_entries_None timetable teacher_id today ps :
  scan_entries timetable teacher_id today ps = None ->
  forall q, q ∈ ps -> fetchone timetable teacher_id today q = None.
Proof.
  induction ps as [|p ps IH]; simpl; intros H q Hq.
  { apply elem_of_nil in Hq. contradiction. }
  destruct (fetchone timetable teacher_id today p) eqn:Hf; [discriminate|].
  apply elem_of_cons in Hq as [->|Hq]; auto.
Qed.

(** [sorted(self.periods)] is [self.periods]; the slice after the first
    position of a configured period [p] holds the numbers above [p]. *)
Lemma ordered_periods_eq : merge_sort Z.le periods = periods.
Proof. reflexivity. Qed.

Lemma drop_start_index st p :
  st = during \/ st = between -> p ∈ periods ->
  drop (start_index st (Some p) periods) periods = filter (fun q => p < q) periods.
Proof.
  intros Hst Hp. unfold periods in Hp.
  repeat (apply elem_of_cons in Hp as [->|Hp];
          [destruct Hst as [->| ->]; reflexivity|]).
  apply elem_of_nil in Hp. contradiction.
Qed.

Lemma get_next_class_scanned pt timetable teacher_id now today st cur m :
  (forall p w, pt !! p = Some w -> p ∈ periods) ->
  get_current_period pt now = (st, cur, m) ->
  get_next_class pt timetable teacher_id now today =
    scan_entries timetable teacher_id today (scanned st cur).
Proof.
  intros Hdom Hcp. unfold get_next_class. rewrite Hcp, ordered_periods_eq.
  f_equal. pose proof (get_current_period_inv _ _ _ _ _ Hcp) as Hinv.
  destruct st; simpl in Hinv.
  - reflexivity.
  - destruct Hinv as (p & s & e & -> & Hp & _).
    apply drop_start_index; eauto.
  - destruct Hinv as (p & w & -> & Hp & _).
    apply drop_start_index; eauto.
  - destruct Hinv as [-> _]. reflexivity.
Qed.

Lemma StronglySorted_filter_lt (P : Z -> Prop) `{!forall x, Decision (P x)} l :
  StronglySorted Z.lt l -> StronglySorted Z.lt (filter P l).
Proof.
  induction 1 as [|x l Hl IH Hx]; [constructor|].
  rewrite filter_cons. destruct (decide (P x)); [|exact IH].
  constructor; [exact IH|].
  rewrite Forall_forall in Hx |- *. intros y Hy.
  apply list_elem_of_filter in Hy as [_ Hy]. auto.
Qed.

Lemma get_next_class_today pt timetable teacher_id now today e :
  get_next_class pt timetable teacher_id now today = Some e ->
  exists r, r ∈ timetable /\ e = entry_of_row r /\
    row_teacher_id r = teacher_id /\ row_day_of_week r = today.
Proof.
  unfold get_next_class.
  destruct (get_current_period pt now) as [[st cur] m]. intros Hscan.
  apply scan_entries_Some in Hscan as (ps1 & q & ps2 & r & _ & Hf & -> & _).
  apply fetchone_Some in Hf as (Hin & Ht & Hd & _).
  exists r. auto.
Qed.

(** C5 (as amended): in every phase an entry that [get_next_class] returns
    comes from a row of this teacher for today's weekday, never another
    day.  On a period table whose numbers are among [self.periods], and in
    the phases BEFORE, DURING and AFTER, it scans all the period numbers
    when BEFORE, those strictly above the running period when DURING, and
    none when AFTER, and returns the entry of the first scanned period
    that has such a row, None when no scanned period has one.  (Where the
    scan starts in the phase BETWEEN is the matter of C4.) *)
Theorem next_class_is_first_entry_today pt timetable teacher_id now today :
  (forall e, get_next_class pt timetable teacher_id now today = Some e ->
     exists r, r ∈ timetable /\ e = entry_of_row r /\
       row_teacher_id r = teacher_id /\ row_day_of_week r = today) /\
  (forall st cur m,
     (forall p w, pt !! p = Some w -> p ∈ periods) ->
     get_current_period pt now = (st, cur, m) ->
     st <> between ->
     let scan := match st, cur with
                 | before, _ => periods
                 | during, Some p => filter (fun q => p < q) periods
                 | _, _ => []
                 end in
     match get_next_class pt timetable teacher_id now today with
     | Some e =>
         exists r, r ∈ timetable /\ e = entry_of_row r /\
           row_teacher_id r = teacher_id /\ row_day_of_week r = today /\
           row_period_number r ∈ scan /\
           forall q r', q ∈ scan -> q < row_period_number r ->
             r' ∈ timetable -> matches teacher_id today q r' = false
     | None =>
         forall q r', q ∈ scan -> r' ∈ timetable ->
           matches teacher_id today q r' = false
     end).
Proof.
  split; [apply get_next_class_today|].
  intros st cur m Hdom Hcp Hst. cbv zeta.
  assert (match st, cur with
          | before, _ => periods
          | during, Some p => filter (fun q => p < q) periods
          | _, _ => []
          end = scanned st cur) as ->.
  { destruct st, cur; try reflexivity; contradiction. }
  rewrite (get_next_class_scanned _ _ _ _ _ _ _ _ Hdom Hcp).
  destruct (scan_entries timetable teacher_id today (scanned st cur)) as [e|] eqn:Hscan.
  - apply scan_entries_Some in Hscan as (ps1 & q & ps2 & r & Hsplit & Hf & -> & Hnone).
    apply fetchone_Some in Hf as (Hin & Ht & Hd & Hp).
    exists r. repeat split; auto.
    + rewrite Hp, Hsplit. apply elem_of_app. right. left.
    + intros q' r' Hq' Hlt Hr'. rewrite Hp in Hlt.
      assert (q' ∈ ps1) as Hq1.
      { rewrite Hsplit in Hq'. apply elem_of_app in Hq' as [Hq'|Hq']; [exact Hq'|].
        exfalso. apply elem_of_cons in Hq' as [->|Hq']; [lia|].
        assert (StronglySorted Z.lt (scanned st cur)) as Hs.
        { unfold scanned. destruct st, cur; try constructor;
            try (apply StronglySorted_filter_lt); repeat constructor. }
        rewrite Hsplit in Hs. apply StronglySorted_app_1_r in Hs.
        apply StronglySorted_inv in Hs as [_ Hs].
        rewrite Forall_forall in Hs. specialize (Hs q' Hq'). lia. }
      exact (proj1 (fetchone_None _ _ _ _) (Hnone q' Hq1) r' Hr').
  - intros q r' Hq Hr'.
    exact (proj1 (fetchone_None _ _ _ _) (scan_entries_None _ _ _ _ Hscan q Hq) r' Hr').
Qed.

Lemma default_period_times_dom p w :
  default_period_times !! p = Some w -> p ∈ periods.
Proof.
  assert (map_Forall (fun p (_ : window) => p ∈ periods) default_period_times)
    as Hall by by_decide.
  apply Hall.
Qed.

(** On a Monday at 08:40, during period 1, with rows for Monday period 3,
    Monday period 5 and Tuesday period 2, the next class is the Monday
    period 3 one. *)
Lemma next_class_is_first_entry_today_witness :
  let timetable :=
    [ mk_row 10 1 "Tuesday" 2 "9B" "Physics"; mk_row 11 1 "Monday" 5 "8C" "Maths";
      mk_row 12 1 "Monday" 3 "7A" "Maths" ] in
  get_next_class default_period_times timetable 1 (hm 8 40) "Monday"
    = Some (mk_entry 12 "7A" "Maths" 3) /\
  match get_next_class default_period_times timetable 1 (hm 8 40) "Monday" with
  | Some e =>
      exists r, r ∈ timetable /\ e = entry_of_row r /\
        row_teacher_id r = 1 /\ row_day_of_week r = "Monday" /\
        row_period_number r ∈ filter (fun q => 1 < q) periods /\
        forall q r', q ∈ filter (fun q => 1 < q) periods ->
          q < row_period_number r ->
          r' ∈ timetable -> matches 1 "Monday" q r' = false
  | None =>
      forall q r', q ∈ filter (fun q => 1 < q) periods -> r' ∈ timetable ->
        matches 1 "Monday" q r' = false
  end.
Proof.
  cbv zeta. split; [reflexivity|].
  apply (proj2 (next_class_is_first_entry_today default_period_times
                  [ mk_row 10 1 "Tuesday" 2 "9B" "Physics";
                    mk_row 11 1 "Monday" 5 "8C" "Maths";
                    mk_row 12 1 "Monday" 3 "7A" "Maths" ] 1 (hm 8 40) "Monday")
           during (Some 1) (Some 35)).
  - apply default_period_times_dom.
  - reflexivity.
  - discriminate.
Defined.

(** C5 as stated fails on the code.  The table holds the single window
    08:00-09:00 under the number 9, which is not one of [self.periods].
    At 08:30 period 9 is running; [ordered_periods.index(9)] raises, the
    scan starts over at position 0, and the entry returned is the one of
    period 1, which is not after the running period. *)
Lemma period_outside_the_grid_restarts_the_scan :
  let pt : gmap Z window := {[ 9 := (hm 8 0, hm 9 0) ]} in
  get_current_period pt (hm 8 30) = (during, Some 9, Some 30) /\
  get_next_class pt [ mk_row 1 1 "Monday" 1 "10A" "Maths" ] 1 (hm 8 30) "Monday"
    = Some (mk_entry 1 "10A" "Maths" 1).
Proof. cbv zeta. split; vm_compute; reflexivity. Qed.

(** C4 fails on the code.  Table: period 1 is 08:30-09:15, period 2 is
    09:30-10:15; teacher 1 has a Monday row for period 2; the clock reads
    Monday 09:20:00.  The phase is BETWEEN with period 2 the nearest one
    ahead, the teacher has an entry today for period 2, and yet
    [get_next_class] starts after period 2 and returns None. *)
Theorem between_skips_the_upcoming_period :
  let pt : gmap Z window :=
    list_to_map [ (1, (hm 8 30, hm 9 15)); (2, (hm 9 30, hm 10 15)) ] in
  let timetable := [ mk_row 7 1 "Monday" 2 "10A" "Maths" ] in
  valid_windows pt /\ ascending pt /\
  get_current_period pt (hm 9 20) = (between, Some 2, None) /\
  fetchone timetable 1 "Monday" 2 = Some (mk_row 7 1 "Monday" 2 "10A" "Maths") /\
  get_next_class pt timetable 1 (hm 9 20) "Monday" = None.
Proof.
  cbv zeta. split; [by_decide|]. split; [by_decide|].
  repeat split; vm_compute; reflexivity.
Qed.

(** In the BETWEEN phase the search never returns the entry of the
    upcoming period itself: whatever it returns lies strictly after it. *)
Lemma between_next_class_is_later pt timetable teacher_id now today p m e :
  (forall p w, pt !! p = Some w -> p ∈ periods) ->
  get_current_period pt now = (between, Some p, m) ->
  get_next_class pt timetable teacher_id now today = Some e ->
  p < period_number e.
Proof.
  intros Hdom Hcp Hnext.
  rewrite (get_next_class_scanned _ _ _ _ _ _ _ _ Hdom Hcp) in Hnext.
  apply scan_entries_Some in Hnext as (ps1 & q & ps2 & r & Hsplit & Hf & -> & _).
  apply fetchone_Some in Hf as (_ & _ & _ & Hp). simpl. rewrite Hp.
  assert (q ∈ scanned between (Some p)) as Hq
    by (rewrite Hsplit; apply elem_of_app; right; left).
  simpl in Hq. apply list_elem_of_filter in Hq as [Hq _]. exact Hq.
Qed.

End EngineFacts.

(** ** The status area and the timing editor *)

Module AppFacts.

Import EngineFacts.

(** When the reading [get_current_class] takes falls in the same period
    as the one the refresh started from, and the selected teacher has no
    row for that weekday and period, nothing fails: the active entry is
    None, the status line reports the teacher as free for that period and
    the minutes are those of the first reading. *)
Lemma free_period_with_a_steady_clock a clk teacher_id p m m' :
  current_teacher_id a = Some teacher_id ->
  get_current_period (period_times a) (now_time clk) = (during, Some p, Some m) ->
  get_current_period (period_times a) (now_time (tick clk)) = (during, Some p, m') ->
  fetchone (db_timetable a) teacher_id (weekday (tick clk)) p = None ->
  get_current_class (period_times a) (db_timetable a) teacher_id
    (now_time (tick clk)) (weekday (tick clk)) = None /\
  status_var (update_current_status clk a)
    = "Teacher is FREE right now (Period " +:+ pretty p +:+ ")" /\
  remaining_var (update_current_status clk a)
    = pretty m +:+ " min remaining in this period".
Proof.
  intros Ht Hcp Hcp' Hnone.
  assert (get_current_class (period_times a) (db_timetable a) teacher_id
            (now_time (tick clk)) (weekday (tick clk)) = None) as Hcur.
  { unfold get_current_class. rewrite Hcp'.
    destruct (bool_decide (p = 0)); [reflexivity|]. rewrite Hnone. reflexivity. }
  split; [exact Hcur|].
  unfold update_current_status. rewrite Ht, Hcp. cbv zeta. rewrite Hcur. simpl.
  split; reflexivity.
Qed.

(** C6: a refresh that starts in a period for which the selected teacher
    has no row does not always report the teacher as free.
    [update_current_status] takes the phase from one reading of the clock
    and [get_current_class] looks the class up at a later one.  Teacher 1
    has a single row, for Monday's period 2 (09:15-10:00).  The refresh
    starts on Monday at 09:14:59.999, in period 1, for which there is no
    row; the second reading is 09:15:00.  The status line then says the
    teacher is teaching 9B in period 2, next to the minutes that remain of
    period 1. *)
Theorem free_period_is_reported_as_teaching_at_a_boundary :
  let a := set_current_teacher_id (Some 1)
             (init_app "#d9d9d9" [ mk_row 1 1 "Monday" 2 "9B" "Physics" ]) in
  let clk := mk_readings (mk_time 9 14 59 999000) "Monday" [ (hm 9 15, "Monday") ] in
  get_current_period (period_times a) (now_time clk) = (during, Some 1, Some 0) /\
  fetchone (db_timetable a) 1 (weekday clk) 1 = None /\
  status_var (update_current_status clk a) = "Currently teaching: 9B (Period 2)" /\
  remaining_var (update_current_status clk a) = "0 min remaining in this period".
Proof. cbv zeta. repeat split; vm_compute; reflexivity. Qed.

Section save_timings_facts.

Variable strip : string -> string.
Variable fromisoformat : string -> option ptime.

(** A batch with a row that does not pass is never accepted: the loop
    ends at such a row, with the error box that names it or with the
    TypeError of the comparison. *)
Lemma validate_rejects entries :
  Exists (invalid_entry strip fromisoformat) entries ->
  forall new_map,
    validate strip fromisoformat entries new_map = type_error \/
    exists pnum s_e e_e msg,
      validate strip fromisoformat entries new_map
        = refuse (showerror "Validation Error" msg) /\
      (pnum, (s_e, e_e)) ∈ entries /\
      invalid_entry strip fromisoformat (pnum, (s_e, e_e)) /\
      (msg = "Start time must be before end time for period " +:+ pretty pnum +:+ "."
       \/ msg = "Invalid time format for period " +:+ pretty pnum
                  +:+ ". Use HH:MM (24-hour).").
Proof.
  induction entries as [|[pnum [s_e e_e]] rest IH]; intros Hex new_map.
  { inversion Hex. }
  simpl.
  destruct (fromisoformat (strip s_e)) as [s_t|] eqn:Hs;
    [destruct (fromisoformat (strip e_e)) as [e_t|] eqn:He|].
  - destruct (time_ge s_t e_t) as [[|]|] eqn:Hge.
    + right. exists pnum, s_e, e_e. eexists. split; [reflexivity|]. split; [left|].
      split; [|left; reflexivity].
      unfold invalid_entry. simpl. rewrite Hs, He, Hge. discriminate.
    + apply Exists_cons in Hex as [Hbad|Hex].
      { unfold invalid_entry in Hbad. simpl in Hbad. rewrite Hs, He in Hbad.
        contradiction. }
      destruct (IH Hex (new_map ++ [(pnum, (s_t, e_t))]))
        as [Hv|(q & qs & qe & msg & Hv & Hin & Hbad & Hmsg)]; [left; exact Hv|].
      right. exists q, qs, qe, msg. split; [exact Hv|].
      split; [right; exact Hin|]. auto.
    + left. reflexivity.
  - right. exists pnum, s_e, e_e. eexists. split; [reflexivity|]. split; [left|].
    split; [|right; reflexivity].
    unfold invalid_entry. simpl. rewrite Hs, He. exact I.
  - right. exists pnum, s_e, e_e. eexists. split; [reflexivity|]. split; [left|].
    split; [|right; reflexivity].
    unfold invalid_entry. simpl. rewrite Hs. exact I.
Qed.

(** The comparison of two times without offset. *)
Lemma time_ge_naive s e : time_ge (naive s) (naive e) = Some (time_leb e s).
Proof. reflexivity. Qed.

Lemma naive_window_Some w w' :
  naive_window w = Some w' -> w = (naive w'.1, naive w'.2).
Proof.
  destruct w as [[s [os|]] [e [oe|]]]; unfold naive_window; simpl;
    try discriminate.
  intros [= <-]. reflexivity.
Qed.

(** The rows of an accepted batch passed the comparison. *)
Lemma validate_accepts entries new_map result :
  validate strip fromisoformat entries new_map = accept result ->
  Forall (fun x : Z * pwindow => time_ge x.2.1 x.2.2 = Some false) new_map ->
  Forall (fun x : Z * pwindow => time_ge x.2.1 x.2.2 = Some false) result.
Proof.
  revert new_map. induction entries as [|[pnum [s_e e_e]] rest IH];
    intros new_map; simpl.
  { intros [= <-]. auto. }
  destruct (fromisoformat (strip s_e)) as [s_t|]; [|discriminate].
  destruct (fromisoformat (strip e_e)) as [e_t|]; [|discriminate].
  destruct (time_ge s_t e_t) as [[|]|] eqn:Hge; try discriminate.
  intros Hv Hall. apply (IH _ Hv). apply Forall_app. split; [exact Hall|].
  apply Forall_singleton. exact Hge.
Qed.

Lemma naive_windows_valid new_map windows :
  naive_windows new_map = Some windows ->
  Forall (fun x : Z * pwindow => time_ge x.2.1 x.2.2 = Some false) new_map ->
  Forall (fun x : Z * window => time_us x.2.1 < time_us x.2.2) windows.
Proof.
  revert windows. induction new_map as [|[pnum w] rest IH]; intros windows; simpl.
  { intros [= <-] _. constructor. }
  destruct (naive_window w) as [w'|] eqn:Hw; [|discriminate].
  destruct (naive_windows rest) as [rest'|]; [|discriminate].
  intros [= <-] Hall. apply Forall_cons in Hall as [Hge Hall].
  constructor; [|apply IH; [reflexivity|exact Hall]].
  apply naive_window_Some in Hw. subst w. simpl in Hge |- *.
  rewrite time_ge_naive in Hge. injection Hge as Hge. apply time_leb_gt. exact Hge.
Qed.

Lemma update_valid_windows new_map pt :
  Forall (fun x : Z * window => time_us x.2.1 < time_us x.2.2) new_map ->
  valid_windows pt -> valid_windows (update new_map pt).
Proof.
  revert pt. induction new_map as [|[pnum w] rest IH]; intros pt Hall Hv;
    [exact Hv|].
  apply Forall_cons in Hall as [Hw Hall]. simpl. apply IH; [exact Hall|].
  apply map_Forall_insert_2; assumption.
Qed.

Lemma stored_batch_keeps_windows_valid entries clk a a' msg :
  valid_windows (period_times a) ->
  save_timings strip fromisoformat entries clk a = stored a' msg ->
  valid_windows (period_times a').
Proof.
  intros Hv. unfold save_timings.
  destruct (validate strip fromisoformat entries []) as [err| |new_map] eqn:Hval;
    try discriminate.
  cbv zeta. destruct (naive_windows new_map) as [windows|] eqn:Hn; [|discriminate].
  intros [= <- _].
  assert (forall b, period_times (update_current_status clk b) = period_times b) as Hpt.
  { intros b. unfold update_current_status. repeat case_match; reflexivity. }
  rewrite Hpt. simpl. apply update_valid_windows; [|exact Hv].
  apply (naive_windows_valid _ _ Hn). apply (validate_accepts _ _ _ Hval). constructor.
Qed.

End save_timings_facts.

(** C7: a batch whose start is at or after its end is not always refused,
    and a refusal does not always name the failing period.  With the
    texts 15:00+05:00 and 14:45+00:00 for period 1, [fromisoformat] gives
    two offset-aware times, [s_t >= e_t] compares them by UTC instant
    (10:00 against 14:45) and is false, and the batch is accepted: the
    table gets the start 15:00 and the end 14:45 for period 1.  With the
    texts 10:00 and 09:00+00:00 the comparison raises TypeError, which no
    handler catches: nothing is written, and no message box names the
    period. *)
Theorem offset_times_defeat_the_start_before_end_check :
  let a := init_app "#d9d9d9" [] in
  let clk := mk_clock (hm 7 0) "Monday" in
  save_timings strip_ascii parse_iso [ (1, ("15:00+05:00", "14:45+00:00")) ] clk a
    = stored_aware {[ 1 := ("15:00", "14:45") ]}
        [ (1, (mk_ptime (hm 15 0) (Some 18000000000), mk_ptime (hm 14 45) (Some 0))) ]
        (showinfo "Success" "Period timings updated.") /\
  save_timings strip_ascii parse_iso [ (1, ("10:00", "09:00+00:00")) ] clk a
    = raised_TypeError.
Proof. cbv zeta. split; vm_compute; reflexivity. Qed.

End AppFacts.

(** ** The three timers *)

Module TimerFacts.

Import EngineFacts.

Lemma tracked_same a b : timers a = timers b -> tracked a -> tracked b.
Proof.
  unfold timers. intros [= Hp Hn Hs Hh Hb] [Ht Hlt]. split.
  - intros i d cb Hi. rewrite <- Hp in Hi. destruct (Ht i d cb Hi) as [H1 H2].
    split; [|exact H2]. destruct cb; simpl in *; congruence.
  - intros cb i Hi. rewrite <- Hn. apply (Hlt cb).
    destruct cb; simpl in *; congruence.
Qed.

Lemma no_live_same cb a b : timers a = timers b -> no_live cb a -> no_live cb b.
Proof. unfold timers. intros [= Hp _ _ _ _] H i d. rewrite <- Hp. apply H. Qed.

Lemma timers_update_current_status clk a :
  timers (update_current_status clk a) = timers a.
Proof. unfold update_current_status. repeat case_match; reflexivity. Qed.

Lemma timers_on_highlight_btn f a : timers (on_highlight_btn f a) = timers a.
Proof. unfold on_highlight_btn. case_match; reflexivity. Qed.

Lemma tracked_no_handle cb a : tracked a -> handle cb a = None -> no_live cb a.
Proof. intros [Ht _] Hh i d Hi. destruct (Ht _ _ _ Hi) as [H _]. congruence. Qed.

(** Cancelling the callback a handle names and clearing the handle. *)
Lemma cancel_tracked cb i a :
  tracked a -> handle cb a = Some i ->
  tracked (set_handle cb None (Tk.after_cancel i a)) /\
  no_live cb (set_handle cb None (Tk.after_cancel i a)).
Proof.
  intros [Ht Hlt] Hh.
  assert (forall j d cb',
            tk_pending (set_handle cb None (Tk.after_cancel i a)) !! j = Some (d, cb') ->
            j <> i /\ tk_pending a !! j = Some (d, cb')) as Hdel.
  { intros j d cb' Hj. destruct cb; simpl in Hj;
      apply lookup_delete_Some in Hj as [Hne Hj]; auto. }
  split; [split|].
  - intros j d cb' Hj. destruct (Hdel _ _ _ Hj) as [Hne Hj'].
    destruct (Ht _ _ _ Hj') as [H1 H2]. split; [|exact H2].
    destruct cb, cb'; simpl in *; congruence.
  - intros cb' j Hj. destruct cb, cb'; simpl in *; try discriminate;
      apply (Hlt _ _ Hj) || exact (Hlt cb_start_auto_update_status _ Hj)
      || exact (Hlt cb_start_auto_update_highlight _ Hj)
      || exact (Hlt cb_blink_highlight _ Hj).
  - intros j d Hj. destruct (Hdel _ _ _ Hj) as [Hne Hj'].
    destruct (Ht _ _ _ Hj') as [H1 _]. congruence.
Qed.

(** Removing pending callbacks breaks nothing. *)
Lemma delete_tracked i a :
  tracked a -> tracked (set_tk (delete i (tk_pending a)) (tk_next_id a) a).
Proof.
  intros [Ht Hlt]. split.
  - intros j d cb Hj. simpl in Hj. apply lookup_delete_Some in Hj as [_ Hj].
    destruct (Ht _ _ _ Hj) as [H1 H2]. split; [|exact H2].
    destruct cb; exact H1.
  - intros cb j Hj. simpl. apply (Hlt cb). destruct cb; exact Hj.
Qed.

Lemma delete_no_live cb i a :
  no_live cb a -> no_live cb (set_tk (delete i (tk_pending a)) (tk_next_id a) a).
Proof.
  intros H j d Hj. simpl in Hj. apply lookup_delete_Some in Hj as [_ Hj].
  exact (H _ _ Hj).
Qed.

(** Arming a timer none of whose callbacks is pending. *)
Lemma arm_tracked cb a :
  tracked a -> no_live cb a ->
  tracked (set_handle cb (Some (tk_next_id a)) (Tk.after (delay cb) cb a).2) /\
  live cb (set_handle cb (Some (tk_next_id a)) (Tk.after (delay cb) cb a).2)
    = {[ tk_next_id a := (delay cb, cb) ]} /\
  handle cb (set_handle cb (Some (tk_next_id a)) (Tk.after (delay cb) cb a).2)
    = Some (tk_next_id a).
Proof.
  intros [Ht Hlt] Hno.
  assert (tk_pending (set_handle cb (Some (tk_next_id a)) (Tk.after (delay cb) cb a).2)
          = <[tk_next_id a := (delay cb, cb)]> (tk_pending a)) as Hp
    by (destruct cb; reflexivity).
  assert (tk_next_id (set_handle cb (Some (tk_next_id a)) (Tk.after (delay cb) cb a).2)
          = S (tk_next_id a)) as Hn by (destruct cb; reflexivity).
  assert (forall cb', handle cb' (set_handle cb (Some (tk_next_id a)) (Tk.after (delay cb) cb a).2)
          = if decide (cb' = cb) then Some (tk_next_id a) else handle cb' a) as Hh
    by (intros cb'; destruct cb, cb'; reflexivity).
  split; [split|split].
  - intros j d cb' Hj. rewrite Hp in Hj. rewrite Hh.
    apply lookup_insert_Some in Hj as [[<- [= <- <-]]|[Hne Hj]].
    + rewrite decide_True by reflexivity. auto.
    + destruct (Ht _ _ _ Hj) as [H1 H2].
      rewrite decide_False; [auto|]. intros ->. exact (Hno _ _ Hj).
  - intros cb' j. rewrite Hh, Hn. case_decide.
    + intros [= <-]. lia.
    + intros Hj. pose proof (Hlt _ _ Hj). lia.
  - unfold live. rewrite Hp. apply map_eq. intros j. apply option_eq. intros [d cb'].
    rewrite map_lookup_filter_Some, lookup_insert_Some, lookup_singleton_Some. simpl.
    split.
    + intros [[[<- [= <- <-]]|[Hne Hj]] Hcb]; [auto|].
      subst cb'. exfalso. exact (Hno _ _ Hj).
    + intros [<- [= <- <-]]. auto.
  - rewrite Hh. rewrite decide_True by reflexivity. reflexivity.
Qed.

(** Arming one timer leaves the others as they were. *)
Lemma arm_no_live cb cb' a :
  cb' <> cb -> no_live cb' a ->
  no_live cb' (set_handle cb (Some (tk_next_id a)) (Tk.after (delay cb) cb a).2).
Proof.
  intros Hne Hno j d Hj.
  assert (tk_pending (set_handle cb (Some (tk_next_id a)) (Tk.after (delay cb) cb a).2)
          = <[tk_next_id a := (delay cb, cb)]> (tk_pending a)) as Hp
    by (destruct cb; reflexivity).
  rewrite Hp in Hj. apply lookup_insert_Some in Hj as [[_ [= _ <-]]|[_ Hj]].
  - congruence.
  - exact (Hno _ _ Hj).
Qed.

(** The three start operations end by arming their timer. *)
Lemma start_blink_animation_arm a :
  start_blink_animation a =
    let a3 := on_highlight_btn capture_orig
                (set_blink_state false (stop_blink_animation a)) in
    set_handle cb_blink_highlight (Some (tk_next_id a3))
      (Tk.after (delay cb_blink_highlight) cb_blink_highlight a3).2.
Proof. reflexivity. Qed.

Lemma start_auto_update_status_arm clk a :
  start_auto_update_status clk a =
    let a2 := update_current_status clk (stop_auto_update_status a) in
    set_handle cb_start_auto_update_status (Some (tk_next_id a2))
      (Tk.after (delay cb_start_auto_update_status) cb_start_auto_update_status a2).2.
Proof. reflexivity. Qed.

Lemma start_auto_update_highlight_arm clk a :
  start_auto_update_highlight clk a =
    let a2 := update_highlight clk (stop_auto_update_highlight a) in
    set_handle cb_start_auto_update_highlight (Some (tk_next_id a2))
      (Tk.after (delay cb_start_auto_update_highlight)
         cb_start_auto_update_highlight a2).2.
Proof. reflexivity. Qed.

Lemma blink_highlight_arm a k :
  current_highlight_btn a = Some k ->
  blink_highlight a =
    let a2 := on_highlight_btn (toggle (negb (blink_state a)))
                (set_blink_state (negb (blink_state a)) a) in
    set_handle cb_blink_highlight (Some (tk_next_id a2))
      (Tk.after (delay cb_blink_highlight) cb_blink_highlight a2).2.
Proof. intros H. unfold blink_highlight. rewrite H. reflexivity. Qed.

Lemma timers_set_blink_state v a : timers (set_blink_state v a) = timers a.
Proof. reflexivity. Qed.

(** Stopping the blink animation. *)
Lemma stop_blink_animation_tracked a :
  tracked a ->
  tracked (stop_blink_animation a) /\
  no_live cb_blink_highlight (stop_blink_animation a).
Proof.
  intros Ht. unfold stop_blink_animation.
  destruct (_blink_after_id a) as [i|] eqn:Hh.
  - destruct (cancel_tracked cb_blink_highlight i a Ht Hh) as [H1 H2].
    split.
    + eapply tracked_same; [|exact H1]. symmetry. apply timers_on_highlight_btn.
    + eapply no_live_same; [|exact H2]. symmetry. apply timers_on_highlight_btn.
  - split.
    + eapply tracked_same; [|exact Ht]. symmetry. apply timers_on_highlight_btn.
    + eapply no_live_same; [symmetry; apply timers_on_highlight_btn|].
      apply tracked_no_handle; assumption.
Qed.

(** A stop only removes pending callbacks and hands out no id. *)
Lemma stop_pending cb a i x :
  tk_pending (stop cb a) !! i = Some x -> tk_pending a !! i = Some x.
Proof.
  assert (forall b, tk_pending (stop_blink_animation b) !! i = Some x ->
                    tk_pending b !! i = Some x) as Hblink.
  { intros b. unfold stop_blink_animation, on_highlight_btn.
    destruct (_blink_after_id b); repeat case_match; simpl;
      rewrite ?lookup_delete_Some; tauto. }
  destruct cb; simpl.
  - unfold stop_auto_update_status. case_match; simpl;
      rewrite ?lookup_delete_Some; tauto.
  - unfold stop_auto_update_highlight. intros H. apply Hblink in H.
    revert H. case_match; simpl; rewrite ?lookup_delete_Some; tauto.
  - apply Hblink.
Qed.

Lemma stop_next_id cb a : tk_next_id (stop cb a) = tk_next_id a.
Proof.
  assert (forall b, tk_next_id (stop_blink_animation b) = tk_next_id b) as Hblink.
  { intros b. unfold stop_blink_animation, on_highlight_btn.
    destruct (_blink_after_id b); repeat case_match; reflexivity. }
  destruct cb; simpl.
  - unfold stop_auto_update_status. case_match; reflexivity.
  - unfold stop_auto_update_highlight. rewrite Hblink. case_match; reflexivity.
  - apply Hblink.
Qed.

Lemma stop_no_live cb cb' a : no_live cb' a -> no_live cb' (stop cb a).
Proof. intros H i d Hi. apply stop_pending in Hi. exact (H _ _ Hi). Qed.

Lemma stop_tracked cb a :
  tracked a -> tracked (stop cb a) /\ no_live cb (stop cb a).
Proof.
  intros Ht. destruct cb; simpl.
  - unfold stop_auto_update_status.
    destruct (_status_after_id a) as [i|] eqn:Hh.
    + exact (cancel_tracked cb_start_auto_update_status i a Ht Hh).
    + split; [exact Ht|]. apply tracked_no_handle; assumption.
  - unfold stop_auto_update_highlight.
    destruct (_highlight_after_id a) as [i|] eqn:Hh.
    + destruct (cancel_tracked cb_start_auto_update_highlight i a Ht Hh) as [H1 H2].
      split.
      * apply stop_blink_animation_tracked. exact H1.
      * apply (stop_no_live cb_blink_highlight). exact H2.
    + split.
      * apply stop_blink_animation_tracked. exact Ht.
      * apply (stop_no_live cb_blink_highlight).
        apply tracked_no_handle; assumption.
  - apply stop_blink_animation_tracked. exact Ht.
Qed.

(** Starting the blink animation. *)
Lemma start_blink_animation_tracked a :
  tracked a ->
  tracked (start_blink_animation a) /\
  live cb_blink_highlight (start_blink_animation a)
    = {[ tk_next_id a := (delay cb_blink_highlight, cb_blink_highlight) ]} /\
  handle cb_blink_highlight (start_blink_animation a) = Some (tk_next_id a).
Proof.
  intros Ht. rewrite start_blink_animation_arm. cbv zeta.
  destruct (stop_blink_animation_tracked a Ht) as [H1 H2].
  set (a3 := on_highlight_btn capture_orig
               (set_blink_state false (stop_blink_animation a))).
  assert (timers a3 = timers (stop_blink_animation a)) as Htm.
  { unfold a3. rewrite timers_on_highlight_btn. reflexivity. }
  assert (tk_next_id a3 = tk_next_id a) as Hn.
  { unfold timers in Htm. injection Htm as _ Hn _ _ _. rewrite Hn.
    apply (stop_next_id cb_blink_highlight). }
  rewrite <- Hn. apply arm_tracked.
  - eapply tracked_same; [symmetry; exact Htm|exact H1].
  - eapply no_live_same; [symmetry; exact Htm|exact H2].
Qed.

Lemma start_blink_animation_no_live cb a :
  cb <> cb_blink_highlight -> no_live cb a -> no_live cb (start_blink_animation a).
Proof.
  intros Hne Hno. rewrite start_blink_animation_arm. cbv zeta.
  apply arm_no_live; [exact Hne|].
  eapply no_live_same; [symmetry; apply timers_on_highlight_btn|].
  eapply no_live_same; [symmetry; apply timers_set_blink_state|].
  apply (stop_no_live cb_blink_highlight). exact Hno.
Qed.

(** [update_highlight] touches the blink timer only. *)
Lemma update_highlight_tracked clk a :
  tracked a -> tracked (update_highlight clk a).
Proof.
  intros Ht. unfold update_highlight. cbv zeta.
  set (a0 := set_grid_buttons _ a).
  assert (tracked a0) as Ht0 by (eapply tracked_same; [|exact Ht]; reflexivity).
  repeat case_match; try exact Ht0.
  - apply start_blink_animation_tracked.
    eapply tracked_same; [|exact Ht0]. reflexivity.
  - apply stop_blink_animation_tracked. exact Ht0.
Qed.

Lemma update_highlight_no_live cb clk a :
  cb <> cb_blink_highlight -> no_live cb a -> no_live cb (update_highlight clk a).
Proof.
  intros Hne Hno. unfold update_highlight. cbv zeta.
  set (a0 := set_grid_buttons _ a).
  assert (no_live cb a0) as Hno0 by (eapply no_live_same; [|exact Hno]; reflexivity).
  repeat case_match; try exact Hno0.
  - apply start_blink_animation_no_live; [exact Hne|].
    eapply no_live_same; [|exact Hno0]. reflexivity.
  - apply (stop_no_live cb_blink_highlight). exact Hno0.
Qed.

Lemma start_blink_animation_next_id a :
  tk_next_id (start_blink_animation a) = S (tk_next_id a).
Proof.
  rewrite start_blink_animation_arm. cbv zeta. simpl.
  unfold on_highlight_btn. case_match; simpl;
    apply f_equal, (stop_next_id cb_blink_highlight).
Qed.

Lemma update_highlight_next_id clk a :
  (tk_next_id a <= tk_next_id (update_highlight clk a))%nat.
Proof.
  unfold update_highlight. cbv zeta. set (a0 := set_grid_buttons _ a).
  assert (tk_next_id a0 = tk_next_id a) as H0 by reflexivity.
  repeat case_match; try (rewrite H0; lia).
  - rewrite start_blink_animation_next_id. simpl. lia.
  - rewrite (stop_next_id cb_blink_highlight). lia.
Qed.

(** Each start leaves its timer with exactly one pending callback, the one
    its handle names, under an id newer than every id handed out before. *)
Lemma start_tracked cb clk a :
  tracked a ->
  tracked (start cb clk a) /\
  exists n, (tk_next_id a <= n)%nat /\
    live cb (start cb clk a) = {[ n := (delay cb, cb) ]} /\
    handle cb (start cb clk a) = Some n.
Proof.
  intros Ht. destruct cb; simpl.
  - rewrite start_auto_update_status_arm. cbv zeta.
    destruct (stop_tracked cb_start_auto_update_status a Ht) as [H1 H2].
    simpl in H1, H2.
    set (a2 := update_current_status clk (stop_auto_update_status a)).
    assert (timers a2 = timers (stop_auto_update_status a)) as Htm
      by apply timers_update_current_status.
    destruct (arm_tracked cb_start_auto_update_status a2) as (Ha & Hb & Hc).
    { eapply tracked_same; [symmetry; exact Htm|exact H1]. }
    { eapply no_live_same; [symmetry; exact Htm|exact H2]. }
    split; [exact Ha|]. exists (tk_next_id a2). split; [|auto].
    unfold timers in Htm. injection Htm as _ Hn _ _ _. rewrite Hn.
    rewrite (stop_next_id cb_start_auto_update_status). lia.
  - rewrite start_auto_update_highlight_arm. cbv zeta.
    destruct (stop_tracked cb_start_auto_update_highlight a Ht) as [H1 H2].
    simpl in H1, H2.
    set (a2 := update_highlight clk (stop_auto_update_highlight a)).
    destruct (arm_tracked cb_start_auto_update_highlight a2) as (Ha & Hb & Hc).
    { apply update_highlight_tracked. exact H1. }
    { apply update_highlight_no_live; [discriminate|exact H2]. }
    split; [exact Ha|]. exists (tk_next_id a2). split; [|auto].
    pose proof (update_highlight_next_id clk (stop_auto_update_highlight a)) as Hle.
    rewrite (stop_next_id cb_start_auto_update_highlight) in Hle. exact Hle.
  - destruct (start_blink_animation_tracked a Ht) as (Ha & Hb & Hc).
    split; [exact Ha|]. exists (tk_next_id a). auto.
Qed.

(** A toggle re-arms the blink timer after its callback left the table. *)
Lemma blink_highlight_tracked a :
  tracked a -> no_live cb_blink_highlight a -> tracked (blink_highlight a).
Proof.
  intros Ht Hno. destruct (current_highlight_btn a) as [k|] eqn:Hk.
  - rewrite (blink_highlight_arm a k Hk). cbv zeta. apply arm_tracked.
    + eapply tracked_same; [symmetry; apply timers_on_highlight_btn|].
      eapply tracked_same; [|exact Ht]. reflexivity.
    + eapply no_live_same; [symmetry; apply timers_on_highlight_btn|].
      eapply no_live_same; [|exact Hno]. reflexivity.
  - unfold blink_highlight. rewrite Hk. exact Ht.
Qed.

Lemma fire_tracked i clk a : tracked a -> tracked (fire i clk a).
Proof.
  intros Ht. unfold fire.
  destruct (tk_pending a !! i) as [[d cb]|] eqn:Hi; [|exact Ht].
  cbv zeta. pose proof (delete_tracked i a Ht) as Hd.
  destruct cb.
  - apply (start_tracked cb_start_auto_update_status). exact Hd.
  - apply (start_tracked cb_start_auto_update_highlight). exact Hd.
  - apply blink_highlight_tracked; [exact Hd|].
    intros j d' Hj. simpl in Hj. apply lookup_delete_Some in Hj as [Hne Hj].
    destruct Ht as [Ht _].
    destruct (Ht _ _ _ Hi) as [H1 _]. destruct (Ht _ _ _ Hj) as [H2 _].
    congruence.
Qed.

Lemma run_tracked e a : tracked a -> tracked (run e a).
Proof.
  intros Ht. destruct e; simpl.
  - apply (start_tracked cb_start_auto_update_status). exact Ht.
  - apply (stop_tracked cb_start_auto_update_status). exact Ht.
  - apply (start_tracked cb_start_auto_update_highlight). exact Ht.
  - apply (stop_tracked cb_start_auto_update_highlight). exact Ht.
  - apply update_highlight_tracked. exact Ht.
  - eapply tracked_same; [|exact Ht]. symmetry. apply timers_update_current_status.
  - apply fire_tracked. exact Ht.
  - eapply tracked_same; [|exact Ht]. reflexivity.
  - eapply tracked_same; [|exact Ht]. reflexivity.
  - eapply tracked_same; [|exact Ht]. reflexivity.
  - eapply tracked_same; [|exact Ht]. reflexivity.
Qed.

Lemma initial_tracked a : initial a -> tracked a.
Proof.
  intros (Hs & Hh & Hb & Hp & _). split.
  - intros i d cb Hi. rewrite Hp, lookup_empty in Hi. discriminate.
  - intros cb i Hi. destruct cb; simpl in Hi; congruence.
Qed.

Lemma reachable_tracked a : reachable a -> tracked a.
Proof.
  induction 1 as [a Hinit|e a _ IH];
    [apply initial_tracked; exact Hinit|apply run_tracked; exact IH].
Qed.

(** Under the discipline a timer has at most one pending callback. *)
Lemma tracked_live cb a :
  tracked a ->
  live cb a = ∅ \/ exists i, handle cb a = Some i /\ live cb a = {[ i := (delay cb, cb) ]}.
Proof.
  intros [Ht _]. destruct (handle cb a) as [i|] eqn:Hh.
  - destruct (tk_pending a !! i) as [[d cb']|] eqn:Hi.
    + destruct (decide (cb' = cb)) as [->|Hne].
      * right. exists i. split; [reflexivity|].
        destruct (Ht _ _ _ Hi) as [_ ->].
        apply map_eq. intros j. apply option_eq. intros [d2 cb2].
        unfold live. rewrite map_lookup_filter_Some, lookup_singleton_Some. simpl.
        split.
        -- intros [Hj ->]. destruct (Ht _ _ _ Hj) as [H1 ->].
           split; [congruence|reflexivity].
        -- intros [<- [= <- <-]]. auto.
      * left. apply map_eq. intros j. rewrite lookup_empty.
        apply map_lookup_filter_None. right. intros [d2 cb2] Hj Hcb.
        simpl in Hcb. subst cb2. destruct (Ht _ _ _ Hj) as [H1 _].
        assert (j = i) as -> by congruence. congruence.
    + left. apply map_eq. intros j. rewrite lookup_empty.
      apply map_lookup_filter_None. right. intros [d2 cb2] Hj Hcb.
      simpl in Hcb. subst cb2. destruct (Ht _ _ _ Hj) as [H1 _].
      assert (j = i) as -> by congruence. congruence.
  - left. apply map_eq. intros j. rewrite lookup_empty.
    apply map_lookup_filter_None. right. intros [d2 cb2] Hj Hcb.
    simpl in Hcb. subst cb2. destruct (Ht _ _ _ Hj) as [H1 _]. congruence.
Qed.

Lemma no_live_empty cb a : no_live cb a -> live cb a = ∅.
Proof.
  intros Hno. apply map_eq. intros j. rewrite lookup_empty.
  apply map_lookup_filter_None. right. intros [d cb'] Hj Hcb. simpl in Hcb.
  subst cb'. exact (Hno _ _ Hj).
Qed.

Lemma apply_ops_tracked os a : tracked a -> tracked (apply_ops os a).
Proof.
  revert a. induction os as [|o os IH]; intros a Ht; [exact Ht|].
  simpl. apply IH. destruct o as [cb clk|cb]; simpl.
  - apply start_tracked. exact Ht.
  - apply stop_tracked. exact Ht.
Qed.

Lemma tracked_start_stop cb clk a :
  tracked a ->
  (size (live cb a) <= 1)%nat /\
  size (live cb (start cb clk a)) = 1%nat /\
  (exists n, handle cb (start cb clk a) = Some n /\
     tk_pending (start cb clk a) !! n = Some (delay cb, cb)) /\
  (forall i, handle cb a = Some i -> live cb (start cb clk a) !! i = None) /\
  live cb (stop cb a) = ∅.
Proof.
  intros Ht. split; [|split; [|split; [|split]]].
  - destruct (tracked_live cb a Ht) as [->|(i & _ & ->)].
    + rewrite map_size_empty. lia.
    + rewrite map_size_singleton. lia.
  - destruct (start_tracked cb clk a Ht) as (_ & n & _ & -> & _).
    rewrite map_size_singleton. reflexivity.
  - destruct (start_tracked cb clk a Ht) as (_ & n & _ & Hl & Hh).
    exists n. split; [exact Hh|].
    assert (live cb (start cb clk a) !! n = Some (delay cb, cb)) as Hn
      by (rewrite Hl; apply lookup_singleton_eq).
    unfold live in Hn. apply map_lookup_filter_Some in Hn as [Hn _]. exact Hn.
  - intros i Hi. destruct (start_tracked cb clk a Ht) as (_ & n & Hle & -> & _).
    apply lookup_singleton_ne. destruct Ht as [_ Hlt].
    pose proof (Hlt _ _ Hi). lia.
  - apply no_live_empty. apply stop_tracked. exact Ht.
Qed.

(** C8: in every state the application can reach, and after any further
    sequence of starts and stops of the three timers, each timer has at
    most one pending callback; a start leaves its timer with exactly one,
    armed with the timer's delay (60000, 5000 or 500 ms) and named by the
    timer's handle, the callback the handle named before being no longer
    pending; a second start in succession again leaves exactly one; and a
    stop leaves none. *)
Theorem one_live_callback_per_timer a os cb clk clk' :
  reachable a ->
  let b := apply_ops os a in
  (size (live cb b) <= 1)%nat /\
  size (live cb (start cb clk b)) = 1%nat /\
  size (live cb (start cb clk' (start cb clk b))) = 1%nat /\
  (exists n, handle cb (start cb clk b) = Some n /\
     tk_pending (start cb clk b) !! n = Some (delay cb, cb)) /\
  (forall i, handle cb b = Some i -> live cb (start cb clk b) !! i = None) /\
  live cb (stop cb b) = ∅ /\
  delay cb_start_auto_update_status = 60000 /\
  delay cb_start_auto_update_highlight = 5000 /\
  delay cb_blink_highlight = 500.
Proof.
  intros Hr b.
  assert (tracked b) as Ht by (apply apply_ops_tracked, reachable_tracked; exact Hr).
  destruct (tracked_start_stop cb clk b Ht) as (H1 & H2 & H3 & H4 & H5).
  assert (tracked (start cb clk b)) as Ht' by (apply start_tracked; exact Ht).
  destruct (tracked_start_stop cb clk' (start cb clk b) Ht') as (_ & H6 & _).
  repeat split; auto.
Qed.

Lemma initial_init_app default_bg rows :
  default_bg <> "" -> initial (init_app default_bg rows).
Proof.
  intros Hne. unfold initial.
  do 5 (split; [reflexivity|]). split; [exact Hne|].
  intros k b Hk. unfold init_app in Hk.
  cbv beta iota delta [grid_buttons] in Hk.
  apply elem_of_list_to_map_2 in Hk.
  apply list_elem_of_bind in Hk as (day & Hk & _).
  apply list_elem_of_bind in Hk as (period & Hk & _).
  apply list_elem_of_singleton in Hk. inversion Hk. reflexivity.
Qed.

(** The blink timer started twice in succession right after start-up. *)
Lemma one_live_callback_per_timer_witness :
  let b := init_app "#d9d9d9" [] in
  let clk := mk_clock (hm 8 40) "Monday" in
  (size (live cb_blink_highlight b) <= 1)%nat /\
  size (live cb_blink_highlight (start cb_blink_highlight clk b)) = 1%nat /\
  size (live cb_blink_highlight
          (start cb_blink_highlight clk (start cb_blink_highlight clk b))) = 1%nat /\
  (exists n, handle cb_blink_highlight (start cb_blink_highlight clk b) = Some n /\
     tk_pending (start cb_blink_highlight clk b) !! n = Some (500, cb_blink_highlight)) /\
  (forall i, handle cb_blink_highlight b = Some i ->
     live cb_blink_highlight (start cb_blink_highlight clk b) !! i = None) /\
  live cb_blink_highlight (stop cb_blink_highlight b) = ∅ /\
  delay cb_start_auto_update_status = 60000 /\
  delay cb_start_auto_update_highlight = 5000 /\
  delay cb_blink_highlight = 500.
Proof.
  cbv zeta.
  apply (one_live_callback_per_timer (init_app "#d9d9d9" []) [] cb_blink_highlight
           (mk_clock (hm 8 40) "Monday") (mk_clock (hm 8 40) "Monday")).
  apply reachable_initial, initial_init_app. discriminate.
Defined.

End TimerFacts.

(** ** The blink colours *)

Module BlinkFacts.

Import EngineFacts TimerFacts.

Lemma resting_same a b : cells a = cells b -> resting a -> resting b.
Proof.
  unfold cells, resting. intros [= Hd Hg Hc]. rewrite <- Hd, <- Hg, <- Hc. tauto.
Qed.

Lemma cells_arm cb v a : cells (set_handle cb v (Tk.after (delay cb) cb a).2) = cells a.
Proof. destruct cb; reflexivity. Qed.

Lemma cells_update_current_status clk a :
  cells (update_current_status clk a) = cells a.
Proof. unfold update_current_status. repeat case_match; reflexivity. Qed.

Lemma cells_stop_auto_update_status a : cells (stop_auto_update_status a) = cells a.
Proof. unfold stop_auto_update_status. case_match; reflexivity. Qed.

(** Changing the target cell by a function that keeps the record of the
    original colour sound. *)
Lemma resting_on_highlight_btn f a :
  (forall b, orig_ok (default_btn_bg a) b -> orig_ok (default_btn_bg a) (f b)) ->
  resting a -> resting (on_highlight_btn f a).
Proof.
  intros Hf (Hd & Ho & Hk). unfold on_highlight_btn.
  destruct (current_highlight_btn a) as [k|] eqn:Hc.
  2:{ split; [exact Hd|]. split; [exact Ho|]. intros k'. rewrite Hc. discriminate. }
  split; [exact Hd|]. split; simpl.
  - intros k' b Hb. apply lookup_alter_Some in Hb as [(<- & b0 & Hb0 & ->)|[_ Hb]]; eauto.
  - rewrite Hc. intros k' [= <-]. rewrite lookup_alter_eq.
    destruct (Hk k eq_refl) as [b0 ->]. simpl. eauto.
Qed.

Lemma restore_orig_ok d b : orig_ok d b -> orig_ok d (restore_orig b).
Proof.
  unfold restore_orig, orig_ok. destruct (_orig_bg b) as [o|] eqn:Ho; [|rewrite Ho; auto].
  case_match; simpl; auto. rewrite Ho. auto.
Qed.

Lemma toggle_ok d st b : orig_ok d b -> orig_ok d (toggle st b).
Proof. unfold toggle, orig_ok. destruct st; simpl; auto. Qed.

Lemma config_bg_ok d c b : orig_ok d b -> orig_ok d (config_bg c b).
Proof. unfold orig_ok. simpl. auto. Qed.

Lemma resting_stop_blink_animation a : resting a -> resting (stop_blink_animation a).
Proof.
  intros Hr. unfold stop_blink_animation.
  apply resting_on_highlight_btn.
  - intros b. case_match; apply restore_orig_ok.
  - case_match; [|exact Hr]. eapply resting_same; [|exact Hr]. reflexivity.
Qed.

(** Arming the blink on a target cell that shows the default colour: the
    cell keeps the default colour and records it as its original one. *)
Lemma start_blink_animation_cell a k :
  resting a -> current_highlight_btn a = Some k ->
  (forall b, grid_buttons a !! k = Some b -> bg b = default_btn_bg a) ->
  resting (start_blink_animation a) /\
  default_btn_bg (start_blink_animation a) = default_btn_bg a /\
  current_highlight_btn (start_blink_animation a) = Some k /\
  blink_state (start_blink_animation a) = false /\
  grid_buttons (start_blink_animation a) !! k
    = Some (mk_button (default_btn_bg a) (Some (default_btn_bg a))).
Proof.
  intros (Hd & Ho & Hk) Hc Hbg.
  destruct (Hk k Hc) as [b Hb]. pose proof (Hbg b Hb) as Hbgb.
  pose proof (Ho k b Hb) as Hob.
  rewrite start_blink_animation_arm. cbv zeta.
  set (a1 := stop_blink_animation a).
  assert (default_btn_bg a1 = default_btn_bg a /\ current_highlight_btn a1 = Some k /\
          grid_buttons a1 = alter restore_orig k (grid_buttons a)) as (Hd1 & Hc1 & Hg1).
  { unfold a1, stop_blink_animation, on_highlight_btn.
    destruct (_blink_after_id a); simpl; rewrite Hc; simpl; auto. }
  set (a3 := on_highlight_btn capture_orig (set_blink_state false a1)).
  assert (default_btn_bg a3 = default_btn_bg a /\ current_highlight_btn a3 = Some k /\
          blink_state a3 = false /\
          grid_buttons a3 = alter capture_orig k (alter restore_orig k (grid_buttons a)))
    as (Hd3 & Hc3 & Hs3 & Hg3).
  { unfold a3, on_highlight_btn. simpl. rewrite Hc1. simpl. rewrite Hg1. auto. }
  assert (grid_buttons a3 !! k
          = Some (mk_button (default_btn_bg a) (Some (default_btn_bg a)))) as Hcell.
  { rewrite Hg3, !lookup_alter_eq, Hb. simpl. f_equal.
    destruct b as [c o]. unfold orig_ok in Hob. simpl in Hbgb, Hob. subst c.
    unfold restore_orig, capture_orig, truthy. simpl.
    destruct Hob as [->| ->]; [reflexivity|].
    rewrite bool_decide_eq_false_2 by exact Hd. reflexivity. }
  assert (resting a3) as Hr3.
  { split; [rewrite Hd3; exact Hd|]. split.
    - intros k' b' Hb'. rewrite Hd3. destruct (decide (k' = k)) as [->|Hne].
      + rewrite Hcell in Hb'. injection Hb' as <-. right. reflexivity.
      + rewrite Hg3, !lookup_alter_ne in Hb' by congruence. eauto.
    - rewrite Hc3. intros k' [= <-]. rewrite Hcell. eauto. }
  split; [eapply resting_same; [|exact Hr3]; symmetry; apply cells_arm|].
  clearbody a3. simpl. repeat split; auto.
Qed.

(** The reset at the head of [update_highlight]. *)
Lemma reset_resting a :
  resting a ->
  resting (set_grid_buttons (config_bg (default_btn_bg a) <$> grid_buttons a) a).
Proof.
  intros (Hd & Ho & Hk). split; [exact Hd|]. split; simpl.
  - intros k b Hb. apply lookup_fmap_Some in Hb as (b0 & <- & Hb0).
    apply config_bg_ok. eauto.
  - intros k Hc. rewrite lookup_fmap. destruct (Hk k Hc) as [b ->]. simpl. eauto.
Qed.

(** When the selected teacher has a row for the running period and the
    grid has the cell, [update_highlight] resets the grid, takes the cell
    as blink target and starts the animation. *)
Lemma update_highlight_arms a clk teacher_id p m r b :
  current_teacher_id a = Some teacher_id ->
  get_current_period (period_times a) (now_time clk) = (during, Some p, m) ->
  p <> 0 ->
  fetchone (db_timetable a) teacher_id (weekday clk) p = Some r ->
  grid_buttons a !! (weekday clk, p) = Some b ->
  update_highlight clk a =
    start_blink_animation
      (set_current_highlight_btn (Some (weekday clk, p))
         (set_grid_buttons (config_bg (default_btn_bg a) <$> grid_buttons a) a)).
Proof.
  intros Ht Hcp Hp Hf Hb. unfold update_highlight. cbv zeta. simpl.
  rewrite Ht, Hcp. rewrite bool_decide_eq_false_2 by exact Hp.
  rewrite Hf, lookup_fmap, Hb. reflexivity.
Qed.

Lemma update_highlight_resting clk a : resting a -> resting (update_highlight clk a).
Proof.
  intros Hr. pose proof (reset_resting a Hr) as Hr0.
  unfold update_highlight. cbv zeta.
  set (a0 := set_grid_buttons _ a) in *.
  repeat case_match; try exact Hr0.
  - match goal with H : grid_buttons a0 !! ?k = Some _ |- _ =>
      apply (start_blink_animation_cell _ k); [|reflexivity|] end.
    + destruct Hr0 as (Hd & Ho & Hk). split; [exact Hd|]. split; [exact Ho|].
      simpl. intros k' [= <-]. eauto.
    + intros b' Hb'. simpl in Hb'. apply lookup_fmap_Some in Hb' as (b0 & <- & _).
      reflexivity.
  - apply resting_stop_blink_animation. exact Hr0.
Qed.

Lemma stop_auto_update_highlight_resting a :
  resting a -> resting (stop_auto_update_highlight a).
Proof.
  intros Hr. unfold stop_auto_update_highlight.
  apply resting_stop_blink_animation.
  case_match; [|exact Hr]. eapply resting_same; [|exact Hr]. reflexivity.
Qed.

Lemma start_auto_update_highlight_resting clk a :
  resting a -> resting (start_auto_update_highlight clk a).
Proof.
  intros Hr. rewrite start_auto_update_highlight_arm. cbv zeta.
  eapply resting_same; [symmetry; apply cells_arm|].
  apply update_highlight_resting, stop_auto_update_highlight_resting. exact Hr.
Qed.

Lemma start_auto_update_status_resting clk a :
  resting a -> resting (start_auto_update_status clk a).
Proof.
  intros Hr. rewrite start_auto_update_status_arm. cbv zeta.
  eapply resting_same; [symmetry; apply cells_arm|].
  eapply resting_same; [symmetry; apply cells_update_current_status|].
  eapply resting_same; [symmetry; apply cells_stop_auto_update_status|exact Hr].
Qed.

Lemma blink_highlight_resting a : resting a -> resting (blink_highlight a).
Proof.
  intros Hr. destruct (current_highlight_btn a) as [k|] eqn:Hk.
  - rewrite (blink_highlight_arm a k Hk). cbv zeta.
    eapply resting_same; [symmetry; apply cells_arm|].
    apply resting_on_highlight_btn.
    + intros b. apply toggle_ok.
    + eapply resting_same; [|exact Hr]. reflexivity.
  - unfold blink_highlight. rewrite Hk. exact Hr.
Qed.

Lemma run_resting e a : resting a -> resting (run e a).
Proof.
  intros Hr. destruct e; simpl.
  - apply start_auto_update_status_resting. exact Hr.
  - eapply resting_same; [symmetry; apply cells_stop_auto_update_status|exact Hr].
  - apply start_auto_update_highlight_resting. exact Hr.
  - apply stop_auto_update_highlight_resting. exact Hr.
  - apply update_highlight_resting. exact Hr.
  - eapply resting_same; [symmetry; apply cells_update_current_status|exact Hr].
  - unfold fire. destruct (tk_pending a !! i) as [[d cb]|]; [|exact Hr].
    cbv zeta.
    assert (resting (set_tk (delete i (tk_pending a)) (tk_next_id a) a)) as Hr'
      by (eapply resting_same; [|exact Hr]; reflexivity).
    destruct cb.
    + apply start_auto_update_status_resting. exact Hr'.
    + apply start_auto_update_highlight_resting. exact Hr'.
    + apply blink_highlight_resting. exact Hr'.
  - eapply resting_same; [|exact Hr]. reflexivity.
  - eapply resting_same; [|exact Hr]. reflexivity.
  - eapply resting_same; [|exact Hr]. reflexivity.
  - destruct Hr as (Hd & Ho & Hk). split; [exact Hd|]. split; simpl.
    + intros k' b Hb.
      apply lookup_alter_Some in Hb as [(<- & b0 & Hb0 & ->)|[_ Hb]].
      * apply config_bg_ok. eauto.
      * eauto.
    + intros k' Hc. rewrite lookup_alter.
      destruct (Hk k' Hc) as [b Hb]. case_decide; [subst k|]; rewrite Hb; simpl; eauto.
Qed.

Lemma initial_resting a : initial a -> resting a.
Proof.
  intros (_ & _ & _ & _ & Hc & Hd & Hg). split; [exact Hd|]. split.
  - intros k b Hb. rewrite (Hg k b Hb). left. reflexivity.
  - intros k Hk. congruence.
Qed.

Lemma reachable_resting a : reachable a -> resting a.
Proof.
  induction 1 as [a Hinit|e a _ IH];
    [apply initial_resting; exact Hinit|apply run_resting; exact IH].
Qed.

(** One toggle on a target cell whose recorded original colour is [d]. *)
Lemma blink_highlight_cell a k c d :
  current_highlight_btn a = Some k ->
  grid_buttons a !! k = Some (mk_button c (Some d)) ->
  default_btn_bg (blink_highlight a) = default_btn_bg a /\
  current_highlight_btn (blink_highlight a) = Some k /\
  blink_state (blink_highlight a) = negb (blink_state a) /\
  grid_buttons (blink_highlight a) !! k
    = Some (mk_button (if negb (blink_state a) then highlight_color else d) (Some d)).
Proof.
  intros Hk Hb. rewrite (blink_highlight_arm a k Hk). cbv zeta.
  unfold on_highlight_btn. simpl. rewrite Hk. simpl.
  repeat split; auto.
  rewrite lookup_alter_eq, Hb. simpl. unfold toggle. simpl.
  destruct (negb (blink_state a)); reflexivity.
Qed.

(** The final restore on a target cell whose recorded original colour is
    the colour name [d]. *)
Lemma stop_blink_animation_cell a k c d :
  d <> "" ->
  current_highlight_btn a = Some k ->
  grid_buttons a !! k = Some (mk_button c (Some d)) ->
  grid_buttons (stop_blink_animation a) !! k = Some (mk_button d None).
Proof.
  intros Hd Hk Hb. unfold stop_blink_animation, on_highlight_btn.
  destruct (_blink_after_id a); simpl; rewrite Hk; simpl;
    rewrite lookup_alter_eq, Hb; simpl; unfold restore_orig, truthy; simpl;
    rewrite bool_decide_eq_false_2 by exact Hd; reflexivity.
Qed.

(** X30: what the blink does once [update_highlight] has armed it on the
    cell of the running class.  The colour recorded in [_orig_bg] at blink
    start is the default colour, to which every cell has just been reset;
    each run of [blink_highlight] alternates the cell between the
    highlight colour and the recorded colour; the record is not touched by
    the toggles; and the restore of [stop_blink_animation] puts the
    recorded colour back and removes the record. *)
Theorem blink_alternates_default_and_highlight a clk teacher_id p m r b n :
  reachable a ->
  current_teacher_id a = Some teacher_id ->
  get_current_period (period_times a) (now_time clk) = (during, Some p, m) ->
  p <> 0 ->
  fetchone (db_timetable a) teacher_id (weekday clk) p = Some r ->
  grid_buttons a !! (weekday clk, p) = Some b ->
  let k := (weekday clk, p) in
  let d := default_btn_bg a in
  let an := Nat.iter n blink_highlight (update_highlight clk a) in
  current_highlight_btn an = Some k /\
  grid_buttons an !! k
    = Some (mk_button (if Nat.even n then d else highlight_color) (Some d)) /\
  grid_buttons (blink_highlight an) !! k
    = Some (mk_button (if Nat.even n then highlight_color else d) (Some d)) /\
  grid_buttons (stop_blink_animation an) !! k = Some (mk_button d None).
Proof.
  intros Hreach Ht Hcp Hp Hf Hb k d an.
  pose proof (reachable_resting a Hreach) as Hr.
  assert (d <> "") as Hd by (destruct Hr as [Hd _]; exact Hd).
  assert (default_btn_bg an = d /\ current_highlight_btn an = Some k /\
          blink_state an = negb (Nat.even n) /\
          grid_buttons an !! k
            = Some (mk_button (if Nat.even n then d else highlight_color) (Some d)))
    as (Hdn & Hkn & Hsn & Hcn).
  { unfold an. clear an. induction n as [|n IH].
    - simpl. rewrite (update_highlight_arms a clk teacher_id p m r b Ht Hcp Hp Hf Hb).
      pose proof (reset_resting a Hr) as Hr0.
      destruct (start_blink_animation_cell
                  (set_current_highlight_btn (Some k)
                     (set_grid_buttons (config_bg d <$> grid_buttons a) a)) k)
        as (_ & H1 & H2 & H3 & H4).
      + destruct Hr0 as (H1 & H2 & H3). split; [exact H1|]. split; [exact H2|].
        simpl. intros k' [= <-]. rewrite lookup_fmap. unfold k. rewrite Hb.
        simpl. eauto.
      + reflexivity.
      + intros b' Hb'. simpl in Hb'.
        apply lookup_fmap_Some in Hb' as (b0 & <- & _). reflexivity.
      + auto.
    - destruct IH as (H1 & H2 & H3 & H4).
      rewrite Nat.iter_succ.
      destruct (blink_highlight_cell _ k _ d H2 H4) as (G1 & G2 & G3 & G4).
      rewrite G1, G3, G4, H1, H3. rewrite Nat.even_succ, <- Nat.negb_even.
      repeat split; auto.
      destruct (Nat.even n); reflexivity. }
  split; [exact Hkn|]. split; [exact Hcn|]. split.
  - destruct (blink_highlight_cell _ k _ d Hkn Hcn) as (_ & _ & _ & G4).
    rewrite G4, Hsn. destruct (Nat.even n); reflexivity.
  - apply (stop_blink_animation_cell _ k _ d Hd Hkn Hcn).
Qed.

(** Teacher 1 teaches 10A in period 1 on Mondays; on a Monday at 08:40
    the cell (Monday, 1) blinks between the default colour and the
    highlight colour. *)
Lemma blink_alternates_default_and_highlight_witness :
  let a := run (ev_select (Some 1))
             (init_app "#d9d9d9" [ mk_row 1 1 "Monday" 1 "10A" "Maths" ]) in
  let clk := mk_clock (hm 8 40) "Monday" in
  let an := Nat.iter 3 blink_highlight (update_highlight clk a) in
  current_highlight_btn an = Some ("Monday", 1) /\
  grid_buttons an !! ("Monday", 1)
    = Some (mk_button "#00FF84" (Some "#d9d9d9")) /\
  grid_buttons (blink_highlight an) !! ("Monday", 1)
    = Some (mk_button "#d9d9d9" (Some "#d9d9d9")) /\
  grid_buttons (stop_blink_animation an) !! ("Monday", 1)
    = Some (mk_button "#d9d9d9" None).
Proof.
  cbv zeta.
  apply (blink_alternates_default_and_highlight
           (run (ev_select (Some 1))
              (init_app "#d9d9d9" [ mk_row 1 1 "Monday" 1 "10A" "Maths" ]))
           (mk_clock (hm 8 40) "Monday") 1 1 (Some 35)
           (mk_row 1 1 "Monday" 1 "10A" "Maths") (mk_button "#d9d9d9" None) 3).
  - apply reachable_run, reachable_initial, initial_init_app. discriminate.
  - reflexivity.
  - reflexivity.
  - discriminate.
  - reflexivity.
  - vm_compute. reflexivity.
Defined.

End BlinkFacts.

(** ** More on the phase computation *)

Module EngineMore.

Import SortedFacts EngineFacts.

Lemma scan_during_lowest l now p m :
  StronglySorted key_lt l -> scan_during now l = Some (p, m) ->
  forall q w, (q, w) ∈ l -> in_window now w -> p <= q.
Proof.
  induction l as [|[p0 [s0 e0]] l IH]; simpl; intros Hs Hscan q w Hq Hw;
    [discriminate|].
  apply StronglySorted_inv in Hs as [Hs Hx]. rewrite Forall_forall in Hx.
  destruct (time_leb s0 now && time_ltb now e0) eqn:Htest.
  - injection Hscan as <- _. apply elem_of_cons in Hq as [Heq|Hq].
    + inversion Heq. lia.
    + specialize (Hx _ Hq). unfold key_lt in Hx. simpl in Hx. lia.
  - apply elem_of_cons in Hq as [Heq|Hq].
    + inversion Heq; subst. apply in_window_test in Hw. congruence.
    + eapply IH; eauto.
Qed.

Lemma scan_between_None l now :
  scan_between now l = None ->
  forall q w, (q, w) ∈ l -> time_us w.1 <= time_us now.
Proof.
  induction l as [|[p0 [s0 e0]] l IH]; simpl; intros H q w Hq.
  { apply elem_of_nil in Hq. contradiction. }
  destruct (time_ltb now s0) eqn:Htest; [discriminate|].
  apply elem_of_cons in Hq as [Heq|Hq]; [|eauto].
  inversion Heq; subst. simpl. apply time_ltb_ge. exact Htest.
Qed.

Lemma scan_between_lowest l now p :
  StronglySorted key_lt l -> scan_between now l = Some p ->
  forall q w, (q, w) ∈ l -> time_us now < time_us w.1 -> p <= q.
Proof.
  intros Hs Hscan q w Hq Hlt.
  apply scan_between_Some in Hscan as (l1 & wp & l2 & -> & _ & Hbefore).
  apply elem_of_app in Hq as [Hq|Hq].
  - specialize (Hbefore _ _ Hq). lia.
  - apply StronglySorted_app_1_r in Hs. apply elem_of_cons in Hq as [Heq|Hq].
    + inversion Heq. lia.
    + apply StronglySorted_inv in Hs as [_ Hx]. rewrite Forall_forall in Hx.
      specialize (Hx _ Hq). unfold key_lt in Hx. simpl in Hx. lia.
Qed.

(** The first and last items of the sorted table are the lowest- and the
    highest-numbered period, whichever way these are named. *)
Lemma periods_sorted_ends_of pt p0 s0 e0 pl sl el :
  pt !! p0 = Some (s0, e0) -> pt !! pl = Some (sl, el) ->
  (forall q w, pt !! q = Some w -> p0 <= q <= pl) ->
  exists l, periods_sorted pt = (p0, (s0, e0)) :: l /\
            last (periods_sorted pt) = Some (pl, (sl, el)).
Proof.
  intros Hp0 Hpl Hrange.
  assert (pt <> ∅) as Hne by (intros ->; rewrite lookup_empty in Hp0; discriminate).
  destruct (periods_sorted_ends pt Hne)
    as (p0' & s0' & e0' & l & pl' & sl' & el' & Hps & Hlast & Hp0' & Hpl' & Hrange').
  assert (p0' = p0) as -> by (pose proof (Hrange _ _ Hp0'); pose proof (Hrange' _ _ Hp0); lia).
  assert (pl' = pl) as -> by (pose proof (Hrange _ _ Hpl'); pose proof (Hrange' _ _ Hpl); lia).
  rewrite Hp0 in Hp0'. rewrite Hpl in Hpl'.
  injection Hp0' as <- <-. injection Hpl' as <- <-. eauto.
Qed.

(** X1: on any period table, ordered in time or not, a DURING result
    names a period whose window holds [now], it is the lowest-numbered
    such period, and the minutes are the floor of the time left in that
    window. *)
Theorem during_names_lowest_window_holding_now pt now :
  (get_current_period pt now).1.1 = during ->
  exists p s e,
    get_current_period pt now = (during, Some p, Some (minutes_until e now)) /\
    pt !! p = Some (s, e) /\ in_window now (s, e) /\
    60000000 * minutes_until e now <= time_us e - time_us now
      < 60000000 * (minutes_until e now + 1) /\
    forall q w, pt !! q = Some w -> in_window now w -> p <= q.
Proof.
  intros Hst.
  destruct (get_current_period pt now) as [[st cur] m] eqn:Hcp. simpl in Hst. subst st.
  assert (pt <> ∅) as Hne.
  { intros ->. rewrite get_current_period_empty in Hcp. discriminate. }
  destruct (periods_sorted_ends pt Hne)
    as (p0 & s0 & e0 & l & pl & sl & el & Hps & Hlast & _).
  rewrite (get_current_period_eq _ now _ _ _ _ _ _ _ Hps Hlast) in Hcp.
  destruct (time_ltb now s0); [discriminate|].
  destruct (time_leb el now); [discriminate|].
  destruct (scan_during now (periods_sorted pt)) as [[p mm]|] eqn:Hscan.
  2:{ destruct (scan_between now (periods_sorted pt)); discriminate. }
  injection Hcp as <- <-.
  pose proof (scan_during_lowest _ _ _ _ (periods_sorted_strict pt) Hscan) as Hlow.
  apply scan_during_Some in Hscan as (s & e & Hin & Hw & ->).
  exists p, s, e. split; [reflexivity|].
  split; [apply elem_of_periods_sorted; exact Hin|]. split; [exact Hw|].
  split; [apply minutes_until_floor; destruct Hw; simpl in *; lia|].
  intros q w Hq. apply Hlow. apply elem_of_periods_sorted. exact Hq.
Qed.

(** Two overlapping windows: at 09:10 both hold the clock, and period 1
    is the one reported. *)
Lemma during_names_lowest_window_holding_now_witness :
  let pt : gmap Z window :=
    list_to_map [ (1, (hm 8 30, hm 9 15)); (2, (hm 9 0, hm 10 0)) ] in
  exists p s e,
    get_current_period pt (hm 9 10) = (during, Some p, Some (minutes_until e (hm 9 10))) /\
    pt !! p = Some (s, e) /\ in_window (hm 9 10) (s, e) /\
    60000000 * minutes_until e (hm 9 10) <= time_us e - time_us (hm 9 10)
      < 60000000 * (minutes_until e (hm 9 10) + 1) /\
    forall q w, pt !! q = Some w -> in_window (hm 9 10) w -> p <= q.
Proof.
  cbv zeta. apply during_names_lowest_window_holding_now. reflexivity.
Defined.

(** X2: a BETWEEN result means that no window holds [now], and names the
    lowest-numbered period among those that start after [now]. *)
Theorem between_names_lowest_period_ahead pt now :
  (get_current_period pt now).1.1 = between ->
  exists p s e,
    get_current_period pt now = (between, Some p, None) /\
    pt !! p = Some (s, e) /\ time_us now < time_us s /\
    (forall q w, pt !! q = Some w -> ~ in_window now w) /\
    (forall q w, pt !! q = Some w -> time_us now < time_us w.1 -> p <= q).
Proof.
  intros Hst.
  destruct (get_current_period pt now) as [[st cur] m] eqn:Hcp. simpl in Hst. subst st.
  assert (pt <> ∅) as Hne.
  { intros ->. rewrite get_current_period_empty in Hcp. discriminate. }
  destruct (periods_sorted_ends pt Hne)
    as (p0 & s0 & e0 & l & pl & sl & el & Hps & Hlast & _).
  rewrite (get_current_period_eq _ now _ _ _ _ _ _ _ Hps Hlast) in Hcp.
  destruct (time_ltb now s0); [discriminate|].
  destruct (time_leb el now); [discriminate|].
  destruct (scan_during now (periods_sorted pt)) as [[p mm]|] eqn:Hscan;
    [discriminate|].
  destruct (scan_between now (periods_sorted pt)) as [p|] eqn:Hbetween;
    [|discriminate].
  injection Hcp as <- <-.
  pose proof (scan_between_lowest _ _ _ (periods_sorted_strict pt) Hbetween) as Hlow.
  apply scan_between_Some in Hbetween as (l1 & [s e] & l2 & Hl & Hlt & _).
  exists p, s, e. split; [reflexivity|]. split.
  { apply elem_of_periods_sorted. rewrite Hl. apply elem_of_app. right. left. }
  split; [exact Hlt|]. split.
  - intros q w Hq. apply (scan_during_None _ _ Hscan q).
    apply elem_of_periods_sorted. exact Hq.
  - intros q w Hq. apply Hlow. apply elem_of_periods_sorted. exact Hq.
Qed.

(** A break from 09:15 to 09:30: at 09:20 period 2 is the one ahead. *)
Lemma between_names_lowest_period_ahead_witness :
  let pt : gmap Z window :=
    list_to_map [ (1, (hm 8 30, hm 9 15)); (2, (hm 9 30, hm 10 15));
                  (3, (hm 10 15, hm 11 0)) ] in
  exists p s e,
    get_current_period pt (hm 9 20) = (between, Some p, None) /\
    pt !! p = Some (s, e) /\ time_us (hm 9 20) < time_us s /\
    (forall q w, pt !! q = Some w -> ~ in_window (hm 9 20) w) /\
    (forall q w, pt !! q = Some w -> time_us (hm 9 20) < time_us w.1 -> p <= q).
Proof.
  cbv zeta. apply between_names_lowest_period_ahead. reflexivity.
Defined.

(** X3: on a non-empty table the phase is BEFORE exactly when [now] is
    before the start of the lowest-numbered period, and AFTER exactly when
    [now] is neither before that start nor before the end of the
    highest-numbered period; the last [return ('after', None, None)] of
    the function is never reached. *)
Theorem before_and_after_are_decided_by_the_end_periods pt now p0 s0 e0 pl sl el :
  pt !! p0 = Some (s0, e0) -> pt !! pl = Some (sl, el) ->
  (forall q w, pt !! q = Some w -> p0 <= q <= pl) ->
  ((get_current_period pt now).1.1 = before <-> time_us now < time_us s0) /\
  ((get_current_period pt now).1.1 = after <->
     time_us s0 <= time_us now /\ time_us el <= time_us now).
Proof.
  intros Hp0 Hpl Hrange.
  destruct (periods_sorted_ends_of pt p0 s0 e0 pl sl el Hp0 Hpl Hrange)
    as (l & Hps & Hlast).
  rewrite (get_current_period_eq _ now _ _ _ _ _ _ _ Hps Hlast).
  destruct (time_ltb now s0) eqn:H1.
  { apply time_ltb_lt in H1. simpl. split; split; try tauto; try discriminate. lia. }
  apply time_ltb_ge in H1.
  destruct (time_leb el now) eqn:H2.
  { apply time_leb_le in H2. simpl. split; split; try tauto; try discriminate. lia. }
  apply time_leb_gt in H2.
  destruct (scan_during now (periods_sorted pt)) as [[p mm]|] eqn:Hscan.
  { simpl. split; split; try discriminate; lia. }
  destruct (scan_between now (periods_sorted pt)) as [p|] eqn:Hbetween.
  { simpl. split; split; try discriminate; lia. }
  exfalso.
  assert ((pl, (sl, el)) ∈ periods_sorted pt) as Hin
    by (apply elem_of_periods_sorted; exact Hpl).
  pose proof (scan_between_None _ _ Hbetween _ _ Hin) as Hstart. simpl in Hstart.
  apply (scan_during_None _ _ Hscan _ _ Hin). split; simpl; lia.
Qed.

Lemma before_and_after_are_decided_by_the_end_periods_witness :
  ((get_current_period default_period_times (hm 12 0)).1.1 = before <->
     time_us (hm 12 0) < time_us (hm 8 30)) /\
  ((get_current_period default_period_times (hm 12 0)).1.1 = after <->
     time_us (hm 8 30) <= time_us (hm 12 0) /\ time_us (hm 14 30) <= time_us (hm 12 0)).
Proof.
  apply (before_and_after_are_decided_by_the_end_periods default_period_times
           (hm 12 0) 1 (hm 8 30) (hm 9 15) 8 (hm 13 45) (hm 14 30)).
  - reflexivity.
  - reflexivity.
  - intros q w Hq. pose proof (default_period_times_dom q w Hq) as Hin.
    unfold periods in Hin.
    repeat (apply elem_of_cons in Hin as [->|Hin]; [lia|]).
    apply elem_of_nil in Hin. contradiction.
Defined.

(** X4: [get_current_class] returns an entry only in the DURING phase,
    and then it is the entry of a row of this teacher, of today's weekday
    and of the running period, whose window holds [now]. *)
Theorem current_class_belongs_to_the_running_period
    pt timetable teacher_id now today e :
  get_current_class pt timetable teacher_id now today = Some e ->
  exists p w m r,
    get_current_period pt now = (during, Some p, m) /\
    pt !! p = Some w /\ in_window now w /\
    r ∈ timetable /\ e = entry_of_row r /\
    row_teacher_id r = teacher_id /\ row_day_of_week r = today /\
    period_number e = p.
Proof.
  unfold get_current_class.
  destruct (get_current_period pt now) as [[st cur] m] eqn:Hcp.
  destruct st; try discriminate. destruct cur as [p|]; [|discriminate].
  case_bool_decide; [discriminate|].
  destruct (fetchone timetable teacher_id today p) as [r|] eqn:Hf; [|discriminate].
  simpl. intros [= <-].
  pose proof (get_current_period_inv _ _ _ _ _ Hcp) as (p' & s & e' & [= <-] & Hp & Hw & _).
  apply fetchone_Some in Hf as (Hin & Ht & Hd & Hpn).
  exists p, (s, e'), m, r. repeat split; auto; apply Hw.
Qed.

Lemma current_class_belongs_to_the_running_period_witness :
  exists p w m r,
    get_current_period default_period_times (hm 9 20) = (during, Some p, m) /\
    default_period_times !! p = Some w /\ in_window (hm 9 20) w /\
    r ∈ [ mk_row 4 1 "Monday" 1 "9B" "Physics"; mk_row 5 1 "Monday" 2 "10A" "Maths" ] /\
    mk_entry 5 "10A" "Maths" 2 = entry_of_row r /\
    row_teacher_id r = 1 /\ row_day_of_week r = "Monday" /\
    period_number (mk_entry 5 "10A" "Maths" 2) = p.
Proof.
  apply (current_class_belongs_to_the_running_period default_period_times
           [ mk_row 4 1 "Monday" 1 "9B" "Physics"; mk_row 5 1 "Monday" 2 "10A" "Maths" ]
           1 (hm 9 20) "Monday").
  reflexivity.
Defined.

Lemma index_None x l : x ∉ l -> index x l = None.
Proof.
  intros Hx. unfold index.
  destruct (list_find (fun y => y = x) l) as [[i y]|] eqn:Hf; [|reflexivity].
  apply list_find_Some in Hf as (Hi & -> & _).
  exfalso. apply Hx. eapply list_elem_of_lookup_2. exact Hi.
Qed.

(** X5: when the running or upcoming period carries a number that is not
    one of [self.periods] (and is not 0), [ordered_periods.index] raises
    and the search falls back to position 0: the result is the entry of
    the first of all the periods 1..8 that has a row today, whatever the
    clock says. *)
Theorem unknown_period_number_restarts_the_search
    pt timetable teacher_id now today st p m :
  get_current_period pt now = (st, Some p, m) ->
  st = during \/ st = between ->
  p <> 0 -> p ∉ periods ->
  get_next_class pt timetable teacher_id now today
    = scan_entries timetable teacher_id today periods.
Proof.
  intros Hcp Hst Hp Hnot. unfold get_next_class. rewrite Hcp, ordered_periods_eq.
  f_equal. unfold start_index.
  destruct Hst as [-> | ->]; rewrite bool_decide_eq_false_2 by exact Hp;
    rewrite (index_None _ _ Hnot); reflexivity.
Qed.

(** An evening period numbered 9: while it runs, the next class shown is
    the morning's period 1. *)
Lemma unknown_period_number_restarts_the_search_witness :
  let pt : gmap Z window :=
    list_to_map [ (1, (hm 8 30, hm 9 15)); (9, (hm 15 0, hm 16 0)) ] in
  get_next_class pt [ mk_row 3 1 "Monday" 1 "10A" "Maths" ] 1 (hm 15 30) "Monday"
    = Some (mk_entry 3 "10A" "Maths" 1).
Proof.
  cbv zeta.
  refine (unknown_period_number_restarts_the_search _ _ 1 (hm 15 30) "Monday"
            during 9 (Some 30) _ _ _ _).
  - reflexivity.
  - left. reflexivity.
  - discriminate.
  - unfold periods. intros Hin.
    repeat (apply elem_of_cons in Hin as [Hin|Hin]; [discriminate|]).
    apply elem_of_nil in Hin. contradiction.
Defined.

End EngineMore.

(** ** More on the timing editor *)

Module TimingsMore.

Import EngineFacts AppFacts.

Lemma update_lookup_notin new_map (pt : gmap Z window) p :
  p ∉ new_map.*1 -> update new_map pt !! p = pt !! p.
Proof.
  revert pt. induction new_map as [|[q w] rest IH]; intros pt Hp; [reflexivity|].
  rewrite fmap_cons in Hp.
  apply not_elem_of_cons in Hp as [Hne Hp]. simpl in Hne.
  simpl. rewrite (IH _ Hp). apply lookup_insert_ne. congruence.
Qed.

Lemma update_lookup_in new_map (pt : gmap Z window) p w :
  NoDup (new_map.*1) -> (p, w) ∈ new_map -> update new_map pt !! p = Some w.
Proof.
  revert pt. induction new_map as [|[q w0] rest IH]; intros pt Hnd Hin.
  { apply elem_of_nil in Hin. contradiction. }
  rewrite fmap_cons in Hnd. apply NoDup_cons in Hnd as [Hq Hnd]. simpl in Hq.
  simpl. apply elem_of_cons in Hin as [[= -> ->]|Hin].
  - rewrite (update_lookup_notin _ _ _ Hq). apply lookup_insert_eq.
  - apply IH; assumption.
Qed.

Lemma persist_lookup_notin new_map (db : gmap Z (string * string)) p :
  p ∉ new_map.*1 -> persist new_map db !! p = db !! p.
Proof.
  revert db. induction new_map as [|[q [s e]] rest IH]; intros db Hp; [reflexivity|].
  rewrite fmap_cons in Hp. apply not_elem_of_cons in Hp as [Hne Hp]. simpl in Hne.
  simpl. unfold persist in IH. rewrite (IH _ Hp). apply lookup_insert_ne. congruence.
Qed.

Lemma persist_lookup_in new_map (db : gmap Z (string * string)) p w :
  NoDup (new_map.*1) -> (p, w) ∈ new_map ->
  persist new_map db !! p = Some (fmt_window w).
Proof.
  revert db. induction new_map as [|[q [s e]] rest IH]; intros db Hnd Hin.
  { apply elem_of_nil in Hin. contradiction. }
  rewrite fmap_cons in Hnd. apply NoDup_cons in Hnd as [Hq Hnd]. simpl in Hq.
  apply elem_of_cons in Hin as [[= -> ->]|Hin].
  - change (persist ((q, (s, e)) :: rest) db)
      with (persist rest (<[q := (strftime_HM s, strftime_HM e)]> db)).
    rewrite (persist_lookup_notin _ _ _ Hq). apply lookup_insert_eq.
  - change (persist ((q, (s, e)) :: rest) db)
      with (persist rest (<[q := (strftime_HM s, strftime_HM e)]> db)).
    apply IH; assumption.
Qed.

(** Persisting a batch and updating the schedule with it commute with
    formatting. *)
Lemma persist_fmt new_map (pt : gmap Z window) :
  persist new_map (fmt_window <$> pt) = fmt_window <$> update new_map pt.
Proof.
  revert pt. induction new_map as [|[q [s e]] rest IH]; intros pt; [reflexivity|].
  change (persist ((q, (s, e)) :: rest) (fmt_window <$> pt))
    with (persist rest (<[q := fmt_window (s, e)]> (fmt_window <$> pt))).
  rewrite <- fmap_insert. apply IH.
Qed.

Lemma period_times_update_current_status clk a :
  period_times (update_current_status clk a) = period_times a.
Proof. unfold update_current_status. repeat case_match; reflexivity. Qed.

Lemma db_period_times_update_current_status clk a :
  db_period_times (update_current_status clk a) = db_period_times a.
Proof. unfold update_current_status. repeat case_match; reflexivity. Qed.

Section accepted.

Variable strip : string -> string.
Variable fromisoformat : string -> option ptime.

Lemma naive_windows_lift (result : list (Z * window)) :
  naive_windows (naive_entries result) = Some result /\
  wall_windows (naive_entries result) = result.
Proof.
  unfold naive_entries.
  induction result as [|[q [s e]] rest [IH1 IH2]]; [split; reflexivity|].
  split.
  - rewrite fmap_cons. cbn [naive_windows]. rewrite IH1. reflexivity.
  - unfold wall_windows in *. rewrite !fmap_cons, IH2. reflexivity.
Qed.

Lemma validate_accepted entries :
  Forall (fun x => exists y, parsed strip fromisoformat x y) entries ->
  forall new_map, exists result,
    validate strip fromisoformat entries new_map
      = accept (new_map ++ naive_entries result) /\
    Forall2 (parsed strip fromisoformat) entries result.
Proof.
  induction entries as [|[pnum [s_e e_e]] rest IH]; intros Hall new_map.
  { exists []. simpl. rewrite app_nil_r. split; [reflexivity|constructor]. }
  apply Forall_cons in Hall as [([q [s_t e_t]] & Hq & Hs & He & Hlt) Hall].
  simpl in Hq, Hs, He, Hlt. subst q. simpl. rewrite Hs, He, time_ge_naive.
  assert (time_leb e_t s_t = false) as -> by (apply time_leb_gt; exact Hlt).
  destruct (IH Hall (new_map ++ [(pnum, (naive s_t, naive e_t))])) as (result & Hv & Hf2).
  exists ((pnum, (s_t, e_t)) :: result). split.
  - rewrite Hv. f_equal. rewrite <- app_assoc. reflexivity.
  - constructor; [|exact Hf2]. unfold parsed. simpl. auto.
Qed.

Lemma parsed_keys entries result :
  Forall2 (parsed strip fromisoformat) entries result -> result.*1 = entries.*1.
Proof.
  induction 1 as [|x y l l' Hxy _ IH]; [reflexivity|].
  rewrite !fmap_cons, IH. destruct Hxy as [-> _]. reflexivity.
Qed.

Lemma parsed_elem entries result x :
  Forall2 (parsed strip fromisoformat) entries result -> x ∈ entries ->
  exists y, y ∈ result /\ parsed strip fromisoformat x y.
Proof.
  induction 1 as [|x0 y0 l l' Hxy _ IH]; intros Hin.
  { apply elem_of_nil in Hin. contradiction. }
  apply elem_of_cons in Hin as [->|Hin].
  - exists y0. split; [left|exact Hxy].
  - destruct (IH Hin) as (y & Hy & Hp). exists y. split; [right; exact Hy|exact Hp].
Qed.

(** X6: a batch in which every text parses to a time without UTC offset
    and every period has its start before its end is accepted as a whole:
    every period of the batch gets its parsed window in the schedule and
    its HH:MM texts in the persisted table, every other period keeps what
    it had in both, and the dialog reports success. *)
Theorem accepted_batch_is_saved entries clk a :
  Forall (fun x => exists y, parsed strip fromisoformat x y) entries ->
  NoDup (entries.*1) ->
  exists a',
    save_timings strip fromisoformat entries clk a
      = stored a' (showinfo "Success" "Period timings updated.") /\
    (forall p, p ∉ entries.*1 ->
       period_times a' !! p = period_times a !! p /\
       db_period_times a' !! p = db_period_times a !! p) /\
    (forall p s_e e_e, (p, (s_e, e_e)) ∈ entries ->
       exists s_t e_t,
         fromisoformat (strip s_e) = Some (naive s_t) /\
         fromisoformat (strip e_e) = Some (naive e_t) /\
         time_us s_t < time_us e_t /\
         period_times a' !! p = Some (s_t, e_t) /\
         db_period_times a' !! p = Some (strftime_HM s_t, strftime_HM e_t)).
Proof.
  intros Hall Hnd.
  destruct (validate_accepted entries Hall []) as (result & Hv & Hf2).
  simpl in Hv. pose proof (parsed_keys _ _ Hf2) as Hkeys.
  destruct (naive_windows_lift result) as [Hn Hw].
  unfold save_timings. rewrite Hv. cbv zeta. rewrite Hn, Hw.
  eexists. split; [reflexivity|].
  rewrite period_times_update_current_status, db_period_times_update_current_status.
  simpl. split.
  - intros p Hp. rewrite <- Hkeys in Hp.
    split; [apply update_lookup_notin|apply persist_lookup_notin]; exact Hp.
  - intros p s_e e_e Hin.
    destruct (parsed_elem _ _ _ Hf2 Hin) as ([q [s_t e_t]] & Hy & Hq & Hs & He & Hlt).
    simpl in Hq, Hs, He, Hlt. subst q. exists s_t, e_t.
    rewrite <- Hkeys in Hnd. repeat split; auto.
    + apply update_lookup_in; assumption.
    + apply (persist_lookup_in _ _ _ (s_t, e_t)); assumption.
Qed.

Lemma naive_windows_wall new_map windows :
  naive_windows new_map = Some windows -> wall_windows new_map = windows.
Proof.
  revert windows. induction new_map as [|[pnum w] rest IH]; intros windows; simpl.
  { intros [= <-]. reflexivity. }
  destruct (naive_window w) as [w'|] eqn:Hw; [|discriminate].
  destruct (naive_windows rest) as [rest'|]; [|discriminate].
  intros [= <-]. rewrite (IH rest' eq_refl).
  apply naive_window_Some in Hw. subst w. destruct w'. reflexivity.
Qed.

(** X7: the persisted table mirrors the schedule, and [save_timings]
    keeps it so.  If every period is persisted as the HH:MM texts of its
    window before the call, the same holds after an accepted batch; a
    refused batch and one that ends in TypeError change neither.  When
    the accepted batch brings a time with a UTC offset into the schedule,
    the table holds the HH:MM texts of the fields of the times in the
    schedule. *)
Theorem persisted_table_mirrors_schedule entries clk a :
  db_period_times a = fmt_window <$> period_times a ->
  (forall a' msg,
     save_timings strip fromisoformat entries clk a = stored a' msg ->
     db_period_times a' = fmt_window <$> period_times a') /\
  (forall db new_map msg,
     save_timings strip fromisoformat entries clk a = stored_aware db new_map msg ->
     db = fmt_window <$> update (wall_windows new_map) (period_times a)).
Proof.
  intros Hm. unfold save_timings.
  destruct (validate strip fromisoformat entries []) as [err| |new_map];
    [split; discriminate..|].
  cbv zeta. destruct (naive_windows new_map) as [windows|] eqn:Hn; split;
    try discriminate.
  - intros a' msg [= <- _].
    rewrite period_times_update_current_status, db_period_times_update_current_status.
    simpl. rewrite Hm, (naive_windows_wall _ _ Hn). apply persist_fmt.
  - intros db nm msg [= <- <- _]. rewrite Hm. apply persist_fmt.
Qed.

(** Without a UTC offset in the batch the comparison never raises. *)
Lemma validate_naive entries new_map :
  Forall (fun x : Z * (string * string) =>
            forall t, fromisoformat (strip x.2.1) = Some t \/
                      fromisoformat (strip x.2.2) = Some t ->
                      utcoffset t = None) entries ->
  validate strip fromisoformat entries new_map <> type_error.
Proof.
  revert new_map. induction entries as [|[pnum [s_e e_e]] rest IH];
    intros new_map Hall; simpl; [discriminate|].
  apply Forall_cons in Hall as [Hx Hall]. simpl in Hx.
  destruct (fromisoformat (strip s_e)) as [s_t|] eqn:Hs; [|discriminate].
  destruct (fromisoformat (strip e_e)) as [e_t|] eqn:He; [|discriminate].
  unfold time_ge. rewrite (Hx s_t), (Hx e_t) by auto.
  destruct (time_leb (wall e_t) (wall s_t)); [discriminate|]. apply IH. exact Hall.
Qed.

(** X29: a batch with a period whose texts do not parse, or whose
    comparison does not answer that the start is before the end, is never
    stored.  [save_timings] ends at the first such period before anything
    is written: either with the Validation Error box, whose text names a
    period of the batch that does not pass, or with the TypeError of
    comparing a time that has a UTC offset with one that has none.  When
    no text of the batch parses to a time with an offset it ends with the
    box. *)
Theorem invalid_batch_is_never_stored entries clk a :
  Exists (invalid_entry strip fromisoformat) entries ->
  (save_timings strip fromisoformat entries clk a = raised_TypeError \/
   exists pnum s_e e_e msg,
     save_timings strip fromisoformat entries clk a
       = refused (showerror "Validation Error" msg) /\
     (pnum, (s_e, e_e)) ∈ entries /\
     invalid_entry strip fromisoformat (pnum, (s_e, e_e)) /\
     (msg = "Start time must be before end time for period " +:+ pretty pnum +:+ "."
      \/ msg = "Invalid time format for period " +:+ pretty pnum
                 +:+ ". Use HH:MM (24-hour).")) /\
  (Forall (fun x : Z * (string * string) =>
             forall t, fromisoformat (strip x.2.1) = Some t \/
                       fromisoformat (strip x.2.2) = Some t ->
                       utcoffset t = None) entries ->
   save_timings strip fromisoformat entries clk a <> raised_TypeError).
Proof.
  intros Hex. unfold save_timings. split.
  - destruct (validate_rejects strip fromisoformat entries Hex [])
      as [->|(pnum & s_e & e_e & msg & -> & Hrest)]; [left; reflexivity|].
    right. exists pnum, s_e, e_e, msg. split; [reflexivity|exact Hrest].
  - intros Hnaive. pose proof (validate_naive entries [] Hnaive) as Hne.
    destruct (validate strip fromisoformat entries []) as [err| |new_map];
      [discriminate|contradiction|].
    cbv zeta. destruct (naive_windows new_map); discriminate.
Qed.

End accepted.

Lemma accepted_batch_is_saved_witness :
  let entries := [ (1, ("08:00", "08:50")); (2, (" 09:00", "09:50 ")) ] in
  let a := init_app "#d9d9d9" [] in
  let clk := mk_clock (hm 7 0) "Monday" in
  exists a',
    save_timings strip_ascii parse_iso entries clk a
      = stored a' (showinfo "Success" "Period timings updated.") /\
    period_times a' !! 2 = Some (hm 9 0, hm 9 50) /\
    db_period_times a' !! 2 = Some ("09:00", "09:50") /\
    period_times a' !! 3 = Some (hm 10 0, hm 10 45).
Proof.
  cbv zeta.
  destruct (accepted_batch_is_saved strip_ascii parse_iso
              [ (1, ("08:00", "08:50")); (2, (" 09:00", "09:50 ")) ]
              (mk_clock (hm 7 0) "Monday") (init_app "#d9d9d9" []))
    as (a' & Hsave & Hother & Hbatch).
  - apply Forall_cons. split; [|apply Forall_cons; split; [|constructor]].
    + exists (1, (hm 8 0, hm 8 50)). unfold parsed. repeat split; reflexivity.
    + exists (2, (hm 9 0, hm 9 50)). unfold parsed. repeat split; reflexivity.
  - by_decide.
  - exists a'. split; [exact Hsave|].
    destruct (Hbatch 2 " 09:00" "09:50 ") as (s_t & e_t & Hs & He & _ & Hpt & Hdb).
    { right. left. }
    injection Hs as <-. injection He as <-.
    split; [exact Hpt|]. split; [exact Hdb|].
    destruct (Hother 3) as [H3 _]; [by_decide|].
    rewrite H3. reflexivity.
Defined.

(** Period 2 of this batch starts at 10:00 and ends at 09:15, period 3
    does not parse: the batch is refused at period 2. *)
Lemma invalid_batch_is_never_stored_witness :
  let entries := [ (1, ("08:30", " 09:15 ")); (2, ("10:00", "09:15"));
                   (3, ("soon", "11:00")) ] in
  save_timings strip_ascii parse_iso entries (mk_clock (hm 7 0) "Monday")
    (init_app "#d9d9d9" [])
    = refused (showerror "Validation Error"
                 "Start time must be before end time for period 2.") /\
  (save_timings strip_ascii parse_iso entries (mk_clock (hm 7 0) "Monday")
     (init_app "#d9d9d9" []) = raised_TypeError \/
   exists pnum s_e e_e msg,
     save_timings strip_ascii parse_iso entries (mk_clock (hm 7 0) "Monday")
       (init_app "#d9d9d9" [])
       = refused (showerror "Validation Error" msg) /\
     (pnum, (s_e, e_e)) ∈ entries /\
     invalid_entry strip_ascii parse_iso (pnum, (s_e, e_e)) /\
     (msg = "Start time must be before end time for period " +:+ pretty pnum +:+ "."
      \/ msg = "Invalid time format for period " +:+ pretty pnum
                 +:+ ". Use HH:MM (24-hour).")).
Proof.
  cbv zeta. split; [vm_compute; reflexivity|].
  apply (invalid_batch_is_never_stored strip_ascii parse_iso).
  apply Exists_cons. right. apply Exists_cons. left.
  vm_compute. discriminate.
Defined.

Lemma persisted_table_mirrors_schedule_witness :
  let a := set_db_period_times (fmt_window <$> default_period_times)
             (init_app "#d9d9d9" []) in
  (forall a' msg,
     save_timings strip_ascii parse_iso
       [ (1, ("08:00", "08:50")) ] (mk_clock (hm 7 0) "Monday") a = stored a' msg ->
     db_period_times a' = fmt_window <$> period_times a') /\
  (forall db new_map msg,
     save_timings strip_ascii parse_iso
       [ (1, ("08:00", "08:50")) ] (mk_clock (hm 7 0) "Monday") a
       = stored_aware db new_map msg ->
     db = fmt_window <$> update (wall_windows new_map) (period_times a)).
Proof.
  cbv zeta. apply persisted_table_mirrors_schedule. reflexivity.
Defined.

Lemma db_rows_elem (db : gmap Z (string * string)) p r :
  (p, r) ∈ db_rows db <-> db !! p = Some r.
Proof.
  unfold db_rows. rewrite merge_sort_Permutation. apply elem_of_map_to_list.
Qed.

Lemma db_rows_NoDup (db : gmap Z (string * string)) : NoDup ((db_rows db).*1).
Proof.
  unfold db_rows. rewrite merge_sort_Permutation. apply NoDup_fst_map_to_list.
Qed.

Lemma periods_sorted_NoDup (pt : gmap Z window) : NoDup ((periods_sorted pt).*1).
Proof.
  rewrite SortedFacts.periods_sorted_perm. apply NoDup_fst_map_to_list.
Qed.

(** Filling an empty persisted table from the schedule. *)
Lemma persist_schedule (pt : gmap Z window) :
  persist (periods_sorted pt) ∅ = fmt_window <$> pt.
Proof.
  apply map_eq. intros p. rewrite lookup_fmap.
  destruct (pt !! p) as [w|] eqn:Hp; simpl.
  - apply persist_lookup_in; [apply periods_sorted_NoDup|].
    apply SortedFacts.elem_of_periods_sorted. exact Hp.
  - rewrite persist_lookup_notin; [apply lookup_empty|].
    intros Hin. apply list_elem_of_fmap in Hin as ([q w] & -> & Hin).
    apply SortedFacts.elem_of_periods_sorted in Hin. simpl in Hp. congruence.
Qed.

Section loading.

Variable fromisoformat : string -> option time.

Lemma load_row_lookup pt acc q r p :
  load_row fromisoformat pt acc (q, r) !! p =
    if decide (p = q)
    then match loaded_window fromisoformat pt q r with
         | Some w => Some w
         | None => acc !! p
         end
    else acc !! p.
Proof.
  destruct r as [start_s end_s]. unfold load_row, loaded_window. simpl.
  destruct (fromisoformat start_s) as [s|];
    [destruct (fromisoformat end_s) as [e|]|];
    try destruct (pt !! q) as [w|];
    case_decide; subst;
    rewrite ?lookup_insert_eq, ?lookup_insert_ne by congruence; reflexivity.
Qed.

Lemma fold_load_row_lookup pt rows acc p :
  NoDup (rows.*1) ->
  (forall r, (p, r) ∈ rows ->
     fold_left (load_row fromisoformat pt) rows acc !! p =
       match loaded_window fromisoformat pt p r with
       | Some w => Some w
       | None => acc !! p
       end) /\
  (p ∉ rows.*1 -> fold_left (load_row fromisoformat pt) rows acc !! p = acc !! p).
Proof.
  revert acc. induction rows as [|[q r0] rest IH]; intros acc Hnd.
  { split; [intros r Hin; apply elem_of_nil in Hin; contradiction|reflexivity]. }
  rewrite fmap_cons in Hnd. apply NoDup_cons in Hnd as [Hq Hnd]. simpl in Hq.
  destruct (IH (load_row fromisoformat pt acc (q, r0)) Hnd) as [IHin IHout].
  cbn [fold_left]. split.
  - intros r Hin. apply elem_of_cons in Hin as [[= -> ->]|Hin].
    + rewrite (IHout Hq), load_row_lookup, decide_True by reflexivity. reflexivity.
    + rewrite (IHin r Hin), load_row_lookup.
      rewrite decide_False; [reflexivity|].
      intros ->. apply Hq. apply list_elem_of_fmap. exists (q, r). auto.
  - rewrite fmap_cons. intros Hp. apply not_elem_of_cons in Hp as [Hne Hp].
    rewrite (IHout Hp), load_row_lookup, decide_False by exact Hne. reflexivity.
Qed.

Lemma loaded_rows pt (db : gmap Z (string * string)) :
  fold_left (load_row fromisoformat pt) (db_rows db) ∅
    = map_imap (loaded_window fromisoformat pt) db.
Proof.
  apply map_eq. intros p. rewrite map_lookup_imap.
  destruct (fold_load_row_lookup pt (db_rows db) ∅ p (db_rows_NoDup db))
    as [Hin Hout].
  destruct (db !! p) as [r|] eqn:Hp; simpl.
  - rewrite (Hin r) by (apply db_rows_elem; exact Hp).
    rewrite lookup_empty. destruct (loaded_window fromisoformat pt p r); reflexivity.
  - rewrite Hout; [apply lookup_empty|].
    intros Hin'. apply list_elem_of_fmap in Hin' as ([q r] & -> & Hin').
    apply db_rows_elem in Hin'. simpl in Hp. congruence.
Qed.

(** X10: [load_period_times] replaces the schedule by what the persisted
    rows give: each persisted period gets its parsed window, or, when its
    texts do not parse, the window it had in memory (it is dropped when it
    had none); a period that is not persisted is dropped; and when this
    leaves no period at all the schedule is kept as it was. *)
Theorem loaded_schedule_follows_the_persisted_rows a :
  let a' := load_period_times fromisoformat a in
  let m := map_imap (loaded_window fromisoformat (period_times a))
             (db_period_times a') in
  (m <> ∅ ->
     forall p, period_times a' !! p =
       db_period_times a' !! p ≫= loaded_window fromisoformat (period_times a) p) /\
  (m = ∅ -> period_times a' = period_times a).
Proof.
  cbv zeta. unfold load_period_times. cbv zeta.
  set (db := if bool_decide (size (db_period_times a) = 0%nat)
                && negb (bool_decide (period_times a = ∅))
             then persist (periods_sorted (period_times a)) (db_period_times a)
             else db_period_times a).
  rewrite loaded_rows.
  case_bool_decide as Hm; simpl.
  - split; [intros Hne; contradiction|reflexivity].
  - split; [|intros He; contradiction].
    intros _ p. rewrite map_lookup_imap. reflexivity.
Qed.

(** X11: start-up and restart keep the schedule.  When the persisted
    table is empty, or mirrors the schedule in memory, and the times of the
    schedule survive being written as HH:MM and read back,
    [load_period_times] leaves the schedule as it is and the persisted
    table mirrors it afterwards. *)
Theorem loading_keeps_a_mirrored_schedule a :
  db_period_times a = ∅ \/ db_period_times a = fmt_window <$> period_times a ->
  round_trips fromisoformat (period_times a) ->
  period_times (load_period_times fromisoformat a) = period_times a /\
  db_period_times (load_period_times fromisoformat a)
    = fmt_window <$> period_times a.
Proof.
  intros Hdb Hrt. unfold load_period_times. cbv zeta.
  set (db := if bool_decide (size (db_period_times a) = 0%nat)
                && negb (bool_decide (period_times a = ∅))
             then persist (periods_sorted (period_times a)) (db_period_times a)
             else db_period_times a).
  assert (db = fmt_window <$> period_times a) as Hmirror.
  { unfold db. destruct Hdb as [Hdb|Hdb].
    - rewrite Hdb. rewrite map_size_empty. rewrite bool_decide_eq_true_2 by reflexivity.
      case_bool_decide as Hpt; simpl.
      + rewrite Hpt, fmap_empty. reflexivity.
      + apply persist_schedule.
    - case_bool_decide as Hsz; simpl; [|exact Hdb].
      apply map_size_empty_iff in Hsz.
      case_bool_decide as Hpt; simpl; [exact Hdb|].
      rewrite Hsz. apply persist_schedule. }
  rewrite loaded_rows.
  assert (map_imap (loaded_window fromisoformat (period_times a)) db = period_times a)
    as Hsame.
  { apply map_eq. intros p. rewrite map_lookup_imap, Hmirror, lookup_fmap.
    destruct (period_times a !! p) as [[s e]|] eqn:Hp; [|reflexivity]. simpl.
    destruct (Hrt p (s, e) Hp) as [Hs He]. simpl in Hs, He.
    unfold loaded_window, fmt_window. simpl. rewrite Hs, He. reflexivity. }
  rewrite Hsame. case_bool_decide as He; simpl; auto.
Qed.

End loading.

Lemma default_period_times_round_trips : round_trips parse_hhmm default_period_times.
Proof. unfold round_trips. by_decide. Qed.

(** A persisted table with period 1 readable, period 2 unreadable and
    period 9 unreadable: period 1 is taken from the table, period 2 keeps
    its window in memory, period 9 and the periods 3..8 are gone. *)
Lemma loaded_schedule_follows_the_persisted_rows_witness :
  let a := set_db_period_times
             (list_to_map [ (1, ("08:00", "08:50")); (2, ("nine", "10:00"));
                            (9, ("15:00", "late")) ])
             (init_app "#d9d9d9" []) in
  let a' := load_period_times parse_hhmm a in
  period_times a' !! 1 = Some (hm 8 0, hm 8 50) /\
  period_times a' !! 2 = Some (hm 9 15, hm 10 0) /\
  period_times a' !! 9 = None /\ period_times a' !! 3 = None.
Proof.
  cbv zeta.
  destruct (loaded_schedule_follows_the_persisted_rows parse_hhmm
              (set_db_period_times
                 (list_to_map [ (1, ("08:00", "08:50")); (2, ("nine", "10:00"));
                                (9, ("15:00", "late")) ])
                 (init_app "#d9d9d9" []))) as [Hload _].
  assert (map_imap (loaded_window parse_hhmm default_period_times)
            (list_to_map [ (1, ("08:00", "08:50")); (2, ("nine", "10:00"));
                           (9, ("15:00", "late")) ] : gmap Z (string * string)) <> ∅)
    as Hne.
  { intros H. apply (f_equal (fun m => m !! 1)) in H. vm_compute in H. discriminate. }
  rewrite !(Hload Hne). repeat split; vm_compute; reflexivity.
Defined.

Lemma loading_keeps_a_mirrored_schedule_witness :
  period_times (load_period_times parse_hhmm (init_app "#d9d9d9" []))
    = default_period_times /\
  db_period_times (load_period_times parse_hhmm (init_app "#d9d9d9" []))
    = fmt_window <$> default_period_times.
Proof.
  apply (loading_keeps_a_mirrored_schedule parse_hhmm (init_app "#d9d9d9" [])).
  - left. reflexivity.
  - exact default_period_times_round_trips.
Defined.

(** X28: the timing editor keeps every window with its start before its
    end, as long as it stores times without UTC offset.  If that holds of
    the schedule before [save_timings] and the batch is stored in a
    schedule of times without offset, it holds of the schedule
    afterwards, for the periods of the batch and for the others (a
    refused batch and one that ends in TypeError leave the schedule as it
    was). *)
Theorem save_timings_keeps_start_before_end
    (strip : string -> string) (fromisoformat : string -> option ptime)
    entries clk a a' msg :
  valid_windows (period_times a) ->
  save_timings strip fromisoformat entries clk a = stored a' msg ->
  valid_windows (period_times a').
Proof. apply stored_batch_keeps_windows_valid. Qed.

(** Period 2 is moved to 09:00-09:50 on the default table. *)
Lemma save_timings_keeps_start_before_end_witness :
  exists a' msg,
    save_timings strip_ascii parse_iso
      [ (2, (" 09:00", "09:50 ")) ] (mk_clock (hm 7 0) "Monday")
      (init_app "#d9d9d9" []) = stored a' msg /\
    valid_windows (period_times a').
Proof.
  assert (match save_timings strip_ascii parse_iso
                  [ (2, (" 09:00", "09:50 ")) ] (mk_clock (hm 7 0) "Monday")
                  (init_app "#d9d9d9" []) with
          | stored _ _ => true
          | _ => false
          end = true) as Hstored by (vm_compute; reflexivity).
  destruct (save_timings strip_ascii parse_iso
              [ (2, (" 09:00", "09:50 ")) ] (mk_clock (hm 7 0) "Monday")
              (init_app "#d9d9d9" [])) as [err| |a' msg|db new_map msg] eqn:Hs;
    try discriminate.
  exists a', msg. split; [reflexivity|].
  apply (save_timings_keeps_start_before_end strip_ascii parse_iso
           [ (2, (" 09:00", "09:50 ")) ] (mk_clock (hm 7 0) "Monday")
           (init_app "#d9d9d9" []) a' msg); [|exact Hs].
  unfold valid_windows. by_decide.
Defined.


End TimingsMore.

(** ** More on the timers *)

Module TimerMore.

Import EngineFacts TimerFacts BlinkFacts.

(** Outside the DURING phase, and with no teacher selected,
    [update_highlight] stops after the reset of the colours. *)
Lemma update_highlight_outside_a_period a clk :
  current_teacher_id a = None \/
  (get_current_period (period_times a) (now_time clk)).1.1 <> during ->
  update_highlight clk a
    = set_grid_buttons (config_bg (default_btn_bg a) <$> grid_buttons a) a.
Proof.
  intros H. unfold update_highlight. cbv zeta. simpl.
  destruct (current_teacher_id a) as [t|]; [|reflexivity].
  destruct H as [H|H]; [discriminate|].
  destruct (get_current_period (period_times a) (now_time clk)) as [[st cur] m].
  simpl in H. destruct st; try reflexivity. contradiction.
Qed.

(** X8: when the period is over (any phase but DURING) or no teacher is
    selected, the highlight refresh only resets the cell colours: a blink
    that is running is not stopped.  Its callback stays pending and the
    blink target stays set; the next run of the callback toggles the old
    target cell again, to the highlight colour when the blink state was
    off and to the colour recorded in [_orig_bg] (the default colour when
    none is recorded) when it was on, and arms the blink once more. *)
Theorem highlight_refresh_outside_a_period_keeps_blinking a clk clk' i k b :
  current_teacher_id a = None \/
  (get_current_period (period_times a) (now_time clk)).1.1 <> during ->
  tk_pending a !! i = Some (500, cb_blink_highlight) ->
  current_highlight_btn a = Some k ->
  grid_buttons a !! k = Some b ->
  tk_pending (update_highlight clk a) !! i = Some (500, cb_blink_highlight) /\
  _blink_after_id (update_highlight clk a) = _blink_after_id a /\
  current_highlight_btn (update_highlight clk a) = Some k /\
  blink_state (update_highlight clk a) = blink_state a /\
  bg <$> grid_buttons (update_highlight clk a) !! k = Some (default_btn_bg a) /\
  bg <$> grid_buttons (fire i clk' (update_highlight clk a)) !! k
    = Some (if blink_state a then default (default_btn_bg a) (_orig_bg b)
            else highlight_color) /\
  tk_pending (fire i clk' (update_highlight clk a)) !! tk_next_id a
    = Some (500, cb_blink_highlight).
Proof.
  intros Hout Hi Hk Hb.
  rewrite (update_highlight_outside_a_period a clk Hout). simpl.
  split; [exact Hi|]. split; [reflexivity|]. split; [exact Hk|].
  split; [reflexivity|].
  split; [rewrite lookup_fmap, Hb; reflexivity|].
  unfold fire. simpl. rewrite Hi. cbv zeta.
  erewrite blink_highlight_arm by (simpl; exact Hk). cbv zeta. simpl.
  unfold on_highlight_btn. simpl. rewrite Hk. simpl.
  rewrite lookup_alter_eq, lookup_fmap, Hb, lookup_insert_eq.
  split; [|reflexivity].
  destruct (blink_state a); reflexivity.
Qed.

(** The blink armed on Monday at 08:40 is still running, and recolours
    its cell, after the highlight refresh of 15:00. *)
Lemma highlight_refresh_outside_a_period_keeps_blinking_witness :
  let a := update_highlight (mk_clock (hm 8 40) "Monday")
             (run (ev_select (Some 1))
                (init_app "#d9d9d9" [ mk_row 1 1 "Monday" 1 "10A" "Maths" ])) in
  let clk := mk_clock (hm 15 0) "Monday" in
  tk_pending (update_highlight clk a) !! 0%nat = Some (500, cb_blink_highlight) /\
  _blink_after_id (update_highlight clk a) = _blink_after_id a /\
  current_highlight_btn (update_highlight clk a) = Some ("Monday", 1) /\
  blink_state (update_highlight clk a) = blink_state a /\
  bg <$> grid_buttons (update_highlight clk a) !! ("Monday", 1)
    = Some (default_btn_bg a) /\
  bg <$> grid_buttons (fire 0 clk (update_highlight clk a)) !! ("Monday", 1)
    = Some (if blink_state a
            then default (default_btn_bg a) (_orig_bg (mk_button "#d9d9d9" (Some "#d9d9d9")))
            else highlight_color) /\
  tk_pending (fire 0 clk (update_highlight clk a)) !! tk_next_id a
    = Some (500, cb_blink_highlight).
Proof.
  cbv zeta.
  apply (highlight_refresh_outside_a_period_keeps_blinking _
           (mk_clock (hm 15 0) "Monday") (mk_clock (hm 15 0) "Monday") 0%nat
           ("Monday", 1) (mk_button "#d9d9d9" (Some "#d9d9d9"))).
  - right. vm_compute. discriminate.
  - vm_compute. reflexivity.
  - vm_compute. reflexivity.
  - vm_compute. reflexivity.
Defined.

Lemma blink_has_target_same a b :
  tk_pending a = tk_pending b -> current_highlight_btn a = current_highlight_btn b ->
  blink_has_target a -> blink_has_target b.
Proof.
  unfold blink_has_target, no_live. intros Hp Hc. rewrite <- Hp, <- Hc. tauto.
Qed.

Lemma pending_cells_timers a b :
  timers a = timers b -> cells a = cells b ->
  tk_pending a = tk_pending b /\ current_highlight_btn a = current_highlight_btn b.
Proof. unfold timers, cells. intros [= -> _ _ _ _] [= _ _ ->]. auto. Qed.

Lemma update_highlight_has_target clk a :
  tracked a -> blink_has_target a -> blink_has_target (update_highlight clk a).
Proof.
  intros Ht Hq. unfold update_highlight. cbv zeta.
  set (a0 := set_grid_buttons _ a).
  assert (blink_has_target a0) as Hq0
    by (eapply blink_has_target_same; [| |exact Hq]; reflexivity).
  assert (tracked a0) as Ht0 by (eapply tracked_same; [|exact Ht]; reflexivity).
  repeat case_match; try exact Hq0.
  - right.
    match goal with |- is_Some (current_highlight_btn (start_blink_animation ?x)) =>
      assert (resting_target : current_highlight_btn (start_blink_animation x)
                               = current_highlight_btn x) end.
    { rewrite start_blink_animation_arm. cbv zeta. simpl.
      unfold on_highlight_btn, stop_blink_animation, on_highlight_btn. simpl.
      repeat case_match; reflexivity. }
    rewrite resting_target. simpl. eauto.
  - left. apply stop_blink_animation_tracked. exact Ht0.
Qed.

Lemma current_highlight_btn_stop cb a :
  current_highlight_btn (stop cb a) = current_highlight_btn a.
Proof.
  destruct cb; simpl; unfold stop_auto_update_status, stop_auto_update_highlight,
    stop_blink_animation, on_highlight_btn; simpl; repeat case_match; reflexivity.
Qed.

Lemma stop_has_target cb a :
  blink_has_target a -> blink_has_target (stop cb a).
Proof.
  intros [Hno|Hsome].
  - left. apply stop_no_live. exact Hno.
  - right. rewrite current_highlight_btn_stop. exact Hsome.
Qed.

Lemma arm_has_target cb a :
  cb <> cb_blink_highlight -> blink_has_target a ->
  blink_has_target (set_handle cb (Some (tk_next_id a)) (Tk.after (delay cb) cb a).2).
Proof.
  intros Hne [Hno|Hsome].
  - left. apply arm_no_live; [congruence|exact Hno].
  - right. destruct cb; exact Hsome.
Qed.

Lemma start_auto_update_status_has_target clk a :
  blink_has_target a -> blink_has_target (start_auto_update_status clk a).
Proof.
  intros Hq. rewrite start_auto_update_status_arm. cbv zeta.
  apply arm_has_target; [discriminate|].
  destruct (pending_cells_timers _ _
              (timers_update_current_status clk (stop_auto_update_status a))
              (cells_update_current_status clk (stop_auto_update_status a)))
    as [Hp Hc].
  eapply blink_has_target_same; [symmetry; exact Hp|symmetry; exact Hc|].
  apply (stop_has_target cb_start_auto_update_status). exact Hq.
Qed.

Lemma start_auto_update_highlight_has_target clk a :
  tracked a -> blink_has_target a ->
  blink_has_target (start_auto_update_highlight clk a).
Proof.
  intros Ht Hq. rewrite start_auto_update_highlight_arm. cbv zeta.
  apply arm_has_target; [discriminate|].
  apply update_highlight_has_target.
  - apply (stop_tracked cb_start_auto_update_highlight). exact Ht.
  - apply (stop_has_target cb_start_auto_update_highlight). exact Hq.
Qed.

Lemma fire_has_target i clk a :
  tracked a -> blink_has_target a -> blink_has_target (fire i clk a).
Proof.
  intros Ht Hq. unfold fire.
  destruct (tk_pending a !! i) as [[d cb]|] eqn:Hi; [|exact Hq]. cbv zeta.
  set (a' := set_tk (delete i (tk_pending a)) (tk_next_id a) a).
  assert (tracked a') as Ht' by (apply delete_tracked; exact Ht).
  assert (blink_has_target a') as Hq'.
  { destruct Hq as [Hno|Hsome]; [left; apply delete_no_live; exact Hno|right; exact Hsome]. }
  clearbody a'. destruct cb.
  - apply start_auto_update_status_has_target. exact Hq'.
  - apply start_auto_update_highlight_has_target; assumption.
  - destruct (current_highlight_btn a') as [k|] eqn:Hk.
    + right. rewrite (blink_highlight_arm a' k Hk). cbv zeta. simpl.
      unfold on_highlight_btn. simpl. rewrite Hk. simpl. eauto.
    + unfold blink_highlight. rewrite Hk. exact Hq'.
Qed.

Lemma run_has_target e a :
  tracked a -> blink_has_target a -> blink_has_target (run e a).
Proof.
  intros Ht Hq. destruct e; simpl.
  - apply start_auto_update_status_has_target. exact Hq.
  - apply (stop_has_target cb_start_auto_update_status). exact Hq.
  - apply start_auto_update_highlight_has_target; assumption.
  - apply (stop_has_target cb_start_auto_update_highlight). exact Hq.
  - apply update_highlight_has_target; assumption.
  - destruct (pending_cells_timers _ _ (timers_update_current_status clk a)
                (cells_update_current_status clk a)) as [Hp Hc].
    eapply blink_has_target_same; [symmetry; exact Hp|symmetry; exact Hc|exact Hq].
  - apply fire_has_target; assumption.
  - eapply blink_has_target_same; [| |exact Hq]; reflexivity.
  - eapply blink_has_target_same; [| |exact Hq]; reflexivity.
  - eapply blink_has_target_same; [| |exact Hq]; reflexivity.
  - eapply blink_has_target_same; [| |exact Hq]; reflexivity.
Qed.

Lemma reachable_has_target a : reachable a -> blink_has_target a.
Proof.
  induction 1 as [a Hinit|e a Hr IH].
  - left. intros i d Hi. destruct Hinit as (_ & _ & _ & Hp & _).
    rewrite Hp, lookup_empty in Hi. discriminate.
  - apply run_has_target; [apply reachable_tracked; exact Hr|exact IH].
Qed.

(** X9: the three loops keep themselves alive.  In every reachable state,
    when Tk runs a pending callback of a timer, that timer is armed again:
    afterwards it has exactly one pending callback, under a new id, with
    the timer's delay and named by the timer's handle. *)
Theorem a_tick_rearms_its_timer a i d cb clk :
  reachable a ->
  tk_pending a !! i = Some (d, cb) ->
  size (live cb (fire i clk a)) = 1%nat /\
  live cb (fire i clk a) !! i = None /\
  exists n, handle cb (fire i clk a) = Some n /\
    tk_pending (fire i clk a) !! n = Some (delay cb, cb).
Proof.
  intros Hr Hi.
  pose proof (reachable_tracked a Hr) as Ht.
  pose proof (reachable_has_target a Hr) as Hq.
  assert (i < tk_next_id a)%nat as Hlt.
  { destruct Ht as [Ht1 Ht2]. destruct (Ht1 _ _ _ Hi) as [Hh _]. exact (Ht2 _ _ Hh). }
  set (a' := set_tk (delete i (tk_pending a)) (tk_next_id a) a).
  assert (tracked a') as Ht' by (apply delete_tracked; exact Ht).
  assert (forall n, (tk_next_id a <= n)%nat ->
            live cb (fire i clk a) = {[ n := (delay cb, cb) ]} ->
            handle cb (fire i clk a) = Some n ->
            size (live cb (fire i clk a)) = 1%nat /\
            live cb (fire i clk a) !! i = None /\
            exists n, handle cb (fire i clk a) = Some n /\
              tk_pending (fire i clk a) !! n = Some (delay cb, cb)) as Hfinish.
  { intros n Hle Hl Hh. split; [rewrite Hl; apply map_size_singleton|].
    split; [rewrite Hl; apply lookup_singleton_ne; lia|].
    exists n. split; [exact Hh|].
    assert (live cb (fire i clk a) !! n = Some (delay cb, cb)) as Hn
      by (rewrite Hl; apply lookup_singleton_eq).
    unfold live in Hn. apply map_lookup_filter_Some in Hn as [Hn _]. exact Hn. }
  assert (fire i clk a = match cb with
                         | cb_start_auto_update_status => start_auto_update_status clk a'
                         | cb_start_auto_update_highlight => start_auto_update_highlight clk a'
                         | cb_blink_highlight => blink_highlight a'
                         end) as Hfire by (unfold fire; rewrite Hi; reflexivity).
  destruct cb.
  - destruct (start_tracked cb_start_auto_update_status clk a' Ht')
      as (_ & n & Hle & Hl & Hh).
    rewrite Hfire in Hfinish |- *. exact (Hfinish n Hle Hl Hh).
  - destruct (start_tracked cb_start_auto_update_highlight clk a' Ht')
      as (_ & n & Hle & Hl & Hh).
    rewrite Hfire in Hfinish |- *. exact (Hfinish n Hle Hl Hh).
  - destruct Hq as [Hno|[k Hk]]; [exfalso; exact (Hno _ _ Hi)|].
    assert (current_highlight_btn a' = Some k) as Hk' by exact Hk.
    rewrite (blink_highlight_arm a' k Hk') in Hfire. cbv zeta in Hfire.
    set (a2 := on_highlight_btn (toggle (negb (blink_state a')))
                 (set_blink_state (negb (blink_state a')) a')) in Hfire.
    assert (timers a2 = timers a') as Htm
      by (unfold a2; rewrite timers_on_highlight_btn; reflexivity).
    destruct (arm_tracked cb_blink_highlight a2) as (_ & Hl & Hh).
    { eapply tracked_same; [symmetry; exact Htm|exact Ht']. }
    { eapply no_live_same; [symmetry; exact Htm|].
      intros j d' Hj. simpl in Hj. apply lookup_delete_Some in Hj as [Hne Hj].
      destruct Ht as [Ht1 _].
      destruct (Ht1 _ _ _ Hi) as [H1 _]. destruct (Ht1 _ _ _ Hj) as [H2 _].
      congruence. }
    rewrite <- Hfire in Hl, Hh. apply (Hfinish (tk_next_id a2)); auto.
    unfold timers in Htm. injection Htm as _ Hn _ _ _. rewrite Hn. simpl. lia.
Qed.

(** The status loop started at 08:40: its tick leaves one status
    callback pending. *)
Lemma a_tick_rearms_its_timer_witness :
  let clk := mk_clock (hm 8 40) "Monday" in
  let a := run (ev_start_auto_update_status clk) (init_app "#d9d9d9" []) in
  size (live cb_start_auto_update_status (fire 0 clk a)) = 1%nat /\
  live cb_start_auto_update_status (fire 0 clk a) !! 0%nat = None /\
  exists n, handle cb_start_auto_update_status (fire 0 clk a) = Some n /\
    tk_pending (fire 0 clk a) !! n = Some (60000, cb_start_auto_update_status).
Proof.
  cbv zeta.
  apply (a_tick_rearms_its_timer _ 0%nat 60000 cb_start_auto_update_status).
  - apply reachable_run, reachable_initial, initial_init_app. discriminate.
  - vm_compute. reflexivity.
Defined.

End TimerMore.

(** ** The subject colours *)

Module ColoursMore.

Import EngineFacts.

Section with_str.

Variable strip : string -> string.
Variable lower : string -> string.

Lemma get_subject_color_keeps d subj st key c :
  subject_colors st !! key = Some c ->
  subject_colors (get_subject_color strip lower d subj st).2 !! key = Some c.
Proof.
  intros Hk. unfold get_subject_color. case_bool_decide; [exact Hk|]. cbv zeta.
  destruct (subject_colors st !! lower (strip subj)) as [c'|] eqn:Hs; [exact Hk|].
  simpl. rewrite lookup_insert_ne; [exact Hk|]. congruence.
Qed.

Lemma color_all_keeps d subjects st key c :
  subject_colors st !! key = Some c ->
  subject_colors (color_all strip lower d subjects st) !! key = Some c.
Proof.
  revert st. induction subjects as [|s rest IH]; intros st Hk; [exact Hk|].
  simpl. apply IH. apply get_subject_color_keeps. exact Hk.
Qed.

(** X12: [get_subject_color] is consistent.  The colour a non-empty
    subject is given is the colour it gets in every later call, however
    many other subjects are coloured in between, and it is also the colour
    of every spelling of the subject that differs only in case and in
    surrounding blanks. *)
Theorem subject_keeps_its_color d subj subj' others st :
  subj <> "" -> subj' <> "" ->
  lower (strip subj') = lower (strip subj) ->
  (get_subject_color strip lower d subj'
     (color_all strip lower d others (get_subject_color strip lower d subj st).2)).1
  = (get_subject_color strip lower d subj st).1.
Proof.
  intros Hs Hs' Hkey.
  assert (subject_colors (get_subject_color strip lower d subj st).2
            !! lower (strip subj)
          = Some (get_subject_color strip lower d subj st).1) as Hfirst.
  { unfold get_subject_color. rewrite bool_decide_eq_false_2 by exact Hs. cbv zeta.
    destruct (subject_colors st !! lower (strip subj)) as [c|] eqn:Hk; simpl.
    - exact Hk.
    - apply lookup_insert_eq. }
  pose proof (color_all_keeps d others _ _ _ Hfirst) as Hlater.
  unfold get_subject_color at 1. rewrite bool_decide_eq_false_2 by exact Hs'.
  cbv zeta. rewrite Hkey, Hlater. reflexivity.
Qed.

(** What the two fields satisfy at any time: the index counts the keys of
    the dict, and every colour kept in the dict is one of the palette. *)
Lemma get_subject_color_counts d subj st :
  next_color_idx st = size (subject_colors st) ->
  map_Forall (fun _ c => c ∈ color_palette) (subject_colors st) ->
  next_color_idx (get_subject_color strip lower d subj st).2
    = size (subject_colors (get_subject_color strip lower d subj st).2) /\
  map_Forall (fun _ c => c ∈ color_palette)
    (subject_colors (get_subject_color strip lower d subj st).2).
Proof.
  intros Hn Hp. unfold get_subject_color. case_bool_decide; [auto|]. cbv zeta.
  destruct (subject_colors st !! lower (strip subj)) as [c|] eqn:Hk; [auto|].
  cbn [snd subject_colors next_color_idx]. split.
  - rewrite map_size_insert_None by exact Hk. congruence.
  - apply map_Forall_insert_2; [|exact Hp].
    assert (next_color_idx st mod length color_palette < length color_palette)%nat
      as Hlt by (apply Nat.mod_upper_bound; discriminate).
    destruct (lookup_lt_is_Some_2 color_palette _ Hlt) as [c Hc].
    rewrite Hc. simpl. eapply list_elem_of_lookup_2. exact Hc.
Qed.

(** X13: starting from the empty dict, after any run of calls the index
    [next_color_idx] is the number of subjects in [subject_colors], every
    colour in it is a palette colour, and a subject that is not yet in it
    gets the palette colour at that number modulo 10: the palette is handed
    out in order and starts over after ten subjects. *)
Theorem colors_are_dealt_round_robin d subjects subj :
  let st := color_all strip lower d subjects no_colors in
  next_color_idx st = size (subject_colors st) /\
  map_Forall (fun _ c => c ∈ color_palette) (subject_colors st) /\
  (subj <> "" -> subject_colors st !! lower (strip subj) = None ->
   color_palette !! (size (subject_colors st) mod 10)%nat
     = Some (get_subject_color strip lower d subj st).1).
Proof.
  cbv zeta.
  assert (forall st,
            next_color_idx st = size (subject_colors st) ->
            map_Forall (fun _ c => c ∈ color_palette) (subject_colors st) ->
            next_color_idx (color_all strip lower d subjects st)
              = size (subject_colors (color_all strip lower d subjects st)) /\
            map_Forall (fun _ c => c ∈ color_palette)
              (subject_colors (color_all strip lower d subjects st))) as Hinv.
  { induction subjects as [|s rest IH]; intros st Hn Hp; [auto|].
    simpl. destruct (get_subject_color_counts d s st Hn Hp). apply IH; assumption. }
  destruct (Hinv no_colors) as [Hn Hp].
  { reflexivity. }
  { apply map_Forall_empty. }
  split; [exact Hn|]. split; [exact Hp|].
  intros Hs Hk. unfold get_subject_color. rewrite bool_decide_eq_false_2 by exact Hs.
  cbv zeta. rewrite Hk. cbn [fst]. rewrite <- Hn.
  assert (next_color_idx (color_all strip lower d subjects no_colors) mod 10 < 10)%nat
    as Hlt by (apply Nat.mod_upper_bound; discriminate).
  destruct (lookup_lt_is_Some_2 color_palette _ Hlt) as [c Hc].
  change (length color_palette) with 10%nat. rewrite Hc. reflexivity.
Qed.

Lemma find_in_cols_Some cand cols c :
  find_in_cols strip lower cand cols = Some c ->
  exists cols1 cols2, cols = cols1 ++ c :: cols2 /\
    lower (strip c) = lower (strip cand) /\
    forall c', c' ∈ cols1 -> lower (strip c') <> lower (strip cand).
Proof.
  induction cols as [|c0 cols IH]; simpl; [discriminate|].
  case_bool_decide as Hm.
  - intros [= <-]. exists [], cols. split; [reflexivity|]. split; [exact Hm|].
    intros c' Hc'. apply elem_of_nil in Hc'. contradiction.
  - intros H. destruct (IH H) as (cols1 & cols2 & -> & Hc & Hbefore).
    exists (c0 :: cols1), cols2. split; [reflexivity|]. split; [exact Hc|].
    intros c' Hc'. apply elem_of_cons in Hc' as [->|Hc']; auto.
Qed.

Lemma find_in_cols_None cand cols :
  find_in_cols strip lower cand cols = None ->
  forall c, c ∈ cols -> lower (strip c) <> lower (strip cand).
Proof.
  induction cols as [|c0 cols IH]; simpl; intros H c Hc.
  { apply elem_of_nil in Hc. contradiction. }
  case_bool_decide as Hm; [discriminate|].
  apply elem_of_cons in Hc as [->|Hc]; auto.
Qed.

(** X14: [find_col] looks for the accepted names in their order of
    preference, ignoring case and surrounding blanks: what it returns is
    the first column of the file that spells the first accepted name any
    column spells, and it returns None exactly when no column spells any
    accepted name. *)
Theorem find_col_prefers_the_first_candidate cols candidates :
  match find_col strip lower cols candidates with
  | Some c =>
      exists cands1 cand cands2 cols1 cols2,
        candidates = cands1 ++ cand :: cands2 /\
        cols = cols1 ++ c :: cols2 /\
        lower (strip c) = lower (strip cand) /\
        (forall c', c' ∈ cols1 -> lower (strip c') <> lower (strip cand)) /\
        (forall cand' c', cand' ∈ cands1 -> c' ∈ cols ->
           lower (strip c') <> lower (strip cand'))
  | None =>
      forall cand c, cand ∈ candidates -> c ∈ cols ->
        lower (strip c) <> lower (strip cand)
  end.
Proof.
  induction candidates as [|cand rest IH]; simpl.
  { intros cand c Hc. apply elem_of_nil in Hc. contradiction. }
  destruct (find_in_cols strip lower cand cols) as [c|] eqn:Hf.
  - apply find_in_cols_Some in Hf as (cols1 & cols2 & Hcols & Hc & Hbefore).
    exists [], cand, rest, cols1, cols2. repeat split; auto.
    intros cand' c' Hin. apply elem_of_nil in Hin. contradiction.
  - pose proof (find_in_cols_None _ _ Hf) as Hnone.
    destruct (find_col strip lower cols rest) as [c|].
    + destruct IH as (cands1 & cand0 & cands2 & cols1 & cols2 & -> & Hcols & Hc & Hb1 & Hb2).
      exists (cand :: cands1), cand0, cands2, cols1, cols2. repeat split; auto.
      intros cand' c' Hin Hc'. apply elem_of_cons in Hin as [->|Hin]; eauto.
    + intros cand' c Hin Hc. apply elem_of_cons in Hin as [->|Hin]; eauto.
Qed.

End with_str.

(** "maths" after "Physics" and "Maths" keeps the first palette colour. *)
Lemma subject_keeps_its_color_witness :
  (get_subject_color strip_ascii lower_ascii "#d9d9d9" " maths "
     (color_all strip_ascii lower_ascii "#d9d9d9" [ "Physics"; "Art" ]
        (get_subject_color strip_ascii lower_ascii "#d9d9d9" "Maths" no_colors).2)).1
  = "#4CC562".
Proof.
  refine (subject_keeps_its_color strip_ascii lower_ascii "#d9d9d9" "Maths"
            " maths " [ "Physics"; "Art" ] no_colors _ _ _); [discriminate..|reflexivity].
Defined.

End ColoursMore.

(** ** The timetable grid and the timetable table *)

Module GuiMore.

Import EngineFacts TimerFacts BlinkFacts.

Lemma grid_stop_blink_animation a :
  grid_buttons (stop_blink_animation a) =
    match current_highlight_btn a with
    | Some k => alter restore_orig k (grid_buttons a)
    | None => grid_buttons a
    end.
Proof.
  unfold stop_blink_animation, on_highlight_btn.
  destruct (_blink_after_id a); simpl; destruct (current_highlight_btn a); reflexivity.
Qed.

Lemma grid_start_blink_animation a k :
  current_highlight_btn a = Some k ->
  grid_buttons (start_blink_animation a)
    = alter capture_orig k (alter restore_orig k (grid_buttons a)).
Proof.
  intros Hk. rewrite start_blink_animation_arm. cbv zeta.
  assert (forall x, grid_buttons
            (set_handle cb_blink_highlight (Some (tk_next_id x))
               (Tk.after (delay cb_blink_highlight) cb_blink_highlight x).2)
          = grid_buttons x) as Harm by reflexivity.
  rewrite Harm. unfold on_highlight_btn at 1.
  assert (current_highlight_btn (set_blink_state false (stop_blink_animation a))
          = Some k) as Hk'.
  { simpl. unfold stop_blink_animation, on_highlight_btn.
    destruct (_blink_after_id a); simpl; rewrite Hk; exact Hk. }
  rewrite Hk'. simpl. rewrite grid_stop_blink_animation, Hk. reflexivity.
Qed.

Lemma bg_restore_orig d b :
  orig_ok d b -> bg b = d -> bg (restore_orig b) = d.
Proof.
  unfold orig_ok, restore_orig. intros [Ho|Ho] Hbg; rewrite Ho; [exact Hbg|].
  case_match; [reflexivity|exact Hbg].
Qed.

Lemma bg_capture_orig b : bg (capture_orig b) = bg b.
Proof. unfold capture_orig. case_match; reflexivity. Qed.

(** After [update_highlight] every cell of the grid shows the default
    colour, the blink target included. *)
Lemma update_highlight_all_default clk a :
  resting a ->
  forall k b, grid_buttons (update_highlight clk a) !! k = Some b ->
    bg b = default_btn_bg a.
Proof.
  intros Hr. pose proof (reset_resting a Hr) as (Hd & Ho & Hk).
  unfold update_highlight. cbv zeta.
  set (a0 := set_grid_buttons (config_bg (default_btn_bg a) <$> grid_buttons a) a) in *.
  assert (forall k b, grid_buttons a0 !! k = Some b -> bg b = default_btn_bg a) as Hall.
  { intros k b Hb. simpl in Hb. apply lookup_fmap_Some in Hb as (b0 & <- & _).
    reflexivity. }
  assert (forall k0 k b,
            alter restore_orig k0 (grid_buttons a0) !! k = Some b ->
            bg b = default_btn_bg a /\ orig_ok (default_btn_bg a) b) as Hrestored.
  { intros k0 k b Hb.
    apply lookup_alter_Some in Hb as [(<- & b0 & Hb0 & ->)|[_ Hb]].
    - split; [apply bg_restore_orig; eauto|apply restore_orig_ok; eauto].
    - eauto. }
  repeat case_match; try exact Hall.
  - intros k' b' Hb'.
    erewrite grid_start_blink_animation in Hb' by reflexivity.
    simpl in Hb'.
    apply lookup_alter_Some in Hb' as [(<- & b0 & Hb0 & ->)|[_ Hb']].
    + rewrite bg_capture_orig. eapply Hrestored. exact Hb0.
    + eapply Hrestored. exact Hb'.
  - intros k' b' Hb'. rewrite grid_stop_blink_animation in Hb'.
    destruct (current_highlight_btn a0); [|eauto]. eapply Hrestored. exact Hb'.
Qed.

Section with_str.

Variable strip : string -> string.
Variable lower : string -> string.
Variable upper : string -> string.
Variable int_of_str : string -> option Z.

(** The populate loop changes backgrounds only. *)
Lemma populate_cell_orig d acc r k :
  _orig_bg <$> (populate_cell strip lower d acc r).1 !! k = _orig_bg <$> acc.1 !! k.
Proof.
  unfold populate_cell. cbv zeta.
  destruct (acc.1 !! (row_day_of_week r, row_period_number r)); [|reflexivity].
  destruct (get_subject_color strip lower d (row_subject r) acc.2) as [color st].
  simpl. rewrite lookup_alter. case_decide; [subst|reflexivity].
  destruct (acc.1 !! (row_day_of_week r, row_period_number r)); reflexivity.
Qed.

Lemma populate_orig d entries acc k :
  _orig_bg <$> (fold_left (populate_cell strip lower d) entries acc).1 !! k
    = _orig_bg <$> acc.1 !! k.
Proof.
  revert acc. induction entries as [|r rest IH]; intros acc; [reflexivity|].
  simpl. rewrite IH. apply populate_cell_orig.
Qed.

Lemma resting_same_orig a grid :
  resting a ->
  (forall k, _orig_bg <$> grid !! k = _orig_bg <$> grid_buttons a !! k) ->
  resting (set_grid_buttons grid a).
Proof.
  intros (Hd & Ho & Hk) Hsame. split; [exact Hd|]. split; simpl.
  - intros k b Hb. specialize (Hsame k). rewrite Hb in Hsame. simpl in Hsame.
    destruct (grid_buttons a !! k) as [b0|] eqn:Hb0; [|discriminate].
    injection Hsame as Hsame. pose proof (Ho k b0 Hb0) as Hok.
    unfold orig_ok in *. rewrite Hsame. exact Hok.
  - intros k Hc. destruct (Hk k Hc) as [b0 Hb0]. specialize (Hsame k).
    rewrite Hb0 in Hsame. destruct (grid !! k); [eauto|discriminate].
Qed.

(** The state [load_timetable_for_teacher] hands to [update_highlight]. *)
Lemma load_timetable_for_teacher_eq clk g teacher_id :
  current_teacher_id (core g) = Some teacher_id ->
  exists grid st,
    (forall k, _orig_bg <$> grid !! k = _orig_bg <$> grid_buttons (core g) !! k) /\
    load_timetable_for_teacher strip lower clk g
      = set_palette st
          (set_core (update_highlight clk (set_grid_buttons grid (core g))) g).
Proof.
  intros Ht. unfold load_timetable_for_teacher. rewrite Ht. cbv zeta.
  pose proof (populate_orig (default_btn_bg (core g))
                (teacher_entries (db_timetable (core g)) teacher_id)
                (config_bg (default_btn_bg (core g)) <$> grid_buttons (core g),
                 palette g)) as Horig.
  destruct (fold_left (populate_cell strip lower (default_btn_bg (core g)))
              (teacher_entries (db_timetable (core g)) teacher_id)
              (config_bg (default_btn_bg (core g)) <$> grid_buttons (core g),
               palette g)) as [grid st].
  exists grid, st. split; [|reflexivity].
  intros k. specialize (Horig k). simpl in Horig. rewrite Horig, lookup_fmap.
  destruct (grid_buttons (core g) !! k); reflexivity.
Qed.

(** X15: the colours of the subjects do not survive
    [load_timetable_for_teacher].  The populate loop paints each cell of
    the selected teacher with the colour of its subject, but the call of
    [update_highlight] that ends the function resets the grid: when it
    returns, every cell shows the default colour. *)
Theorem load_timetable_leaves_every_cell_default clk g teacher_id k b :
  resting (core g) ->
  current_teacher_id (core g) = Some teacher_id ->
  grid_buttons (core (load_timetable_for_teacher strip lower clk g)) !! k = Some b ->
  bg b = default_btn_bg (core g).
Proof.
  intros Hr Ht Hb.
  destruct (load_timetable_for_teacher_eq clk g teacher_id Ht) as (grid & st & Hsame & Heq).
  rewrite Heq in Hb. simpl in Hb.
  exact (update_highlight_all_default clk _ (resting_same_orig _ _ Hr Hsame) k b Hb).
Qed.

End with_str.

(** Teacher 1 teaches Maths in Monday's period 1 and Physics in Tuesday's
    period 2; after the grid is loaded on Wednesday at noon, the Tuesday
    cell is back to the default colour. *)
Lemma load_timetable_leaves_every_cell_default_witness :
  let g := mk_gui
             (set_current_teacher_id (Some 1)
                (init_app "#d9d9d9"
                   [ mk_row 1 1 "Monday" 1 "10A" "Maths";
                     mk_row 2 1 "Tuesday" 2 "9B" "Physics" ]))
             no_colors 2 [] (Some 1) in
  exists b,
    grid_buttons (core (load_timetable_for_teacher strip_ascii lower_ascii
                          (mk_clock (hm 12 0) "Wednesday") g)) !! ("Tuesday", 2)
      = Some b /\
    bg b = "#d9d9d9".
Proof.
  cbv zeta.
  destruct (grid_buttons
              (core (load_timetable_for_teacher strip_ascii lower_ascii
                       (mk_clock (hm 12 0) "Wednesday")
                       (mk_gui
                          (set_current_teacher_id (Some 1)
                             (init_app "#d9d9d9"
                                [ mk_row 1 1 "Monday" 1 "10A" "Maths";
                                  mk_row 2 1 "Tuesday" 2 "9B" "Physics" ]))
                          no_colors 2 [] (Some 1)))) !! ("Tuesday", 2))
    as [b|] eqn:Hb.
  - exists b. split; [reflexivity|].
    apply (load_timetable_leaves_every_cell_default strip_ascii lower_ascii
             (mk_clock (hm 12 0) "Wednesday")
             (mk_gui
                (set_current_teacher_id (Some 1)
                   (init_app "#d9d9d9"
                      [ mk_row 1 1 "Monday" 1 "10A" "Maths";
                        mk_row 2 1 "Tuesday" 2 "9B" "Physics" ]))
                no_colors 2 [] (Some 1))
             1 ("Tuesday", 2) b).
    + apply reachable_resting.
      apply (reachable_run (ev_select (Some 1))), reachable_initial, initial_init_app.
      discriminate.
    + reflexivity.
    + exact Hb.
  - exfalso. vm_compute in Hb. discriminate.
Defined.

(** *** Adding and deleting a period *)

Lemma stop_blink_animation_data a :
  db_timetable (stop_blink_animation a) = db_timetable a /\
  current_teacher_id (stop_blink_animation a) = current_teacher_id a.
Proof.
  unfold stop_blink_animation, on_highlight_btn.
  destruct (_blink_after_id a); simpl; case_match; split; reflexivity.
Qed.

Lemma start_blink_animation_data a :
  db_timetable (start_blink_animation a) = db_timetable a /\
  current_teacher_id (start_blink_animation a) = current_teacher_id a.
Proof.
  rewrite start_blink_animation_arm. cbv zeta.
  destruct (stop_blink_animation_data a) as [H1 H2].
  unfold on_highlight_btn. case_match; simpl; auto.
Qed.

Lemma update_highlight_cases clk a :
  let a0 := set_grid_buttons (config_bg (default_btn_bg a) <$> grid_buttons a) a in
  update_highlight clk a = a0 \/
  (exists k, update_highlight clk a
               = start_blink_animation (set_current_highlight_btn (Some k) a0)) \/
  update_highlight clk a = stop_blink_animation a0.
Proof. unfold update_highlight. cbv zeta. repeat case_match; eauto. Qed.

Lemma update_highlight_data clk a :
  db_timetable (update_highlight clk a) = db_timetable a /\
  current_teacher_id (update_highlight clk a) = current_teacher_id a.
Proof.
  destruct (update_highlight_cases clk a) as [-> | [[k ->] | ->]].
  - split; reflexivity.
  - destruct (start_blink_animation_data
                (set_current_highlight_btn (Some k)
                   (set_grid_buttons
                      (config_bg (default_btn_bg a) <$> grid_buttons a) a)))
      as [H1 H2].
    split; [exact H1|exact H2].
  - destruct (stop_blink_animation_data
                (set_grid_buttons (config_bg (default_btn_bg a) <$> grid_buttons a) a))
      as [H1 H2].
    split; [exact H1|exact H2].
Qed.

Lemma pair_with_snd {A B} (x : A * B) (b : B) : x.2 = b -> x = (x.1, b).
Proof. destruct x. simpl. congruence. Qed.

Lemma row_id_le_max (rows : list row) r :
  r ∈ rows -> row_id r <= foldr Z.max 0 (row_id <$> rows).
Proof.
  induction rows as [|r0 rows IH]; intros Hin.
  { apply elem_of_nil in Hin. contradiction. }
  rewrite fmap_cons. cbn [foldr].
  apply elem_of_cons in Hin as [->|Hin]; [lia|]. specialize (IH Hin). lia.
Qed.

Lemma next_rowid_fresh (rows : list row) seq r :
  r ∈ rows -> row_id r < next_rowid rows seq.
Proof. intros Hin. apply row_id_le_max in Hin. unfold next_rowid. lia. Qed.

Lemma NoDup_fmap_eq {A B} (f : A -> B) (l : list A) x y :
  NoDup (f <$> l) -> x ∈ l -> y ∈ l -> f x = f y -> x = y.
Proof.
  induction l as [|z l IH]; intros Hnd Hx Hy Hf.
  { apply elem_of_nil in Hx. contradiction. }
  rewrite fmap_cons in Hnd. apply NoDup_cons in Hnd as [Hz Hnd].
  apply elem_of_cons in Hx as [->|Hx]; apply elem_of_cons in Hy as [->|Hy].
  - reflexivity.
  - exfalso. apply Hz. rewrite Hf. apply list_elem_of_fmap. eauto.
  - exfalso. apply Hz. rewrite <- Hf. apply list_elem_of_fmap. eauto.
  - auto.
Qed.

Lemma filter_filter_same {A} (P Q : A -> Prop)
    `{!forall x, Decision (P x)} `{!forall x, Decision (Q x)} (l : list A) :
  (forall x, x ∈ l -> Q x -> P x) -> filter Q (filter P l) = filter Q l.
Proof.
  induction l as [|x l IH]; intros Hall; [reflexivity|].
  assert (filter Q (filter P l) = filter Q l) as IH'
    by (apply IH; intros y Hy; apply Hall; right; exact Hy).
  rewrite (filter_cons P). destruct (decide (P x)) as [Hp|Hp].
  - rewrite !(filter_cons Q). destruct (decide (Q x)); congruence.
  - rewrite (filter_cons Q). destruct (decide (Q x)) as [Hq|Hq]; [|exact IH'].
    exfalso. apply Hp, Hall; [left|exact Hq].
Qed.

Lemma slot_matches teacher_id day period r :
  matches teacher_id day period r = true <-> slot r = (teacher_id, day, period).
Proof.
  rewrite matches_true. unfold slot. split.
  - intros (-> & -> & ->). reflexivity.
  - intros [= -> -> ->]. auto.
Qed.

Lemma fetchone_app_new rows r teacher_id day period :
  fetchone rows teacher_id day period = None ->
  slot r = (teacher_id, day, period) ->
  fetchone (rows ++ [r]) teacher_id day period = Some r.
Proof.
  unfold fetchone. intros Hnone Hr. rewrite filter_app.
  apply head_None in Hnone. rewrite Hnone. simpl.
  rewrite filter_cons. apply slot_matches in Hr.
  destruct (decide (matches teacher_id day period r = true)); [reflexivity|contradiction].
Qed.

Section periods.

Variable strip : string -> string.
Variable lower : string -> string.
Variable upper : string -> string.
Variable int_of_str : string -> option Z.

Lemma load_timetable_for_teacher_data clk g :
  db_timetable (core (load_timetable_for_teacher strip lower clk g))
    = db_timetable (core g) /\
  current_teacher_id (core (load_timetable_for_teacher strip lower clk g))
    = current_teacher_id (core g).
Proof.
  destruct (current_teacher_id (core g)) as [teacher_id|] eqn:Ht.
  - destruct (load_timetable_for_teacher_eq strip lower clk g teacher_id Ht)
      as (grid & st & _ & ->).
    simpl. rewrite <- Ht. apply (update_highlight_data clk (set_grid_buttons grid (core g))).
  - unfold load_timetable_for_teacher. rewrite Ht. auto.
Qed.

(** What a successful [save] did. *)
Lemma add_period_save_success day_raw period_raw class_raw subject_raw clk g g' :
  add_period_save strip lower upper int_of_str
      day_raw period_raw class_raw subject_raw clk g
    = (g', shown (showinfo "Success" "Period added successfully!")) ->
  exists teacher_id period,
    current_teacher_id (core g) = Some teacher_id /\
    int_of_str (strip period_raw) = Some period /\
    fetchone (db_timetable (core g)) teacher_id (strip day_raw) period = None /\
    db_timetable (core g') =
      db_timetable (core g) ++
        [mk_row (next_rowid (db_timetable (core g)) (timetable_seq g))
           teacher_id (strip day_raw) period (strip class_raw)
           (if bool_decide (upper (strip (strip class_raw)) = "FREE") then ""
            else strip subject_raw)].
Proof.
  unfold add_period_save. cbv zeta.
  destruct (_ || _); [discriminate|].
  destruct (int_of_str (strip period_raw)) as [period|]; [|discriminate].
  destruct (current_teacher_id (core g)) as [teacher_id|]; [|discriminate].
  destruct (fetchone _ _ _ _) eqn:Hf; [discriminate|].
  intros [= <-]. exists teacher_id, period. repeat split; try reflexivity; [exact Hf|].
  destruct (load_timetable_for_teacher_data clk
              (insert_row teacher_id (strip day_raw) period (strip class_raw)
                 (if bool_decide (upper (strip (strip class_raw)) = "FREE") then ""
                  else strip subject_raw) g)) as [-> _].
  reflexivity.
Qed.

(** X16: when [save] of the Add Period dialog reports success, the table
    has grown by exactly one row at its end: the row of the selected
    teacher for the stripped day and the period number read from the
    text, with the stripped class and, for a FREE class, an empty subject.
    The row gets an id larger than every id in the table, and it is the
    row a lookup of its slot now finds. *)
Theorem added_period_is_appended day_raw period_raw class_raw subject_raw clk g g' :
  add_period_save strip lower upper int_of_str
      day_raw period_raw class_raw subject_raw clk g
    = (g', shown (showinfo "Success" "Period added successfully!")) ->
  exists teacher_id period r,
    current_teacher_id (core g) = Some teacher_id /\
    int_of_str (strip period_raw) = Some period /\
    db_timetable (core g') = db_timetable (core g) ++ [r] /\
    slot r = (teacher_id, strip day_raw, period) /\
    row_class_name r = strip class_raw /\
    row_subject r =
      (if bool_decide (upper (strip (strip class_raw)) = "FREE") then ""
       else strip subject_raw) /\
    (forall r0, r0 ∈ db_timetable (core g) -> row_id r0 < row_id r) /\
    fetchone (db_timetable (core g)) teacher_id (strip day_raw) period = None /\
    fetchone (db_timetable (core g')) teacher_id (strip day_raw) period = Some r.
Proof.
  intros H. apply add_period_save_success in H as (teacher_id & period & Ht & Hp & Hf & Hrows).
  eexists teacher_id, period, _. split; [exact Ht|]. split; [exact Hp|].
  split; [exact Hrows|]. do 3 (split; [reflexivity|]).
  split; [intros r0 Hr0; simpl; apply next_rowid_fresh; exact Hr0|].
  split; [exact Hf|]. rewrite Hrows. apply fetchone_app_new; [exact Hf|reflexivity].
Qed.

Lemma add_period_save_refused day_raw period_raw class_raw subject_raw clk g :
  (add_period_save strip lower upper int_of_str
     day_raw period_raw class_raw subject_raw clk g).2
    <> shown (showinfo "Success" "Period added successfully!") ->
  (add_period_save strip lower upper int_of_str
     day_raw period_raw class_raw subject_raw clk g).1 = g.
Proof.
  unfold add_period_save. cbv zeta.
  destruct (_ || _); [reflexivity|].
  destruct (int_of_str (strip period_raw)); [|reflexivity].
  destruct (current_teacher_id (core g)); [|reflexivity].
  destruct (fetchone _ _ _ _); [reflexivity|].
  simpl. intros H. contradiction.
Qed.

(** X17: whenever [save] ends otherwise than with the success message (a
    field left empty, a period that is not an integer, a slot that is
    already filled, or the insert failing), the application is exactly as
    before: nothing was written and the grid was not reloaded. *)
Theorem refused_period_changes_nothing day_raw period_raw class_raw subject_raw clk g :
  (add_period_save strip lower upper int_of_str
     day_raw period_raw class_raw subject_raw clk g).2
    <> shown (showinfo "Success" "Period added successfully!") ->
  (add_period_save strip lower upper int_of_str
     day_raw period_raw class_raw subject_raw clk g).1 = g.
Proof. apply add_period_save_refused. Qed.

Lemma add_period_save_cases day_raw period_raw class_raw subject_raw clk g :
  (add_period_save strip lower upper int_of_str
     day_raw period_raw class_raw subject_raw clk g).1 = g \/
  add_period_save strip lower upper int_of_str
      day_raw period_raw class_raw subject_raw clk g
    = ((add_period_save strip lower upper int_of_str
          day_raw period_raw class_raw subject_raw clk g).1,
       shown (showinfo "Success" "Period added successfully!")).
Proof.
  unfold add_period_save. cbv zeta.
  destruct (_ || _); [left; reflexivity|].
  destruct (int_of_str (strip period_raw)); [|left; reflexivity].
  destruct (current_teacher_id (core g)); [|left; reflexivity].
  destruct (fetchone _ _ _ _); [left; reflexivity|].
  right. reflexivity.
Qed.

(** X18: the table has no UNIQUE constraint on (teacher, day, period);
    it is the dialog's check that keeps the slots unique.  If no two rows
    fill the same slot and no two rows share an id before [save], the same
    holds after it, whatever its outcome. *)
Theorem add_period_keeps_slots_unique day_raw period_raw class_raw subject_raw clk g :
  unique_slots (db_timetable (core g)) ->
  NoDup (row_id <$> db_timetable (core g)) ->
  let g' := (add_period_save strip lower upper int_of_str
               day_raw period_raw class_raw subject_raw clk g).1 in
  unique_slots (db_timetable (core g')) /\
  NoDup (row_id <$> db_timetable (core g')).
Proof.
  intros Hu Hid. cbv zeta.
  destruct (add_period_save_cases day_raw period_raw class_raw subject_raw clk g)
    as [->|Heq]; [auto|].
  apply add_period_save_success in Heq as (teacher_id & period & Ht & Hp & Hf & Hrows).
  rewrite Hrows. unfold unique_slots. rewrite !fmap_app. simpl. split.
  - apply NoDup_app. split; [exact Hu|]. split; [|apply NoDup_singleton].
    intros s Hs Hs'. apply list_elem_of_singleton in Hs'. subst s.
    apply list_elem_of_fmap in Hs as (r0 & Hslot & Hr0).
    rewrite fetchone_None in Hf. specialize (Hf r0 Hr0).
    assert (matches teacher_id (strip day_raw) period r0 = true) as Hm
      by (apply slot_matches; symmetry; exact Hslot).
    congruence.
  - apply NoDup_app. split; [exact Hid|]. split; [|apply NoDup_singleton].
    intros i Hi Hi'. apply list_elem_of_singleton in Hi'. subst i.
    apply list_elem_of_fmap in Hi as (r0 & Hi & Hr0).
    pose proof (next_rowid_fresh _ (timetable_seq g) _ Hr0) as Hlt. lia.
Qed.

End periods.

(** Teacher 1 has Monday's period 1; " Tuesday", "2 " and class "free"
    are accepted, and the new row keeps an empty subject. *)
Lemma added_period_is_appended_witness :
  let g := mk_gui
             (set_current_teacher_id (Some 1)
                (init_app "#d9d9d9" [ mk_row 1 1 "Monday" 1 "10A" "Maths" ]))
             no_colors 1 [] (Some 1) in
  let g' := (add_period_save strip_ascii lower_ascii upper_ascii int_ascii
               " Tuesday" "2 " "free" "Art" (mk_clock (hm 12 0) "Wednesday") g).1 in
  exists teacher_id period r,
    current_teacher_id (core g) = Some teacher_id /\
    int_ascii (strip_ascii "2 ") = Some period /\
    db_timetable (core g') = db_timetable (core g) ++ [r] /\
    slot r = (teacher_id, strip_ascii " Tuesday", period) /\
    row_class_name r = strip_ascii "free" /\
    row_subject r =
      (if bool_decide (upper_ascii (strip_ascii (strip_ascii "free")) = "FREE") then ""
       else strip_ascii "Art") /\
    (forall r0, r0 ∈ db_timetable (core g) -> row_id r0 < row_id r) /\
    fetchone (db_timetable (core g)) teacher_id (strip_ascii " Tuesday") period = None /\
    fetchone (db_timetable (core g')) teacher_id (strip_ascii " Tuesday") period = Some r.
Proof.
  cbv zeta.
  apply (added_period_is_appended strip_ascii lower_ascii upper_ascii int_ascii
           " Tuesday" "2 " "free" "Art" (mk_clock (hm 12 0) "Wednesday")).
  apply pair_with_snd. vm_compute. reflexivity.
Defined.

(** "two" is not an integer: the save is refused and nothing changes. *)
Lemma refused_period_changes_nothing_witness :
  let g := mk_gui
             (set_current_teacher_id (Some 1)
                (init_app "#d9d9d9" [ mk_row 1 1 "Monday" 1 "10A" "Maths" ]))
             no_colors 1 [] (Some 1) in
  (add_period_save strip_ascii lower_ascii upper_ascii int_ascii
     "Tuesday" "two" "9B" "Art" (mk_clock (hm 12 0) "Wednesday") g).1 = g.
Proof.
  cbv zeta.
  apply (refused_period_changes_nothing strip_ascii lower_ascii upper_ascii int_ascii).
  vm_compute. discriminate.
Defined.

Lemma add_period_keeps_slots_unique_witness :
  let g := mk_gui
             (set_current_teacher_id (Some 1)
                (init_app "#d9d9d9" [ mk_row 1 1 "Monday" 1 "10A" "Maths" ]))
             no_colors 1 [] (Some 1) in
  let g' := (add_period_save strip_ascii lower_ascii upper_ascii int_ascii
               "Tuesday" "2" "9B" "Art" (mk_clock (hm 12 0) "Wednesday") g).1 in
  unique_slots (db_timetable (core g')) /\
  NoDup (row_id <$> db_timetable (core g')).
Proof.
  cbv zeta.
  apply (add_period_keeps_slots_unique strip_ascii lower_ascii upper_ascii int_ascii
           "Tuesday" "2" "9B" "Art" (mk_clock (hm 12 0) "Wednesday")).
  - unfold unique_slots. by_decide.
  - by_decide.
Defined.

Section deleting.

Variable strip : string -> string.
Variable lower : string -> string.

(** X19: in a table where no two rows fill the same slot and no two rows
    share an id, a confirmed [delete_period] by day and period empties
    that slot of the selected teacher and leaves the lookup of every
    other slot as it was. *)
Theorem deleted_period_frees_only_its_slot day period clk g teacher_id :
  current_teacher_id (core g) = Some teacher_id ->
  unique_slots (db_timetable (core g)) ->
  NoDup (row_id <$> db_timetable (core g)) ->
  is_Some (fetchone (db_timetable (core g)) teacher_id day period) ->
  let g' := (delete_period strip lower (Some day) (Some period) None true clk g).1 in
  fetchone (db_timetable (core g')) teacher_id day period = None /\
  forall teacher_id' day' period',
    (teacher_id', day', period') <> (teacher_id, day, period) ->
    fetchone (db_timetable (core g')) teacher_id' day' period'
      = fetchone (db_timetable (core g)) teacher_id' day' period'.
Proof.
  intros Ht Hu Hid [r Hr]. cbv zeta. unfold delete_period. rewrite Ht, Hr. cbn [fst].
  destruct (load_timetable_for_teacher_data strip lower clk
              (set_core
                 (set_db_timetable
                    (filter (fun r0 => row_id r0 <> row_id r) (db_timetable (core g)))
                    (core g)) g)) as [-> _].
  cbn [core set_core db_timetable set_db_timetable].
  pose proof (fetchone_Some _ _ _ _ _ Hr) as (Hin & H1 & H2 & H3).
  assert (slot r = (teacher_id, day, period)) as Hslot
    by (unfold slot; rewrite H1, H2, H3; reflexivity).
  split.
  - apply fetchone_None. intros r' Hr'.
    apply list_elem_of_filter in Hr' as [Hne Hin'].
    destruct (matches teacher_id day period r') eqn:Hm; [|reflexivity].
    apply slot_matches in Hm.
    assert (r' = r) as ->
      by (apply (NoDup_fmap_eq slot (db_timetable (core g)));
          [exact Hu|exact Hin'|exact Hin|congruence]).
    contradiction.
  - intros teacher_id' day' period' Hother. unfold fetchone. f_equal.
    apply filter_filter_same. intros r' Hin' Hm Hsame.
    assert (r' = r) as ->
      by (apply (NoDup_fmap_eq row_id (db_timetable (core g))); assumption).
    apply slot_matches in Hm. congruence.
Qed.

End deleting.

(** Teacher 1 has Monday's periods 1 and 2; deleting (Monday, 1) leaves
    period 2 in place. *)
Lemma deleted_period_frees_only_its_slot_witness :
  let g := mk_gui
             (set_current_teacher_id (Some 1)
                (init_app "#d9d9d9"
                   [ mk_row 1 1 "Monday" 1 "10A" "Maths";
                     mk_row 2 1 "Monday" 2 "9B" "Physics" ]))
             no_colors 2 [] (Some 1) in
  let g' := (delete_period strip_ascii lower_ascii (Some "Monday") (Some 1) None true
               (mk_clock (hm 12 0) "Wednesday") g).1 in
  fetchone (db_timetable (core g')) 1 "Monday" 1 = None /\
  forall teacher_id' day' period',
    (teacher_id', day', period') <> (1, "Monday", 1) ->
    fetchone (db_timetable (core g')) teacher_id' day' period'
      = fetchone (db_timetable (core g)) teacher_id' day' period'.
Proof.
  cbv zeta.
  apply (deleted_period_frees_only_its_slot strip_ascii lower_ascii "Monday" 1
           (mk_clock (hm 12 0) "Wednesday")).
  - reflexivity.
  - unfold unique_slots. by_decide.
  - by_decide.
  - eexists. vm_compute. reflexivity.
Defined.

(** *** Deleting and selecting a teacher *)

Lemma stop_auto_update_highlight_no_blink a :
  tracked a -> no_live cb_blink_highlight (stop_auto_update_highlight a).
Proof.
  intros Ht. unfold stop_auto_update_highlight.
  destruct (_highlight_after_id a) as [i|] eqn:Hh.
  - destruct (cancel_tracked cb_start_auto_update_highlight i a Ht Hh) as [H1 _].
    apply (stop_tracked cb_blink_highlight). exact H1.
  - apply (stop_tracked cb_blink_highlight). exact Ht.
Qed.

(** X20: a confirmed [delete_teacher] tears the view down.  Provided every
    pending callback is the one its timer's handle names, afterwards no
    callback is pending at all (the status loop, the highlight loop and
    the blink are stopped), no teacher is selected, the table holds no row
    of the deleted teacher, and every cell shows the default colour. *)
Theorem delete_teacher_stops_every_timer g teacher_id :
  tracked (core g) ->
  current_teacher_id (core g) = Some teacher_id ->
  let g' := (delete_teacher true g).1 in
  tk_pending (core g') = ∅ /\
  current_teacher_id (core g') = None /\
  (forall r, r ∈ db_timetable (core g') -> row_teacher_id r <> teacher_id) /\
  (forall k b, grid_buttons (core g') !! k = Some b -> bg b = default_btn_bg (core g)).
Proof.
  intros Htr Ht. cbv zeta. unfold delete_teacher. rewrite Ht. cbn [fst core set_db_teachers set_core].
  set (a1 := set_current_teacher_id None
               (set_db_timetable
                  (filter (fun r => row_teacher_id r <> teacher_id)
                     (db_timetable (core g))) (core g))).
  assert (tracked a1) as Ht1 by (eapply tracked_same; [|exact Htr]; reflexivity).
  destruct (stop_tracked cb_start_auto_update_status a1 Ht1) as [Ht2 Hn2].
  cbn [stop] in Ht2, Hn2.
  set (a2 := stop_auto_update_status a1) in *.
  destruct (stop_tracked cb_start_auto_update_highlight a2 Ht2) as [Ht3 Hn3].
  cbn [stop] in Ht3, Hn3.
  pose proof (stop_auto_update_highlight_no_blink a2 Ht2) as Hb3.
  pose proof (stop_no_live cb_start_auto_update_highlight
                cb_start_auto_update_status a2 Hn2) as Hs3.
  cbn [stop] in Hs3.
  set (a3 := stop_auto_update_highlight a2) in *.
  assert (db_timetable a3 = db_timetable a1 /\
          current_teacher_id a3 = None /\
          default_btn_bg a3 = default_btn_bg (core g)) as (Hrows & Hcur & Hdef).
  { subst a3 a2. unfold stop_auto_update_highlight, stop_blink_animation,
      on_highlight_btn, stop_auto_update_status.
    repeat case_match; repeat split; reflexivity. }
  split; [|split; [|split]].
  - cbn [tk_pending set_grid_buttons]. apply map_eq. intros i. rewrite lookup_empty.
    destruct (tk_pending a3 !! i) as [[d cb]|] eqn:Hi; [|reflexivity].
    exfalso. destruct cb;
      [exact (Hs3 _ _ Hi)|exact (Hn3 _ _ Hi)|exact (Hb3 _ _ Hi)].
  - exact Hcur.
  - cbn [db_timetable set_grid_buttons]. rewrite Hrows. intros r Hr.
    subst a1. cbn [db_timetable set_current_teacher_id set_db_timetable] in Hr.
    apply list_elem_of_filter in Hr as [Hne _]. exact Hne.
  - cbn [grid_buttons set_grid_buttons]. intros k b Hb.
    apply lookup_fmap_Some in Hb as (b0 & <- & _). simpl. exact Hdef.
Qed.

(** The status loop, the highlight loop and the blink are running for
    teacher 1 when the teacher is deleted. *)
Lemma delete_teacher_stops_every_timer_witness :
  let a := run (ev_start_auto_update_status (mk_clock (hm 8 40) "Monday"))
             (run (ev_start_auto_update_highlight (mk_clock (hm 8 40) "Monday"))
                (run (ev_select (Some 1))
                   (init_app "#d9d9d9" [ mk_row 1 1 "Monday" 1 "10A" "Maths" ]))) in
  let g := mk_gui a no_colors 1 [ mk_teacher 1 "Asha" None None None ] (Some 1) in
  let g' := (delete_teacher true g).1 in
  size (tk_pending (core g)) = 3%nat /\
  tk_pending (core g') = ∅ /\
  current_teacher_id (core g') = None /\
  (forall r, r ∈ db_timetable (core g') -> row_teacher_id r <> 1) /\
  (forall k b, grid_buttons (core g') !! k = Some b -> bg b = default_btn_bg (core g)).
Proof.
  cbv zeta. split; [vm_compute; reflexivity|].
  apply (delete_teacher_stops_every_timer
           (mk_gui
              (run (ev_start_auto_update_status (mk_clock (hm 8 40) "Monday"))
                 (run (ev_start_auto_update_highlight (mk_clock (hm 8 40) "Monday"))
                    (run (ev_select (Some 1))
                       (init_app "#d9d9d9" [ mk_row 1 1 "Monday" 1 "10A" "Maths" ]))))
              no_colors 1 [ mk_teacher 1 "Asha" None None None ] (Some 1)) 1).
  - apply reachable_tracked. do 3 apply reachable_run.
    apply reachable_initial, initial_init_app. discriminate.
  - vm_compute. reflexivity.
Defined.

Lemma stop_blink_animation_status_handle a :
  _status_after_id (stop_blink_animation a) = _status_after_id a.
Proof.
  unfold stop_blink_animation, on_highlight_btn.
  destruct (_blink_after_id a); simpl; case_match; reflexivity.
Qed.

Lemma start_blink_animation_status_handle a :
  _status_after_id (start_blink_animation a) = _status_after_id a.
Proof.
  rewrite start_blink_animation_arm. cbv zeta. unfold on_highlight_btn.
  case_match; simpl; apply stop_blink_animation_status_handle.
Qed.

Lemma update_highlight_status_handle clk a :
  _status_after_id (update_highlight clk a) = _status_after_id a.
Proof.
  destruct (update_highlight_cases clk a) as [-> | [[k ->] | ->]].
  - reflexivity.
  - rewrite start_blink_animation_status_handle. reflexivity.
  - rewrite stop_blink_animation_status_handle. reflexivity.
Qed.

Lemma stop_auto_update_highlight_frame a :
  _status_after_id (stop_auto_update_highlight a) = _status_after_id a /\
  current_teacher_id (stop_auto_update_highlight a) = current_teacher_id a.
Proof.
  unfold stop_auto_update_highlight.
  destruct (_highlight_after_id a) as [i|].
  - rewrite stop_blink_animation_status_handle.
    destruct (stop_blink_animation_data
                (set_highlight_after_id None (Tk.after_cancel i a))) as [_ ->].
    split; reflexivity.
  - rewrite stop_blink_animation_status_handle.
    destruct (stop_blink_animation_data a) as [_ ->]. split; reflexivity.
Qed.

Lemma start_auto_update_highlight_frame clk a :
  _status_after_id (start_auto_update_highlight clk a) = _status_after_id a /\
  current_teacher_id (start_auto_update_highlight clk a) = current_teacher_id a.
Proof.
  rewrite start_auto_update_highlight_arm. cbv zeta.
  cbn [set_handle Tk.after snd _status_after_id current_teacher_id
       set_highlight_after_id set_tk].
  rewrite update_highlight_status_handle.
  destruct (update_highlight_data clk (stop_auto_update_highlight a)) as [_ ->].
  apply stop_auto_update_highlight_frame.
Qed.

Lemma current_teacher_id_update_current_status clk a :
  current_teacher_id (update_current_status clk a) = current_teacher_id a.
Proof. unfold update_current_status. repeat case_match; simpl; congruence. Qed.

Lemma start_auto_update_status_teacher clk a :
  current_teacher_id (start_auto_update_status clk a) = current_teacher_id a.
Proof.
  rewrite start_auto_update_status_arm. cbv zeta.
  cbn [set_handle Tk.after snd current_teacher_id set_status_after_id set_tk].
  rewrite current_teacher_id_update_current_status.
  unfold stop_auto_update_status. case_match; reflexivity.
Qed.

(** A pending callback of another timer survives a restart of the status
    loop, unless the status handle names it. *)
Lemma start_auto_update_status_keeps clk a n x :
  tk_pending a !! n = Some x ->
  (n < tk_next_id a)%nat ->
  _status_after_id a <> Some n ->
  tk_pending (start_auto_update_status clk a) !! n = Some x.
Proof.
  intros Hn Hlt Hne. rewrite start_auto_update_status_arm. cbv zeta.
  pose proof (timers_update_current_status clk (stop_auto_update_status a)) as Htm.
  unfold timers in Htm. injection Htm as Hp Hid _ _ _.
  cbn [set_handle Tk.after snd tk_pending set_status_after_id set_tk].
  rewrite Hp, Hid.
  assert (tk_next_id (stop_auto_update_status a) = tk_next_id a) as ->
    by apply (stop_next_id cb_start_auto_update_status).
  rewrite lookup_insert_ne by lia.
  unfold stop_auto_update_status. destruct (_status_after_id a) as [i|]; [|exact Hn].
  cbn [tk_pending set_status_after_id Tk.after_cancel set_tk].
  rewrite lookup_delete_ne by congruence. exact Hn.
Qed.

Section selecting.

Variable strip : string -> string.
Variable lower : string -> string.

Lemma load_teacher_details_core clk g :
  core (load_teacher_details clk g) = core g \/
  core (load_teacher_details clk g) = update_current_status clk (core g).
Proof. unfold load_teacher_details. repeat case_match; auto. Qed.

Lemma load_timetable_for_teacher_tracked clk g :
  tracked (core g) -> tracked (core (load_timetable_for_teacher strip lower clk g)).
Proof.
  intros Ht. destruct (current_teacher_id (core g)) as [teacher_id|] eqn:Hc.
  - destruct (load_timetable_for_teacher_eq strip lower clk g teacher_id Hc)
      as (grid & st & _ & ->).
    simpl. apply update_highlight_tracked.
    eapply tracked_same; [|exact Ht]. reflexivity.
  - unfold load_timetable_for_teacher. rewrite Hc. exact Ht.
Qed.

(** X21: selecting a teacher (re)starts both refresh loops without
    doubling them.  Provided every pending callback is the one its timer's
    handle names, after [on_teacher_selected] on a non-empty selection the
    selected teacher is the current one, exactly one status callback and
    exactly one highlight callback are pending, and at most one blink
    callback: the restart of the status loop, which comes last, does not
    cancel the highlight callback armed just before it. *)
Theorem selecting_a_teacher_starts_both_loops teacher_id rest clk g :
  tracked (core g) ->
  let g' := on_teacher_selected strip lower (teacher_id :: rest) clk g in
  current_teacher_id (core g') = Some teacher_id /\
  size (live cb_start_auto_update_status (core g')) = 1%nat /\
  size (live cb_start_auto_update_highlight (core g')) = 1%nat /\
  (size (live cb_blink_highlight (core g')) <= 1)%nat /\
  tracked (core g').
Proof.
  intros Ht. cbv zeta. unfold on_teacher_selected.
  set (g1 := set_selected_teacher_id (Some teacher_id)
               (set_core (set_current_teacher_id (Some teacher_id) (core g)) g)).
  assert (tracked (core g1)) as Ht1 by (eapply tracked_same; [|exact Ht]; reflexivity).
  assert (current_teacher_id (core g1) = Some teacher_id) as Hc1 by reflexivity.
  clearbody g1.
  set (g2 := load_teacher_details clk g1).
  assert (tracked (core g2) /\ current_teacher_id (core g2) = Some teacher_id)
    as [Ht2 Hc2].
  { subst g2. destruct (load_teacher_details_core clk g1) as [->| ->].
    - auto.
    - rewrite current_teacher_id_update_current_status. split; [|exact Hc1].
      eapply tracked_same; [|exact Ht1]. symmetry. apply timers_update_current_status. }
  clearbody g2.
  set (g3 := load_timetable_for_teacher strip lower clk g2).
  pose proof (load_timetable_for_teacher_tracked clk g2 Ht2) as Ht3.
  destruct (load_timetable_for_teacher_data strip lower clk g2) as [_ Hc3].
  fold g3 in Ht3, Hc3. rewrite Hc2 in Hc3. clearbody g3.
  cbn [core set_core].
  destruct (start_tracked cb_start_auto_update_highlight clk (core g3) Ht3)
    as (Ht4 & n & Hn & Hlive & Hh).
  destruct (start_auto_update_highlight_frame clk (core g3)) as [Hs4 Hc4].
  cbn [start handle delay] in Ht4, Hlive, Hh.
  set (a4 := start_auto_update_highlight clk (core g3)) in *.
  assert (tk_pending a4 !! n = Some (5000, cb_start_auto_update_highlight)) as Hpn.
  { assert (live cb_start_auto_update_highlight a4 !! n
            = Some (5000, cb_start_auto_update_highlight)) as Hl
      by (rewrite Hlive; apply lookup_singleton_eq).
    unfold live in Hl. apply map_lookup_filter_Some in Hl as [Hl _]. exact Hl. }
  assert (_status_after_id a4 <> Some n) as Hne.
  { rewrite Hs4. intros Hi.
    pose proof (proj2 Ht3 cb_start_auto_update_status n Hi) as Hlt. lia. }
  assert (n < tk_next_id a4)%nat as Hlt
    by exact (proj2 Ht4 cb_start_auto_update_highlight n Hh).
  pose proof (start_auto_update_status_keeps clk a4 n _ Hpn Hlt Hne) as Hkeep.
  destruct (start_tracked cb_start_auto_update_status clk a4 Ht4)
    as (Ht5 & m & _ & Hlive5 & _).
  cbn [start delay] in Ht5, Hlive5.
  pose proof (start_auto_update_status_teacher clk a4) as Hc5.
  set (a5 := start_auto_update_status clk a4) in *.
  split; [congruence|]. split; [rewrite Hlive5; apply map_size_singleton|].
  split; [|split; [|exact Ht5]].
  - destruct (tracked_live cb_start_auto_update_highlight a5 Ht5)
      as [Hnone|(i & _ & ->)]; [|apply map_size_singleton].
    exfalso.
    assert (live cb_start_auto_update_highlight a5 !! n
            = Some (5000, cb_start_auto_update_highlight)) as Hl
      by (apply map_lookup_filter_Some; split; [exact Hkeep|reflexivity]).
    rewrite Hnone, lookup_empty in Hl. discriminate.
  - destruct (tracked_live cb_blink_highlight a5 Ht5) as [->|(i & _ & ->)].
    + rewrite map_size_empty. lia.
    + rewrite map_size_singleton. lia.
Qed.

End selecting.

(** Teacher 1 is selected twice in a row on Monday at 08:40, during the
    period of the teacher's class. *)
Lemma selecting_a_teacher_starts_both_loops_witness :
  let g := mk_gui (init_app "#d9d9d9" [ mk_row 1 1 "Monday" 1 "10A" "Maths" ])
             no_colors 1 [ mk_teacher 1 "Asha" None None None ] None in
  let g1 := on_teacher_selected strip_ascii lower_ascii [ 1 ]
              (mk_clock (hm 8 40) "Monday") g in
  let g' := on_teacher_selected strip_ascii lower_ascii [ 1 ]
              (mk_clock (hm 8 41) "Monday") g1 in
  current_teacher_id (core g') = Some 1 /\
  size (live cb_start_auto_update_status (core g')) = 1%nat /\
  size (live cb_start_auto_update_highlight (core g')) = 1%nat /\
  (size (live cb_blink_highlight (core g')) <= 1)%nat /\
  tracked (core g').
Proof.
  cbv zeta.
  apply (selecting_a_teacher_starts_both_loops strip_ascii lower_ascii 1 []
           (mk_clock (hm 8 41) "Monday")).
  apply (selecting_a_teacher_starts_both_loops strip_ascii lower_ascii 1 []
           (mk_clock (hm 8 40) "Monday")).
  apply initial_tracked, initial_init_app. discriminate.
Defined.

(** C9: the colour the blink rests on is not the colour assigned to the
    subject.  Teacher 1 teaches Maths to 10A in Monday's period 1 and is
    selected on a Monday at 08:40.  The populate loop of
    [load_timetable_for_teacher] paints the cell (Monday, 1) with the
    colour given to Maths, #4CC562; the [update_highlight] that follows
    resets the cell to the default colour before [start_blink_animation]
    records the colour to restore.  The recorded colour is therefore the
    default one: the two runs of [blink_highlight] that follow show the
    highlight colour and then the default colour, and the restore of
    [stop_blink_animation] leaves the default colour.  The colour of the
    subject is not shown again. *)
Theorem blink_rests_on_the_default_colour_of_a_painted_cell :
  let clk := mk_clock (hm 8 40) "Monday" in
  let k := ("Monday", 1) in
  let a0 := init_app "#d9d9d9" [ mk_row 1 1 "Monday" 1 "10A" "Maths" ] in
  let painted :=
    fold_left (populate_cell strip_ascii lower_ascii "#d9d9d9")
      (teacher_entries (db_timetable a0) 1)
      (config_bg "#d9d9d9" <$> grid_buttons a0, no_colors) in
  let g := on_teacher_selected strip_ascii lower_ascii [ 1 ] clk
             (mk_gui a0 no_colors 1 [ mk_teacher 1 "Asha" None None None ] None) in
  let a1 := core g in
  let a2 := fire 1 clk a1 in
  let a3 := fire 4 clk a2 in
  painted.1 !! k = Some (mk_button "#4CC562" None) /\
  subject_colors (palette g) !! "maths" = Some "#4CC562" /\
  current_highlight_btn a1 = Some k /\
  tk_pending a1 !! 1%nat = Some (500, cb_blink_highlight) /\
  grid_buttons a1 !! k = Some (mk_button "#d9d9d9" (Some "#d9d9d9")) /\
  grid_buttons a2 !! k = Some (mk_button "#00FF84" (Some "#d9d9d9")) /\
  grid_buttons a3 !! k = Some (mk_button "#d9d9d9" (Some "#d9d9d9")) /\
  grid_buttons (stop_blink_animation a3) !! k = Some (mk_button "#d9d9d9" None).
Proof. cbv zeta. repeat split; vm_compute; reflexivity. Qed.

End GuiMore.

(** ** Editing a period *)

Module EditingMore.

Import EngineFacts GuiMore.

Lemma update_row_id period_id day period cls subj r :
  row_id (update_row period_id day period cls subj r) = row_id r /\
  row_teacher_id (update_row period_id day period cls subj r) = row_teacher_id r.
Proof. unfold update_row. case_bool_decide; split; reflexivity. Qed.

Lemma update_row_other period_id day period cls subj r :
  row_id r <> period_id -> update_row period_id day period cls subj r = r.
Proof. intros H. unfold update_row. rewrite bool_decide_eq_false_2; auto. Qed.

Lemma update_row_slot period_id day period cls subj r :
  row_id r = period_id ->
  slot (update_row period_id day period cls subj r) = (row_teacher_id r, day, period).
Proof. intros H. unfold update_row. rewrite bool_decide_eq_true_2; auto. Qed.

Section editing.

Variable strip : string -> string.
Variable lower : string -> string.
Variable upper : string -> string.
Variable int_of_str : string -> option Z.

(** What an accepted [update] did. *)
Lemma edit_period_update_success period_id day_raw period_raw class_raw subject_raw
    clk g g' :
  edit_period_update strip lower upper int_of_str period_id
      day_raw period_raw class_raw subject_raw clk g
    = (g', shown (showinfo "Success" "Period updated successfully!")) ->
  exists period,
    int_of_str (strip period_raw) = Some period /\
    db_timetable (core g') =
      update_row period_id (strip day_raw) period (strip class_raw)
        (if bool_decide (upper (strip (strip class_raw)) = "FREE") then ""
         else strip subject_raw)
      <$> db_timetable (core g).
Proof.
  unfold edit_period_update. cbv zeta.
  destruct (_ || _); [discriminate|].
  destruct (int_of_str (strip period_raw)) as [period|]; [|discriminate].
  intros [= <-]. exists period. split; [reflexivity|].
  destruct (load_timetable_for_teacher_data strip lower clk
              (set_core
                 (set_db_timetable
                    (update_row period_id (strip day_raw) period (strip class_raw)
                       (if bool_decide (upper (strip (strip class_raw)) = "FREE")
                        then "" else strip subject_raw)
                     <$> db_timetable (core g)) (core g)) g)) as [-> _].
  reflexivity.
Qed.

(** X22: an accepted [update] of the Edit Period dialog rewrites the row
    with the dialog's id in place: the ids and the teachers of the rows
    stay as they were, in the same order, and every row with another id is
    untouched.  If no row with another id fills the target slot of the
    edited row's teacher, and slots and ids were unique, slots are still
    unique afterwards. *)
Theorem edit_rewrites_one_row_in_place period_id day_raw period_raw class_raw
    subject_raw clk g g' :
  edit_period_update strip lower upper int_of_str period_id
      day_raw period_raw class_raw subject_raw clk g
    = (g', shown (showinfo "Success" "Period updated successfully!")) ->
  exists period,
    int_of_str (strip period_raw) = Some period /\
    row_id <$> db_timetable (core g') = row_id <$> db_timetable (core g) /\
    row_teacher_id <$> db_timetable (core g')
      = row_teacher_id <$> db_timetable (core g) /\
    (forall i r, db_timetable (core g) !! i = Some r -> row_id r <> period_id ->
       db_timetable (core g') !! i = Some r) /\
    (unique_slots (db_timetable (core g)) ->
     NoDup (row_id <$> db_timetable (core g)) ->
     (forall r r2, r ∈ db_timetable (core g) -> r2 ∈ db_timetable (core g) ->
        row_id r = period_id ->
        slot r2 = (row_teacher_id r, strip day_raw, period) ->
        row_id r2 = period_id) ->
     unique_slots (db_timetable (core g'))).
Proof.
  intros H. apply edit_period_update_success in H as (period & Hp & ->).
  exists period. split; [exact Hp|].
  set (f := update_row period_id (strip day_raw) period (strip class_raw) _).
  split; [|split; [|split]].
  - rewrite <- list_fmap_compose. apply list_fmap_ext. intros i r _. apply update_row_id.
  - rewrite <- list_fmap_compose. apply list_fmap_ext. intros i r _. apply update_row_id.
  - intros i r Hi Hne. rewrite list_lookup_fmap, Hi. simpl. f_equal.
    apply update_row_other. exact Hne.
  - intros Hu Hid Hfree. unfold unique_slots in *. rewrite <- list_fmap_compose.
    apply NoDup_alt. intros i j s Hi Hj.
    rewrite list_lookup_fmap in Hi, Hj.
    destruct (db_timetable (core g) !! i) as [ri|] eqn:Hri; [|discriminate].
    destruct (db_timetable (core g) !! j) as [rj|] eqn:Hrj; [|discriminate].
    simpl in Hi, Hj. injection Hi as Hi. injection Hj as Hj.
    pose proof (list_elem_of_lookup_2 _ _ _ Hri) as Hini.
    pose proof (list_elem_of_lookup_2 _ _ _ Hrj) as Hinj.
    assert (forall k1 k2 r1 r2, db_timetable (core g) !! k1 = Some r1 ->
              db_timetable (core g) !! k2 = Some r2 -> row_id r1 = row_id r2 ->
              k1 = k2) as Hids.
    { intros k1 k2 r1 r2 H1 H2 He. apply (proj1 (NoDup_alt _) Hid k1 k2 (row_id r1)).
      - rewrite list_lookup_fmap, H1. reflexivity.
      - rewrite list_lookup_fmap, H2, He. reflexivity. }
    assert (forall k1 k2 r1 r2, db_timetable (core g) !! k1 = Some r1 ->
              db_timetable (core g) !! k2 = Some r2 -> slot r1 = slot r2 ->
              k1 = k2) as Hslots.
    { intros k1 k2 r1 r2 H1 H2 He. apply (proj1 (NoDup_alt _) Hu k1 k2 (slot r1)).
      - rewrite list_lookup_fmap, H1. reflexivity.
      - rewrite list_lookup_fmap, H2, He. reflexivity. }
    destruct (decide (row_id ri = period_id)) as [Hei|Hni];
      destruct (decide (row_id rj = period_id)) as [Hej|Hnj].
    + apply (Hids i j ri rj Hri Hrj). congruence.
    + exfalso. apply Hnj. apply (Hfree ri rj Hini Hinj Hei).
      unfold f in Hi, Hj. rewrite update_row_slot in Hi by exact Hei.
      rewrite update_row_other in Hj by exact Hnj. congruence.
    + exfalso. apply Hni. apply (Hfree rj ri Hinj Hini Hej).
      unfold f in Hi, Hj. rewrite update_row_slot in Hj by exact Hej.
      rewrite update_row_other in Hi by exact Hni. congruence.
    + unfold f in Hi, Hj. rewrite update_row_other in Hi by exact Hni.
      rewrite update_row_other in Hj by exact Hnj.
      apply (Hslots i j ri rj Hri Hrj). congruence.
Qed.

(** X23: [update] does not look at the target slot.  When the edit is
    accepted and another row already fills the slot the edited row is
    moved to, both rows fill that slot afterwards. *)
Theorem edit_onto_a_filled_slot_fills_it_twice period_id day_raw period_raw
    class_raw subject_raw clk g g' period r r2 :
  edit_period_update strip lower upper int_of_str period_id
      day_raw period_raw class_raw subject_raw clk g
    = (g', shown (showinfo "Success" "Period updated successfully!")) ->
  int_of_str (strip period_raw) = Some period ->
  r ∈ db_timetable (core g) -> row_id r = period_id ->
  r2 ∈ db_timetable (core g) -> row_id r2 <> period_id ->
  slot r2 = (row_teacher_id r, strip day_raw, period) ->
  exists r', r' ∈ db_timetable (core g') /\ r2 ∈ db_timetable (core g') /\
    r' <> r2 /\ row_id r' = period_id /\ slot r' = slot r2 /\
    ~ unique_slots (db_timetable (core g')).
Proof.
  intros H Hp Hr Hid Hr2 Hid2 Hslot.
  apply edit_period_update_success in H as (period' & Hp' & Hrows).
  rewrite Hp in Hp'. injection Hp' as <-.
  set (f := update_row period_id (strip day_raw) period (strip class_raw) _) in Hrows.
  assert (f r ∈ db_timetable (core g')) as Hin
    by (rewrite Hrows; apply list_elem_of_fmap; eauto).
  assert (r2 ∈ db_timetable (core g')) as Hin2.
  { rewrite Hrows. apply list_elem_of_fmap. exists r2. split; [|exact Hr2].
    symmetry. apply update_row_other. exact Hid2. }
  assert (row_id (f r) = period_id) as Hidf
    by (unfold f; rewrite (proj1 (update_row_id _ _ _ _ _ r)); exact Hid).
  assert (slot (f r) = slot r2) as Hsf
    by (unfold f; rewrite update_row_slot by exact Hid; congruence).
  assert (f r <> r2) as Hne by (intros He; rewrite He in Hidf; contradiction).
  exists (f r). repeat split; try assumption.
  intros Hu. apply Hne.
  apply (NoDup_fmap_eq slot (db_timetable (core g'))); assumption.
Qed.

End editing.

(** Row 1 (Monday, period 1) is moved to the free slot (Tuesday, 3). *)
Lemma edit_rewrites_one_row_in_place_witness :
  let g := mk_gui
             (set_current_teacher_id (Some 1)
                (init_app "#d9d9d9"
                   [ mk_row 1 1 "Monday" 1 "10A" "Maths";
                     mk_row 2 1 "Monday" 2 "9B" "Physics" ]))
             no_colors 2 [] (Some 1) in
  let g' := (edit_period_update strip_ascii lower_ascii upper_ascii int_ascii 1
               "Tuesday" "3" "9B" "Art" (mk_clock (hm 12 0) "Wednesday") g).1 in
  exists period,
    int_ascii (strip_ascii "3") = Some period /\
    row_id <$> db_timetable (core g') = row_id <$> db_timetable (core g) /\
    row_teacher_id <$> db_timetable (core g')
      = row_teacher_id <$> db_timetable (core g) /\
    (forall i r, db_timetable (core g) !! i = Some r -> row_id r <> 1 ->
       db_timetable (core g') !! i = Some r) /\
    (unique_slots (db_timetable (core g)) ->
     NoDup (row_id <$> db_timetable (core g)) ->
     (forall r r2, r ∈ db_timetable (core g) -> r2 ∈ db_timetable (core g) ->
        row_id r = 1 ->
        slot r2 = (row_teacher_id r, strip_ascii "Tuesday", period) ->
        row_id r2 = 1) ->
     unique_slots (db_timetable (core g'))).
Proof.
  cbv zeta.
  apply (edit_rewrites_one_row_in_place strip_ascii lower_ascii upper_ascii int_ascii 1
           "Tuesday" "3" "9B" "Art" (mk_clock (hm 12 0) "Wednesday")).
  apply pair_with_snd. vm_compute. reflexivity.
Defined.

(** Row 1 (Monday, period 1) is moved onto Monday's period 2, which row 2
    fills. *)
Lemma edit_onto_a_filled_slot_fills_it_twice_witness :
  let g := mk_gui
             (set_current_teacher_id (Some 1)
                (init_app "#d9d9d9"
                   [ mk_row 1 1 "Monday" 1 "10A" "Maths";
                     mk_row 2 1 "Monday" 2 "9B" "Physics" ]))
             no_colors 2 [] (Some 1) in
  let g' := (edit_period_update strip_ascii lower_ascii upper_ascii int_ascii 1
               "Monday" "2" "10A" "Maths" (mk_clock (hm 12 0) "Wednesday") g).1 in
  exists r', r' ∈ db_timetable (core g') /\
    mk_row 2 1 "Monday" 2 "9B" "Physics" ∈ db_timetable (core g') /\
    r' <> mk_row 2 1 "Monday" 2 "9B" "Physics" /\ row_id r' = 1 /\
    slot r' = slot (mk_row 2 1 "Monday" 2 "9B" "Physics") /\
    ~ unique_slots (db_timetable (core g')).
Proof.
  cbv zeta.
  apply (edit_onto_a_filled_slot_fills_it_twice strip_ascii lower_ascii upper_ascii
           int_ascii 1 "Monday" "2" "10A" "Maths" (mk_clock (hm 12 0) "Wednesday")
           (mk_gui
              (set_current_teacher_id (Some 1)
                 (init_app "#d9d9d9"
                    [ mk_row 1 1 "Monday" 1 "10A" "Maths";
                      mk_row 2 1 "Monday" 2 "9B" "Physics" ]))
              no_colors 2 [] (Some 1))
           _ 2 (mk_row 1 1 "Monday" 1 "10A" "Maths")).
  - apply pair_with_snd. vm_compute. reflexivity.
  - reflexivity.
  - cbn [core db_timetable set_current_teacher_id init_app]. left.
  - reflexivity.
  - cbn [core db_timetable set_current_teacher_id init_app]. right. left.
  - discriminate.
  - reflexivity.
Defined.

End EditingMore.

(** ** Importing a timetable *)

Module ImportMore.

Import EngineFacts GuiMore.

Lemma set_class_keeps t d p c s r :
  row_id (set_class t d p c s r) = row_id r /\
  slot (set_class t d p c s r) = slot r.
Proof. unfold set_class. destruct (matches t d p r); split; reflexivity. Qed.

Lemma set_class_other t d p c s r :
  matches t d p r = false -> set_class t d p c s r = r.
Proof. intros H. unfold set_class. rewrite H. reflexivity. Qed.

Lemma set_class_rows_ids t d p c s (rows : list row) :
  row_id <$> (set_class t d p c s <$> rows) = row_id <$> rows /\
  slot <$> (set_class t d p c s <$> rows) = slot <$> rows.
Proof.
  rewrite <- !list_fmap_compose.
  split; apply list_fmap_ext; intros i r _; apply set_class_keeps.
Qed.

Lemma set_class_rows_none t d p c s (rows : list row) :
  fetchone rows t d p = None -> set_class t d p c s <$> rows = rows.
Proof.
  rewrite fetchone_None. intros Hnone.
  induction rows as [|r rows IH]; [reflexivity|].
  rewrite fmap_cons, IH by (intros r' Hr'; apply Hnone; right; exact Hr').
  rewrite set_class_other by (apply Hnone; left). reflexivity.
Qed.

Lemma rowcount_zero (rows : list row) t d p :
  length (filter (fun r => matches t d p r = true) rows) = 0%nat <->
  fetchone rows t d p = None.
Proof.
  unfold fetchone. rewrite head_None. split.
  - apply nil_length_inv.
  - intros ->. reflexivity.
Qed.

Section importing.

Variable strip : string -> string.
Variable lower : string -> string.
Variable int_of_float_str : string -> option Z.

Variables day_col period_col class_col : string.
Variable subject_col : option string.
Variable teacher_id : Z.

Local Abbreviation step :=
  (import_record strip int_of_float_str day_col period_col class_col subject_col
     teacher_id).

(** The three ways a turn of the loop ends. *)
Lemma import_record_cases tb tl rec :
  (step (tb, tl) rec = (tb, mk_tally (inserted tl) (updated tl) (S (skipped tl))) /\
   (cell strip day_col rec = None \/ period_of strip int_of_float_str period_col rec = None)) \/
  exists d p c s,
    cell strip day_col rec = Some d /\
    period_of strip int_of_float_str period_col rec = Some p /\
    ((is_Some (fetchone (tb_rows tb) teacher_id d p) /\
      step (tb, tl) rec
        = (mk_table (set_class teacher_id d p c s <$> tb_rows tb) (tb_seq tb),
           mk_tally (inserted tl) (S (updated tl)) (skipped tl))) \/
     (fetchone (tb_rows tb) teacher_id d p = None /\
      step (tb, tl) rec
        = (mk_table
             (tb_rows tb ++
                [mk_row (next_rowid (tb_rows tb) (tb_seq tb)) teacher_id d p c s])
             (next_rowid (tb_rows tb) (tb_seq tb)),
           mk_tally (S (inserted tl)) (updated tl) (skipped tl)))).
Proof.
  unfold import_record.
  destruct (cell strip day_col rec) as [d|]; [|left; auto].
  destruct (period_of strip int_of_float_str period_col rec) as [p|]; [|left; auto].
  right. cbv zeta.
  exists d, p, (default "" (cell strip class_col rec)),
    (match subject_col with
     | Some c => if bool_decide (c = "") then "" else default "" (cell strip c rec)
     | None => ""
     end).
  split; [reflexivity|]. split; [reflexivity|].
  case_bool_decide as Hcount.
  - right. apply rowcount_zero in Hcount. split; [exact Hcount|].
    rewrite set_class_rows_none by exact Hcount. reflexivity.
  - left. split; [|reflexivity].
    destruct (fetchone (tb_rows tb) teacher_id d p) eqn:Hf; [eauto|].
    apply rowcount_zero in Hf. contradiction.
Qed.

(** Every record is counted once, and the table grows by the number of
    inserts. *)
Lemma import_counts recs tb tl :
  let r := fold_left step recs (tb, tl) in
  (inserted r.2 + updated r.2 + skipped r.2
     = inserted tl + updated tl + skipped tl + length recs)%nat /\
  (inserted tl <= inserted r.2)%nat /\
  (length (tb_rows r.1) + inserted tl = length (tb_rows tb) + inserted r.2)%nat.
Proof.
  cbv zeta. revert tb tl. induction recs as [|rec recs IH]; intros tb tl.
  { simpl. lia. }
  cbn [fold_left].
  destruct (import_record_cases tb tl rec)
    as [[-> _]|(d & p & c & s & _ & _ & [[_ ->]|[_ ->]])];
    match goal with
    | |- context [fold_left step recs (?tb', ?tl')] =>
        destruct (IH tb' tl') as (H1 & H2 & H3)
    end;
    cbn [inserted updated skipped tb_rows] in H1, H2, H3;
    rewrite ?length_fmap, ?length_app in H3; cbn [length] in *; lia.
Qed.

(** An invariant of the table that every turn keeps holds at the end. *)
Lemma import_fold_inv (P : table -> Prop) recs tb tl :
  P tb ->
  (forall tb tl rec, rec ∈ recs -> P tb -> P (step (tb, tl) rec).1) ->
  P (fold_left step recs (tb, tl)).1.
Proof.
  revert tb tl. induction recs as [|rec recs IH]; intros tb tl H0 Hstep; [exact H0|].
  cbn [fold_left]. pose proof (Hstep tb tl rec ltac:(left) H0) as H1.
  destruct (step (tb, tl) rec) as [tb1 tl1]. apply IH; [exact H1|].
  intros tb' tl' rec' Hin. apply Hstep. right. exact Hin.
Qed.

Lemma import_record_unique tb tl rec :
  unique_slots (tb_rows tb) /\ NoDup (row_id <$> tb_rows tb) ->
  unique_slots (tb_rows (step (tb, tl) rec).1) /\
  NoDup (row_id <$> tb_rows (step (tb, tl) rec).1).
Proof.
  intros [Hu Hid]. unfold unique_slots in *.
  destruct (import_record_cases tb tl rec)
    as [[-> _]|(d & p & c & s & _ & _ & [[_ ->]|[Hf ->]])]; cbn [fst tb_rows].
  - auto.
  - destruct (set_class_rows_ids teacher_id d p c s (tb_rows tb)) as [-> ->]. auto.
  - rewrite !fmap_app. simpl. split.
    + apply NoDup_app. split; [exact Hu|]. split; [|apply NoDup_singleton].
      intros sl Hs Hs'. apply list_elem_of_singleton in Hs'. subst sl.
      apply list_elem_of_fmap in Hs as (r0 & Hslot & Hr0).
      rewrite fetchone_None in Hf. specialize (Hf r0 Hr0).
      assert (matches teacher_id d p r0 = true) as Hm
        by (apply slot_matches; symmetry; exact Hslot).
      congruence.
    + apply NoDup_app. split; [exact Hid|]. split; [|apply NoDup_singleton].
      intros i Hi Hi'. apply list_elem_of_singleton in Hi'. subst i.
      apply list_elem_of_fmap in Hi as (r0 & Hi & Hr0).
      pose proof (next_rowid_fresh _ (tb_seq tb) _ Hr0) as Hlt. lia.
Qed.

(** Every row of [rows] is still at its place in [rows'], with its id and
    its slot, and unchanged when it belongs to another teacher. *)
Lemma import_record_keeps (rows : list row) tb tl rec :
  (forall i r, rows !! i = Some r ->
     exists r', tb_rows tb !! i = Some r' /\ row_id r' = row_id r /\
       slot r' = slot r /\ (row_teacher_id r <> teacher_id -> r' = r)) ->
  forall i r, rows !! i = Some r ->
    exists r', tb_rows (step (tb, tl) rec).1 !! i = Some r' /\ row_id r' = row_id r /\
      slot r' = slot r /\ (row_teacher_id r <> teacher_id -> r' = r).
Proof.
  intros Hkeep i r Hi. destruct (Hkeep i r Hi) as (r' & Hi' & Hid & Hslot & Hother).
  destruct (import_record_cases tb tl rec)
    as [[-> _]|(d & p & c & s & _ & _ & [[_ ->]|[_ ->]])]; cbn [fst tb_rows].
  - eauto.
  - exists (set_class teacher_id d p c s r'). rewrite list_lookup_fmap, Hi'.
    destruct (set_class_keeps teacher_id d p c s r') as [-> ->].
    split; [reflexivity|]. split; [exact Hid|]. split; [exact Hslot|].
    intros Hne. specialize (Hother Hne). subst r'. apply set_class_other.
    destruct (matches teacher_id d p r) eqn:Hm; [|reflexivity].
    apply matches_true in Hm as [Hm _]. contradiction.
  - exists r'. rewrite lookup_app_l by (eapply lookup_lt_Some; exact Hi'). auto.
Qed.

Lemma filled_stays_filled (rows rows' : list row) t d p :
  (forall i r, rows !! i = Some r ->
     exists r', rows' !! i = Some r' /\ row_id r' = row_id r /\
       slot r' = slot r /\ (row_teacher_id r <> teacher_id -> r' = r)) ->
  is_Some (fetchone rows t d p) -> is_Some (fetchone rows' t d p).
Proof.
  intros Hkeep [r Hr]. apply fetchone_Some in Hr as (Hin & H1 & H2 & H3).
  apply list_elem_of_lookup_1 in Hin as [i Hi].
  destruct (Hkeep i r Hi) as (r' & Hi' & _ & Hslot & _).
  destruct (fetchone rows' t d p) eqn:Hf; [eauto|].
  rewrite fetchone_None in Hf.
  specialize (Hf r' (list_elem_of_lookup_2 _ _ _ Hi')).
  assert (matches t d p r' = true) as Hm.
  { apply slot_matches. rewrite Hslot. unfold slot. congruence. }
  congruence.
Qed.

Lemma import_fold_keeps recs tb tl :
  forall i r, tb_rows tb !! i = Some r ->
    exists r', tb_rows (fold_left step recs (tb, tl)).1 !! i = Some r' /\
      row_id r' = row_id r /\ slot r' = slot r /\
      (row_teacher_id r <> teacher_id -> r' = r).
Proof.
  apply (import_fold_inv
           (fun tb' => forall i r, tb_rows tb !! i = Some r ->
              exists r', tb_rows tb' !! i = Some r' /\ row_id r' = row_id r /\
                slot r' = slot r /\ (row_teacher_id r <> teacher_id -> r' = r))).
  - intros i r Hi. eauto.
  - intros tb' tl' rec _ Hkeep. apply import_record_keeps. exact Hkeep.
Qed.

(** The slot of every record that is not skipped is filled at the end. *)
Lemma import_fold_fills recs tb tl rec d p :
  rec ∈ recs ->
  cell strip day_col rec = Some d ->
  period_of strip int_of_float_str period_col rec = Some p ->
  is_Some (fetchone (tb_rows (fold_left step recs (tb, tl)).1) teacher_id d p).
Proof.
  intros Hin Hd Hp. revert tb tl.
  induction recs as [|rec0 recs IH]; intros tb tl.
  { apply elem_of_nil in Hin. contradiction. }
  cbn [fold_left]. apply elem_of_cons in Hin as [<-|Hin].
  - destruct (step (tb, tl) rec) as [tb1 tl1] eqn:Hstep.
    apply (filled_stays_filled (tb_rows tb1)); [apply import_fold_keeps|].
    destruct (import_record_cases tb tl rec)
      as [[_ [Hn|Hn]]|(d' & p' & c & s & Hd' & Hp' & Hcase)]; try congruence.
    assert (d' = d) as -> by congruence. assert (p' = p) as -> by congruence.
    destruct Hcase as [[Hsome Heq]|[Hnone Heq]]; rewrite Hstep in Heq;
      injection Heq as -> _; cbn [tb_rows].
    + apply (filled_stays_filled (tb_rows tb)); [|exact Hsome].
      intros i r Hi. exists (set_class teacher_id d p c s r).
      rewrite list_lookup_fmap, Hi.
      destruct (set_class_keeps teacher_id d p c s r) as [-> ->].
      repeat split; try reflexivity. intros Hne. apply set_class_other.
      destruct (matches teacher_id d p r) eqn:Hm; [|reflexivity].
      apply matches_true in Hm as [Hm _]. contradiction.
    + rewrite (fetchone_app_new (tb_rows tb)
                 (mk_row (next_rowid (tb_rows tb) (tb_seq tb)) teacher_id d p c s)
                 teacher_id d p Hnone eq_refl).
      eauto.
  - destruct (step (tb, tl) rec0) as [tb1 tl1]. apply IH. exact Hin.
Qed.

End importing.

Section import_timetable.

Variable strip : string -> string.
Variable lower : string -> string.
Variable int_of_float_str : string -> option Z.

(** What a completed import did. *)
Lemma import_success sh clk g g' msg :
  import_timetable_from_excel strip lower int_of_float_str (frame sh) clk g
    = (g', shown (showinfo "Import Complete" msg)) ->
  exists t dc pc cc tb tl,
    selected_teacher_id g = Some t /\ t <> 0 /\
    find_col strip lower (columns sh) [ "day"; "day of week"; "day_of_week" ] = Some dc /\
    find_col strip lower (columns sh) [ "period"; "period number"; "period_number" ]
      = Some pc /\
    find_col strip lower (columns sh) [ "class"; "class name"; "class_name" ] = Some cc /\
    import_rows strip int_of_float_str dc pc cc
        (find_col strip lower (columns sh) [ "subject"; "subjects" ]) t (records sh)
        (mk_table (db_timetable (core g)) (timetable_seq g)) = (tb, tl) /\
    db_timetable (core g') = tb_rows tb /\
    msg = "Imported " +:+ pretty (inserted tl) +:+ " timetable rows for this teacher.".
Proof.
  unfold import_timetable_from_excel.
  destruct (selected_teacher_id g) as [t|]; [|discriminate].
  case_bool_decide as Ht; [discriminate|]. cbv zeta.
  destruct (find_col strip lower (columns sh) [ "day"; "day of week"; "day_of_week" ])
    as [dc|]; [|discriminate].
  destruct (find_col strip lower (columns sh)
              [ "period"; "period number"; "period_number" ]) as [pc|]; [|discriminate].
  destruct (find_col strip lower (columns sh) [ "class"; "class name"; "class_name" ])
    as [cc|]; [|discriminate].
  destruct (import_rows strip int_of_float_str dc pc cc _ t (records sh) _)
    as [tb tl] eqn:Hrows.
  intros [= <- <-]. exists t, dc, pc, cc, tb, tl.
  do 5 (split; [first [reflexivity|assumption]|]). split; [exact Hrows|].
  split; [|reflexivity].
  destruct (load_timetable_for_teacher_data strip lower clk
              (set_timetable_seq (tb_seq tb)
                 (set_core (set_db_timetable (tb_rows tb) (core g)) g))) as [-> _].
  reflexivity.
Qed.

Lemma import_cases file clk g :
  (import_timetable_from_excel strip lower int_of_float_str file clk g).1 = g \/
  exists sh msg, file = frame sh /\
    import_timetable_from_excel strip lower int_of_float_str file clk g
      = ((import_timetable_from_excel strip lower int_of_float_str file clk g).1,
         shown (showinfo "Import Complete" msg)).
Proof.
  unfold import_timetable_from_excel.
  destruct (selected_teacher_id g) as [t|]; [|left; reflexivity].
  case_bool_decide as Ht; [left; reflexivity|].
  destruct file as [|e|sh]; [left; reflexivity..|]. cbv zeta.
  destruct (find_col strip lower (columns sh) [ "day"; "day of week"; "day_of_week" ])
    as [dc|]; [|left; reflexivity].
  destruct (find_col strip lower (columns sh)
              [ "period"; "period number"; "period_number" ])
    as [pc|]; [|left; reflexivity].
  destruct (find_col strip lower (columns sh) [ "class"; "class name"; "class_name" ])
    as [cc|]; [|left; reflexivity].
  destruct (import_rows strip int_of_float_str dc pc cc _ t (records sh) _) as [tb tl].
  right. eexists sh, _. split; reflexivity.
Qed.

(** X24: every record of the file is counted exactly once, as inserted,
    updated or skipped; the table grows by the number of inserted rows,
    and that number is the one the closing message reports (updated rows
    are not part of it). *)
Theorem import_reports_the_rows_it_added sh clk g g' msg :
  import_timetable_from_excel strip lower int_of_float_str (frame sh) clk g
    = (g', shown (showinfo "Import Complete" msg)) ->
  exists n_inserted n_updated n_skipped : nat,
    msg = "Imported " +:+ pretty n_inserted +:+ " timetable rows for this teacher." /\
    (n_inserted + n_updated + n_skipped = length (records sh))%nat /\
    length (db_timetable (core g'))
      = (length (db_timetable (core g)) + n_inserted)%nat.
Proof.
  intros H. apply import_success in H
    as (t & dc & pc & cc & tb & tl & _ & _ & _ & _ & _ & Hrows & -> & ->).
  exists (inserted tl), (updated tl), (skipped tl). split; [reflexivity|].
  pose proof (import_counts strip int_of_float_str dc pc cc
                (find_col strip lower (columns sh) [ "subject"; "subjects" ]) t
                (records sh) (mk_table (db_timetable (core g)) (timetable_seq g))
                (mk_tally 0 0 0)) as Hc.
  cbv zeta in Hc. unfold import_rows in Hrows. rewrite Hrows in Hc.
  cbn [fst snd inserted updated skipped tb_rows] in Hc. lia.
Qed.

(** X25: the import keeps the slots unique.  If no two rows fill the same
    slot and no two rows share an id before
    [import_timetable_from_excel], the same holds after it, whatever the
    file holds and however the import ends. *)
Theorem import_keeps_slots_unique file clk g :
  unique_slots (db_timetable (core g)) ->
  NoDup (row_id <$> db_timetable (core g)) ->
  let g' := (import_timetable_from_excel strip lower int_of_float_str file clk g).1 in
  unique_slots (db_timetable (core g')) /\
  NoDup (row_id <$> db_timetable (core g')).
Proof.
  intros Hu Hid. cbv zeta.
  destruct (import_cases file clk g) as [->|(sh & msg & -> & Heq)]; [auto|].
  apply import_success in Heq
    as (t & dc & pc & cc & tb & tl & _ & _ & _ & _ & _ & Hrows & -> & _).
  unfold import_rows in Hrows.
  pose proof (import_fold_inv strip int_of_float_str dc pc cc
                (find_col strip lower (columns sh) [ "subject"; "subjects" ]) t
                (fun tb => unique_slots (tb_rows tb) /\ NoDup (row_id <$> tb_rows tb))
                (records sh) (mk_table (db_timetable (core g)) (timetable_seq g))
                (mk_tally 0 0 0)) as Hinv.
  rewrite Hrows in Hinv. apply Hinv; [split; assumption|].
  intros tb' tl' rec _. apply import_record_unique.
Qed.

(** X26: the import deletes nothing and moves nothing.  After a completed
    import every row that was in the table is still at its place with the
    same id, teacher, day and period (only its class and subject may have
    been rewritten), and the rows of the other teachers are unchanged. *)
Theorem import_keeps_every_row sh clk g g' msg t i r :
  import_timetable_from_excel strip lower int_of_float_str (frame sh) clk g
    = (g', shown (showinfo "Import Complete" msg)) ->
  selected_teacher_id g = Some t ->
  db_timetable (core g) !! i = Some r ->
  exists r', db_timetable (core g') !! i = Some r' /\
    row_id r' = row_id r /\ slot r' = slot r /\
    (row_teacher_id r <> t -> r' = r).
Proof.
  intros H Ht Hi. apply import_success in H
    as (t' & dc & pc & cc & tb & tl & Ht' & _ & _ & _ & _ & Hrows & -> & _).
  assert (t' = t) as -> by congruence.
  unfold import_rows in Hrows.
  pose proof (import_fold_keeps strip int_of_float_str dc pc cc
                (find_col strip lower (columns sh) [ "subject"; "subjects" ]) t
                (records sh) (mk_table (db_timetable (core g)) (timetable_seq g))
                (mk_tally 0 0 0) i r Hi) as Hk.
  rewrite Hrows in Hk. exact Hk.
Qed.

(** X27: after a completed import the selected teacher has a row for the
    day and period of every record of the file that was not skipped, that
    is, every record with a non-blank day and a period that reads as a
    number. *)
Theorem import_fills_the_slot_of_every_record sh clk g g' msg t dc pc rec d p :
  import_timetable_from_excel strip lower int_of_float_str (frame sh) clk g
    = (g', shown (showinfo "Import Complete" msg)) ->
  selected_teacher_id g = Some t ->
  find_col strip lower (columns sh) [ "day"; "day of week"; "day_of_week" ] = Some dc ->
  find_col strip lower (columns sh) [ "period"; "period number"; "period_number" ]
    = Some pc ->
  rec ∈ records sh ->
  cell strip dc rec = Some d ->
  period_of strip int_of_float_str pc rec = Some p ->
  is_Some (fetchone (db_timetable (core g')) t d p).
Proof.
  intros H Ht Hdc Hpc Hin Hd Hp. apply import_success in H
    as (t' & dc' & pc' & cc & tb & tl & Ht' & _ & Hdc' & Hpc' & _ & Hrows & -> & _).
  assert (t' = t) as -> by congruence.
  assert (dc' = dc) as -> by congruence.
  assert (pc' = pc) as -> by congruence.
  unfold import_rows in Hrows.
  pose proof (import_fold_fills strip int_of_float_str dc pc cc
                (find_col strip lower (columns sh) [ "subject"; "subjects" ]) t
                (records sh) (mk_table (db_timetable (core g)) (timetable_seq g))
                (mk_tally 0 0 0) rec d p Hin Hd Hp) as Hf.
  rewrite Hrows in Hf. exact Hf.
Qed.

End import_timetable.

(** A file of three records for teacher 1, who has Monday's period 1: the
    first record rewrites that row, the second adds (Tuesday, 2), the
    third has no day and is skipped. *)
Lemma import_reports_the_rows_it_added_witness :
  let sh := (mk_sheet [ "Day"; " period "; "CLASS"; "Subject" ]
              [ {[ "Day" := "Monday"; " period " := "1"; "CLASS" := "10B";
                   "Subject" := "Algebra" ]};
                {[ "Day" := " Tuesday"; " period " := "2"; "CLASS" := "FREE" ]};
                {[ " period " := "3"; "CLASS" := "9A" ]} ]) in
  let g := (mk_gui
             (set_current_teacher_id (Some 1)
                (init_app "#d9d9d9" [ mk_row 1 1 "Monday" 1 "10A" "Maths" ]))
             no_colors 1 [] (Some 1)) in
  let g' := (import_timetable_from_excel strip_ascii lower_ascii int_ascii (frame sh)
               (mk_clock (hm 12 0) "Wednesday") g).1 in
  exists n_inserted n_updated n_skipped : nat,
    "Imported 1 timetable rows for this teacher."
      = "Imported " +:+ pretty n_inserted +:+ " timetable rows for this teacher." /\
    (n_inserted + n_updated + n_skipped = length (records sh))%nat /\
    length (db_timetable (core g'))
      = (length (db_timetable (core g)) + n_inserted)%nat.
Proof.
  cbv zeta.
  apply (import_reports_the_rows_it_added strip_ascii lower_ascii int_ascii _
           (mk_clock (hm 12 0) "Wednesday")).
  apply pair_with_snd. vm_compute. reflexivity.
Defined.

Lemma import_keeps_slots_unique_witness :
  let sh := (mk_sheet [ "Day"; " period "; "CLASS"; "Subject" ]
              [ {[ "Day" := "Monday"; " period " := "1"; "CLASS" := "10B";
                   "Subject" := "Algebra" ]};
                {[ "Day" := " Tuesday"; " period " := "2"; "CLASS" := "FREE" ]};
                {[ " period " := "3"; "CLASS" := "9A" ]} ]) in
  let g := (mk_gui
             (set_current_teacher_id (Some 1)
                (init_app "#d9d9d9" [ mk_row 1 1 "Monday" 1 "10A" "Maths" ]))
             no_colors 1 [] (Some 1)) in
  let g' := (import_timetable_from_excel strip_ascii lower_ascii int_ascii (frame sh)
               (mk_clock (hm 12 0) "Wednesday") g).1 in
  unique_slots (db_timetable (core g')) /\
  NoDup (row_id <$> db_timetable (core g')).
Proof.
  cbv zeta.
  apply (import_keeps_slots_unique strip_ascii lower_ascii int_ascii).
  - unfold unique_slots. by_decide.
  - by_decide.
Defined.

Lemma import_keeps_every_row_witness :
  let sh := (mk_sheet [ "Day"; " period "; "CLASS"; "Subject" ]
              [ {[ "Day" := "Monday"; " period " := "1"; "CLASS" := "10B";
                   "Subject" := "Algebra" ]};
                {[ "Day" := " Tuesday"; " period " := "2"; "CLASS" := "FREE" ]};
                {[ " period " := "3"; "CLASS" := "9A" ]} ]) in
  let g := (mk_gui
             (set_current_teacher_id (Some 1)
                (init_app "#d9d9d9" [ mk_row 1 1 "Monday" 1 "10A" "Maths" ]))
             no_colors 1 [] (Some 1)) in
  let g' := (import_timetable_from_excel strip_ascii lower_ascii int_ascii (frame sh)
               (mk_clock (hm 12 0) "Wednesday") g).1 in
  exists r', db_timetable (core g') !! 0%nat = Some r' /\
    row_id r' = 1 /\ slot r' = (1, "Monday", 1) /\
    (1 <> 1 -> r' = mk_row 1 1 "Monday" 1 "10A" "Maths").
Proof.
  cbv zeta.
  apply (import_keeps_every_row strip_ascii lower_ascii int_ascii
           (mk_sheet [ "Day"; " period "; "CLASS"; "Subject" ]
              [ {[ "Day" := "Monday"; " period " := "1"; "CLASS" := "10B";
                   "Subject" := "Algebra" ]};
                {[ "Day" := " Tuesday"; " period " := "2"; "CLASS" := "FREE" ]};
                {[ " period " := "3"; "CLASS" := "9A" ]} ])
           (mk_clock (hm 12 0) "Wednesday")
           (mk_gui
             (set_current_teacher_id (Some 1)
                (init_app "#d9d9d9" [ mk_row 1 1 "Monday" 1 "10A" "Maths" ]))
             no_colors 1 [] (Some 1))
           _ "Imported 1 timetable rows for this teacher." 1 0%nat
           (mk_row 1 1 "Monday" 1 "10A" "Maths")).
  - apply pair_with_snd. vm_compute. reflexivity.
  - reflexivity.
  - reflexivity.
Defined.

Lemma import_fills_the_slot_of_every_record_witness :
  let sh := (mk_sheet [ "Day"; " period "; "CLASS"; "Subject" ]
              [ {[ "Day" := "Monday"; " period " := "1"; "CLASS" := "10B";
                   "Subject" := "Algebra" ]};
                {[ "Day" := " Tuesday"; " period " := "2"; "CLASS" := "FREE" ]};
                {[ " period " := "3"; "CLASS" := "9A" ]} ]) in
  let g := (mk_gui
             (set_current_teacher_id (Some 1)
                (init_app "#d9d9d9" [ mk_row 1 1 "Monday" 1 "10A" "Maths" ]))
             no_colors 1 [] (Some 1)) in
  let g' := (import_timetable_from_excel strip_ascii lower_ascii int_ascii (frame sh)
               (mk_clock (hm 12 0) "Wednesday") g).1 in
  is_Some (fetchone (db_timetable (core g')) 1 "Tuesday" 2).
Proof.
  cbv zeta.
  apply (import_fills_the_slot_of_every_record strip_ascii lower_ascii int_ascii
           (mk_sheet [ "Day"; " period "; "CLASS"; "Subject" ]
              [ {[ "Day" := "Monday"; " period " := "1"; "CLASS" := "10B";
                   "Subject" := "Algebra" ]};
                {[ "Day" := " Tuesday"; " period " := "2"; "CLASS" := "FREE" ]};
                {[ " period " := "3"; "CLASS" := "9A" ]} ])
           (mk_clock (hm 12 0) "Wednesday")
           (mk_gui
             (set_current_teacher_id (Some 1)
                (init_app "#d9d9d9" [ mk_row 1 1 "Monday" 1 "10A" "Maths" ]))
             no_colors 1 [] (Some 1))
           _ "Imported 1 timetable rows for this teacher." 1 "Day" " period "
           {[ "Day" := " Tuesday"; " period " := "2"; "CLASS" := "FREE" ]}).
  - apply pair_with_snd. vm_compute. reflexivity.
  - reflexivity.
  - vm_compute. reflexivity.
  - vm_compute. reflexivity.
  - cbn [records]. right. left.
  - vm_compute. reflexivity.
  - vm_compute. reflexivity.
Defined.

End ImportMore.
